(** * ai_model_throughput_benchmark: the throughput search, verified

    A shallow embedding of
    [perfkitbenchmarker/linux_benchmarks/ai_model_throughput_benchmark.py]
    and the properties of its search, aggregation and burst scheduling.

    Conventions of the embedding.
    - Python [int] is [Z]. A measured time, and a statistic that is
      reported, is the exact rational [Qc] (canonical fractions, so equal
      numbers are equal terms): the rounding of reported values is not
      modelled, and an int that is divided for a report is taken to be
      within the range of a float.
    - Where rounding decides what the program does, in the number of bursts
      [math.floor(total_duration / time_between_bursts)], a float is a
      binary64 number of the standard library ([spec_float]), the division
      is the correctly rounded one and the conversions raise as in Python.
    - A Python exception is the [Raise] case of [result]; functions that
      also log run in the monad [M], which threads the log.
    - Readings of [time.time()], the behaviour of the remote model and the
      moment at which a worker's outcome becomes visible in the
      [multiprocessing.Queue] are inputs of the embedding, gathered in the
      record [Env]. *)

From Stdlib Require Import QArith Qcanon Qround.
From Stdlib Require Import Floats.SpecFloat.
From stdpp Require Import base option list numbers strings gmap sorting.

Local Open Scope Z_scope.

(** ** Python values and exceptions *)

Inductive pyval :=
| PInt (z : Z)
| PFloat (q : Qc)
| PStr (s : string)
| PBool (b : bool).

Global Instance pyval_eq_dec : EqDecision pyval.
Proof. solve_decision. Defined.

(** What [_EncounterClientError] is called about. *)
Inductive client_error :=
| StartupTooSlow (startup_duration : Qc)
| QueueWaitExceeded
| JoinWaitExceeded.

Inductive exn :=
| ZeroDivisionError
| OverflowError
| ValueError
| StatisticsError
| InvalidValue
| AssertionError
| GetError
| RunError (e : client_error)
| OtherError (name : string).

Inductive result (A : Type) :=
| Ok (a : A)
| Raise (e : exn).
Arguments Ok {A} a.
Arguments Raise {A} e.

Global Instance result_ret : MRet result := fun A a => Ok a.
Global Instance result_fmap : FMap result := fun A B f r =>
  match r with
  | Ok a => Ok (f a)
  | Raise e => Raise e
  end.
Global Instance result_bind : MBind result := fun A B k r =>
  match r with
  | Ok a => k a
  | Raise e => Raise e
  end.

(** ** The log *)

Inductive log_record :=
| Info_SendingQps (burst_requests : Z)
| Info_ReachedFailurePoint (burst_requests : Z) (failures : nat)
| Warning_FirstQpsHadErrors
| Warning_ReachedMaxBurst (last_successful_bursts : Z)
| Warning_ClientError (e : client_error)
| Info_FewerResults (expected : Z) (got : nat) (processes : nat).

(** A computation that may raise and that appends to the log. *)
Definition M (A : Type) : Type := list log_record -> result A * list log_record.

Global Instance M_ret : MRet M := fun A a log => (Ok a, log).
Global Instance M_bind : MBind M := fun A B k m log =>
  match m log with
  | (Ok a, log') => k a log'
  | (Raise e, log') => (Raise e, log')
  end.

Definition raise {A} (e : exn) : M A := fun log => (Raise e, log).
Definition logging (r : log_record) : M unit := fun log => (Ok tt, log ++ [r]).
Definition lift {A} (r : result A) : M A := fun log => (r, log).

(** Running a computation from the empty log. *)
Definition outcome {A} (m : M A) : result A := fst (m []).
Definition logged {A} (m : M A) : list log_record := snd (m []).

(** ** Python built-ins used by the benchmark *)

(** [range(start, stop, step)] for a positive [step]. *)
Definition py_range (start stop step : Z) : list Z :=
  (fun i : nat => start + Z.of_nat i * step) <$>
    seq 0 (Z.to_nat ((stop - start + step - 1) `div` step)).

(** [v or d] for an [Optional[int]] [v] and an int [d]: [None] and [0] are
    false. *)
Definition py_or (v : option Z) (d : Z) : Z :=
  match v with
  | Some z => if z =? 0 then d else z
  | None => d
  end.

(** True division [a / b] where the quotient is a value that is reported:
    the quotient is exact, and an int operand is within the range of a
    float. *)
Definition truediv (a b : Qc) : result Qc :=
  if decide (b = 0%Qc) then Raise ZeroDivisionError else Ok (a / b)%Qc.

(** *** Binary64 floats

    [float] is the Python float as it is: zeros, infinities, NaN and the
    finite numbers [m * 2 ^ e] of binary64, with the operations of the
    standard library's specification of IEEE 754. *)
Definition float : Type := spec_float.
Definition prec : Z := 53.
Definition emax : Z := 1024.

(** The conversion of an int to a float, to the nearest float, ties to even:
    [OverflowError] ("int too large to convert to float") beyond the range. *)
Definition float_of_int (a : Z) : result float :=
  match binary_normalize prec emax a 0 false with
  | S754_infinity _ => Raise OverflowError
  | x => Ok x
  end.

(** [a / y] for an int [a] and a float [y]: the int is converted first, then
    a zero divisor raises, then the quotient is rounded; a quotient beyond
    the range is an infinity. *)
Definition int_truediv_float (a : Z) (y : float) : result float :=
  x ← float_of_int a;
  match y with
  | S754_zero _ => Raise ZeroDivisionError
  | _ => Ok (SFdiv prec emax x y)
  end.

(** [math.floor] of a float: an int, [ValueError] for NaN, [OverflowError]
    for an infinity. *)
Definition math_floor (x : float) : result Z :=
  match x with
  | S754_zero _ => Ok 0
  | S754_finite s m e =>
      let n := if s then Zneg m else Zpos m in
      Ok match e with
         | Zneg k => n `div` Zpos (2 ^ k)
         | _ => n * 2 ^ e
         end
  | S754_infinity _ => Raise OverflowError
  | S754_nan => Raise ValueError
  end.

(** The number that a finite float is. *)
Definition float_value (x : float) : Qc :=
  match x with
  | S754_finite s m e =>
      let n := if s then Zneg m else Zpos m in
      match e with
      | Zneg k => Q2Qc (n # 2 ^ k)
      | _ => Qc_of_Z (n * 2 ^ e)
      end
  | _ => 0%Qc
  end.

(** The float nearest to a rational, ties to even: the float itself when the
    rational is the value of a float. *)
Definition float_of_Qc (q : Qc) : float :=
  let nearest (s : bool) (n : positive) :=
    let '(m, e, l) :=
      SFdiv_core_binary prec emax (Zpos n) 0 (Zpos (Qden q)) 0 in
    binary_round_aux prec emax s m e l in
  match Qnum q with
  | 0 => S754_zero false
  | Zpos n => nearest false n
  | Zneg n => nearest true n
  end.

(** [statistics.median]: the middle of the sorted data, or the average of
    the two middle values when there is an even number of them. *)
Definition sorted (data : list Qc) : list Qc := merge_sort Qcle data.

Definition median (data : list Qc) : result Qc :=
  let data := sorted data in
  let n := length data in
  if decide (n = 0%nat) then Raise StatisticsError
  else if Nat.odd n then Ok (nth (n / 2)%nat data 0%Qc)
  else
    let i := (n / 2)%nat in
    Ok ((nth (i - 1)%nat data 0%Qc + nth i data 0%Qc) / Qc_of_Z 2)%Qc.

(** [statistics.mean]: the exact sum over the number of values. *)
Definition fsum (data : list Qc) : Qc := foldr Qcplus 0%Qc data.

Definition mean (data : list Qc) : result Qc :=
  if decide (length data = 0%nat) then Raise StatisticsError
  else Ok (fsum data / Qc_of_Z (Z.of_nat (length data)))%Qc.

Global Arguments truediv : simpl never.
Global Arguments float_of_int : simpl never.
Global Arguments float_of_Qc : simpl never.
Global Arguments float_value : simpl never.
Global Arguments median : simpl never.
Global Arguments mean : simpl never.

(** ** Data model *)

(** The flags of the benchmark ([_STARTING_REQUESTS], [_MAX_PARALLEL_REQUESTS],
    [_TEST_DURATION], [_BURST_TIME], [_THROW_ON_CLIENT_ERRORS]). *)
Record Flags := {
  ai_starting_requests : Z;
  ai_max_requests : option Z;
  ai_test_duration : Z;
  ai_burst_time : Qc;
  ai_throw_on_client_errors : bool;
}.

Definition _QUEUE_WAIT_TIME : Qc := Qc_of_Z (10 * 60).
Definition _FAIL_LATENCY : Qc := Qc_of_Z 95.

(** [ModelResponse]: [status] is 0 for a response and 1 for a failed send. *)
Record ModelResponse := {
  start_time : Qc;
  end_time : Qc;
  response : option string;
  status : Z;
}.

(** Modelled from the spec: [managed_ai_model.BaseManagedAiModel] is not part
    of the sources at hand; the benchmark reads its resource metadata (a
    dictionary) and sends prompts to it. *)
Record BaseManagedAiModel := {
  GetResourceMetadata : gmap string pyval;
}.

(** Modelled from the spec: [sample.Sample] is not part of the sources at
    hand; a metric record is [{name, value, unit, metadata}]. *)
Record Sample := {
  metric : string;
  value : pyval;
  unit_ : string;
  metadata : gmap string pyval;
}.

Definition duration (r : ModelResponse) : Qc := (end_time r - start_time r)%Qc.

(** The test of the list comprehension in [FindMaxThroughput]:
    [response.status != 0 or
     response.end_time - response.start_time > _FAIL_LATENCY]. *)
Definition failed (r : ModelResponse) : Prop :=
  status r ≠ 0 ∨ (_FAIL_LATENCY < duration r)%Qc.

Global Instance failed_dec r : Decision (failed r).
Proof. unfold failed. apply _. Defined.

(** ** CheckPrerequisites *)

(** The condition is [value and value < starting]: a maximum of [None] or of
    [0] is false. *)
Definition CheckPrerequisites (fl : Flags) : result unit :=
  match ai_max_requests fl with
  | Some m =>
      if negb (m =? 0) && (m <? ai_starting_requests fl)
      then Raise InvalidValue
      else Ok tt
  | None => Ok tt
  end.

(** ** _AggregateResponses *)

Section Aggregate.
Variable fl : Flags.

Definition _AggregateResponses
    (responses failed_responses : list ModelResponse)
    (model : BaseManagedAiModel) (burst_requests : Z) : result (list Sample) :=
  let successful_durations := duration <$> responses in
  let failed_durations := duration <$> failed_responses in
  let metadata := GetResourceMetadata model in
  effective_qps ← truediv (Qc_of_Z burst_requests) (ai_burst_time fl);
  let metadata :=
    <["effective_qps" := PFloat effective_qps]>
      (<["burst_time" := PFloat (ai_burst_time fl)]>
         (<["test_duration" := PInt (ai_test_duration fl)]>
            (<["parallel_requests" := PInt burst_requests]> metadata))) in
  samples ←
    match failed_durations with
    | [] => Ok []
    | _ =>
        m ← median failed_durations;
        Ok [ {| metric := "failure_median_response_time"; value := PFloat m;
                unit_ := "seconds"; metadata := metadata |};
             {| metric := "num_failures";
                value := PInt (Z.of_nat (length failed_durations));
                unit_ := "count"; metadata := metadata |} ]
    end;
  match successful_durations with
  | [] => Ok samples
  | _ =>
      rate ← truediv (Qc_of_Z (Z.of_nat (length successful_durations)))
               (Qc_of_Z (Z.of_nat (length successful_durations)
                         + Z.of_nat (length failed_durations)));
      med ← median successful_durations;
      avg ← mean successful_durations;
      Ok (samples ++
          [ {| metric := "success_rate"; value := PFloat (rate * Qc_of_Z 100)%Qc;
               unit_ := "percent"; metadata := metadata |};
            {| metric := "num_responses";
               value := PInt (Z.of_nat (length responses));
               unit_ := "count"; metadata := metadata |};
            {| metric := "median_response_time"; value := PFloat med;
               unit_ := "seconds"; metadata := metadata |};
            {| metric := "mean_response_time"; value := PFloat avg;
               unit_ := "seconds"; metadata := metadata |} ])
  end.
End Aggregate.

Global Arguments _AggregateResponses : simpl never.

(** ** FindMaxThroughput *)

(** The variables of the loop of [FindMaxThroughput] that outlive it. *)
Record SearchState := {
  burst_requests : Z;
  responses : list ModelResponse;
  failed_responses : list ModelResponse;
  last_responses : list ModelResponse;
}.

(** The loop variables before the loop of [FindMaxThroughput]. *)
Definition initial_state (fl : Flags) : SearchState :=
  {| burst_requests := ai_starting_requests fl; responses := [];
     failed_responses := []; last_responses := [] |}.

(** [max_requests], the upper bound of the range of [FindMaxThroughput]. *)
Definition max_requests (fl : Flags) : Z :=
  py_or (ai_max_requests fl) (ai_starting_requests fl + 1).

Section Search.
Variable fl : Flags.
(** What the call [BurstRequestsOverTime(ai_model, burst_requests,
    total_duration, time_between_bursts)] gives back to the search. *)
Variable burst : BaseManagedAiModel -> Z -> Z -> Qc -> result (list ModelResponse).
Variable ai_model : BaseManagedAiModel.

(** The [for] loop over [range(...)]; returning without recursion is
    the [break]. *)
Fixpoint search_loop (levels : list Z) (st : SearchState) : M SearchState :=
  match levels with
  | [] => mret st
  | level :: levels =>
      logging (Info_SendingQps level);;
      responses ← lift (burst ai_model level (ai_test_duration fl) (ai_burst_time fl));
      let failed_responses := filter failed responses in
      match failed_responses with
      | _ :: _ =>
          logging (Info_ReachedFailurePoint level (length failed_responses));;
          mret {| burst_requests := level; responses := responses;
                  failed_responses := failed_responses;
                  last_responses := last_responses st |}
      | [] =>
          search_loop levels
            {| burst_requests := level; responses := responses;
               failed_responses := failed_responses;
               last_responses := responses |}
      end
  end.

Definition FindMaxThroughput : M (list Sample) :=
  let step := 3 in
  st ← search_loop (py_range (ai_starting_requests fl) (max_requests fl) step)
         (initial_state fl);
  match last_responses st with
  | [] =>
      logging Warning_FirstQpsHadErrors;;
      lift (_AggregateResponses fl (responses st) (failed_responses st)
              ai_model (ai_starting_requests fl))
  | _ :: _ =>
      last_successful_bursts ←
        match failed_responses st with
        | _ :: _ => mret (burst_requests st - step)
        | [] =>
            logging (Warning_ReachedMaxBurst (burst_requests st));;
            mret (burst_requests st)
        end;
      samples ← lift (_AggregateResponses fl (last_responses st)
                        (failed_responses st) ai_model last_successful_bursts);
      match samples with
      | [] => raise AssertionError
      | s0 :: _ =>
          max_throughput ←
            lift (truediv (Qc_of_Z last_successful_bursts) (ai_burst_time fl));
          mret (samples ++
                [ {| metric := "max_throughput"; value := PFloat max_throughput;
                     unit_ := "count"; metadata := metadata s0 |} ])
      end
  end.
End Search.

(** ** The workers and the burst scheduler *)

(** What one call [_SendPrompt(ai_model, _SHARED_REQUEST)] does: it iterates
    over the responses and returns [None], or the model raises. *)
Inductive send_result :=
| Returned
| RaisedGetError
| RaisedOther (name : string).

Definition _SendPrompt (target : send_result) : result unit :=
  match target with
  | Returned => Ok tt
  | RaisedGetError => Raise GetError
  | RaisedOther name => Raise (OtherError name)
  end.

(** [TimePromptsForModel]: [now_before] and [now_after] are the two readings
    of [time.time()]; the second component is the queue after the call. *)
Definition TimePromptsForModel (now_before now_after : Qc) (target : send_result)
    (output_queue : list ModelResponse) : result unit * list ModelResponse :=
  let start_time := now_before in
  match _SendPrompt target with
  | Ok _ =>
      (Ok tt, output_queue ++
              [ {| start_time := start_time; end_time := now_after;
                   response := None; status := 0 |} ])
  | Raise GetError =>
      (Ok tt, output_queue ++
              [ {| start_time := start_time; end_time := now_after;
                   response := None; status := 1 |} ])
  | Raise e => (Raise e, output_queue)
  end.

(** When the [put] of a worker process becomes visible to the parent: while
    the parent empties the queue for the first time, afterwards (while the
    parent joins the processes), or not before the parent returns. *)
Inductive arrival := BeforeFirstDrain | BeforeSecondDrain | NotInTime.

Global Instance arrival_eq_dec : EqDecision arrival.
Proof. solve_decision. Defined.

Record Worker := {
  now_before : Qc;
  now_after : Qc;
  target : send_result;
  arrives : arrival;
}.

(** Everything one run of [BurstRequestsOverTime] observes from outside:
    the worker processes by order of creation, and the differences of clock
    readings that the run computes. *)
Record Env := {
  worker : nat -> Worker;
  process_startup_duration : nat -> Qc;
  queue_duration : nat -> nat -> Qc;
  process_duration : nat -> Qc;
}.

(** [SendParallelRequests]: the processes created, named by their rank. *)
Definition SendParallelRequests (created : nat) (requests : Z) : list nat :=
  seq created (Z.to_nat requests).

(** The child processes of rank [processes] that put in phase [when] run
    [TimePromptsForModel] on the shared queue; an exception of a child does
    not reach the parent. The outcomes are taken in the order of creation of
    the processes; nothing that is proved below depends on that order. *)
Definition deliver (env : Env) (when : arrival) (processes : list nat)
    (output_queue : list ModelResponse) : list ModelResponse :=
  foldl (fun queue p =>
           let w := worker env p in
           if decide (arrives w = when)
           then snd (TimePromptsForModel (now_before w) (now_after w) (target w) queue)
           else queue)
        output_queue processes.

(** [math.floor(total_duration / time_between_bursts)], the number of bursts
    of a run. *)
Definition goal_bursts_of (total_duration : Z) (time_between_bursts : float)
    : result Z :=
  ratio ← int_truediv_float total_duration time_between_bursts;
  math_floor ratio.

Section Burst.
Variable fl : Flags.
Variable env : Env.

Definition _EncounterClientError (error_msg : client_error) : M unit :=
  if ai_throw_on_client_errors fl
  then raise (RunError error_msg)
  else logging (Warning_ClientError error_msg).

(** The first loop of [BurstRequestsOverTime], over [range(goal_bursts)].
    The inner loop that sleeps until [time_between_bursts] has passed only
    lets time pass. *)
Fixpoint launch (burst_requests : Z) (time_between_bursts : Qc)
    (bursts : list nat) (processes : list nat) : M (list nat) :=
  match bursts with
  | [] => mret processes
  | i :: bursts =>
      let processes :=
        processes ++ SendParallelRequests (length processes) burst_requests in
      let startup := process_startup_duration env i in
      (if decide (time_between_bursts < startup)%Qc
       then _EncounterClientError (StartupTooSlow startup)
       else mret tt);;
      launch burst_requests time_between_bursts bursts processes
  end.

(** The loop of [EmptyQueue]: [n] gets have been made so far; the result
    is [results] and what is left in the queue. *)
Fixpoint EmptyQueue_loop (clock : nat -> Qc) (n : nat)
    (output_queue results : list ModelResponse)
    : M (list ModelResponse * list ModelResponse) :=
  match output_queue with
  | [] => mret (results, [])
  | r :: output_queue =>
      let results := results ++ [r] in
      if decide (_QUEUE_WAIT_TIME < clock n)%Qc
      then _EncounterClientError QueueWaitExceeded;;
           mret (results, output_queue)
      else EmptyQueue_loop clock (S n) output_queue results
  end.

Definition EmptyQueue (clock : nat -> Qc) (output_queue : list ModelResponse)
    : M (list ModelResponse * list ModelResponse) :=
  EmptyQueue_loop clock 0 output_queue [].

(** The loop [for p in processes: p.join(_FAIL_LATENCY) ...]. *)
Fixpoint join_loop (processes : list nat) : M unit :=
  match processes with
  | [] => mret tt
  | p :: processes =>
      if decide (_FAIL_LATENCY < process_duration env p)%Qc
      then _EncounterClientError JoinWaitExceeded
      else join_loop processes
  end.

(** [time_between_bursts] is a float. It is compared with a duration only
    when there is a burst to launch, and then it is finite (an infinity
    gives no burst and NaN raises), and the comparison is the one with its
    value. *)
Definition BurstRequestsOverTime (ai_model : BaseManagedAiModel)
    (burst_requests total_duration : Z) (time_between_bursts : float)
    : M (list ModelResponse) :=
  goal_bursts ← lift (goal_bursts_of total_duration time_between_bursts);
  let output_queue := [] in
  processes ← launch burst_requests (float_value time_between_bursts)
                (seq 0 (Z.to_nat goal_bursts)) [];
  let output_queue := deliver env BeforeFirstDrain processes output_queue in
  '(results, output_queue) ← EmptyQueue (queue_duration env 0) output_queue;
  join_loop processes;;
  let output_queue := deliver env BeforeSecondDrain processes output_queue in
  '(results, output_queue) ←
    match results with
    | [] => EmptyQueue (queue_duration env 1) output_queue
    | _ :: _ => mret (results, output_queue)
    end;
  let expected_results := goal_bursts * burst_requests in
  (if decide (Z.of_nat (length results) < expected_results)
   then logging (Info_FewerResults expected_results (length results)
                   (length processes))
   else mret tt);;
  mret results.
End Burst.

(** The search run against the scheduler: [world level] is what the run at
    [level] observes. The log of the search holds its own records. The
    search carries the burst time as the number it is; the scheduler is
    given the float of that number. *)
Definition FindMaxThroughput_in (fl : Flags) (world : Z -> Env)
    (ai_model : BaseManagedAiModel) : M (list Sample) :=
  FindMaxThroughput fl
    (fun model level total_duration time_between_bursts =>
       outcome (BurstRequestsOverTime fl (world level) model level
                  total_duration (float_of_Qc time_between_bursts)))
    ai_model.

(** ** Observations on runs and reports *)

(** The levels at which the search called the scheduler, read off its log
    ([logging.info('Sending %s qps', burst_requests)]). *)
Definition levels_attempted (log : list log_record) : list Z :=
  omap (fun r => match r with Info_SendingQps level => Some level | _ => None end) log.

Definition metrics (samples : list Sample) : list string := metric <$> samples.

(** The value of the first sample named [name]. *)
Definition sample_value (name : string) (samples : list Sample) : option pyval :=
  value <$> head (filter (fun s => metric s = name) samples).

(** The metadata that the samples of one call of [_AggregateResponses]
    share: the metadata of the model, updated. *)
Definition sample_metadata (fl : Flags) (model : BaseManagedAiModel)
    (level : Z) (effective_qps : Qc) : gmap string pyval :=
  <["effective_qps" := PFloat effective_qps]>
    (<["burst_time" := PFloat (ai_burst_time fl)]>
       (<["test_duration" := PInt (ai_test_duration fl)]>
          (<["parallel_requests" := PInt level]> (GetResourceMetadata model)))).

Definition make_sample (name : string) (v : pyval) (u : string)
    (md : gmap string pyval) : Sample :=
  {| metric := name; value := v; unit_ := u; metadata := md |}.

(** The two failure statistics of a non-empty list of failed durations. *)
Definition failure_statistics (failed_durations : list Qc) (fmed : Qc)
    (md : gmap string pyval) : list Sample :=
  match failed_durations with
  | [] => []
  | _ :: _ =>
      [ make_sample "failure_median_response_time" (PFloat fmed) "seconds" md;
        make_sample "num_failures" (PInt (Z.of_nat (length failed_durations)))
          "count" md ]
  end.

(** The four success statistics. *)
Definition success_statistics (successes failures : nat) (med avg : Qc)
    (md : gmap string pyval) : list Sample :=
  [ make_sample "success_rate"
      (PFloat (Qc_of_Z (Z.of_nat successes)
               / Qc_of_Z (Z.of_nat successes + Z.of_nat failures)
               * Qc_of_Z 100)%Qc) "percent" md;
    make_sample "num_responses" (PInt (Z.of_nat successes)) "count" md;
    make_sample "median_response_time" (PFloat med) "seconds" md;
    make_sample "mean_response_time" (PFloat avg) "seconds" md ].

(** A median in the sense of order statistics: at least half of the values
    are at most [m] and at least half are at least [m]. *)
Definition is_median (m : Qc) (data : list Qc) : Prop :=
  (length data <= 2 * length (filter (fun x => x ≤ m)%Qc data))%nat ∧
  (length data <= 2 * length (filter (fun x => m ≤ x)%Qc data))%nat.

(** A report that holds failure statistics only. *)
Definition only_failure_statistics (samples : list Sample) : Prop :=
  ∀ name, name ∈ metrics samples →
    name = "failure_median_response_time" ∨ name = "num_failures".

(** The run at [level] returned, and none of its outcomes is failed. *)
Definition clean_run (r : result (list ModelResponse)) : Prop :=
  ∃ rs, r = Ok rs ∧ filter failed rs = [].

(** The run at [level] returned [rs], and one of its outcomes is failed. *)
Definition breaking_run (r : result (list ModelResponse)) (rs : list ModelResponse) : Prop :=
  r = Ok rs ∧ filter failed rs ≠ [].

Definition responses_of (r : result (list ModelResponse)) : list ModelResponse :=
  match r with Ok rs => rs | Raise _ => [] end.

(** The call of the scheduler that the search makes at [level]. *)
Definition run_at (fl : Flags)
    (burst : BaseManagedAiModel → Z → Z → Qc → result (list ModelResponse))
    (ai_model : BaseManagedAiModel) (level : Z) : result (list ModelResponse) :=
  burst ai_model level (ai_test_duration fl) (ai_burst_time fl).

(** The loop variables after clean runs at [levels], one after the other. *)
Definition after_clean_runs (fl : Flags)
    (burst : BaseManagedAiModel → Z → Z → Qc → result (list ModelResponse))
    (ai_model : BaseManagedAiModel) (st : SearchState) (levels : list Z)
    : SearchState :=
  foldl (fun st level =>
           let rs := responses_of (run_at fl burst ai_model level) in
           {| burst_requests := level; responses := rs;
              failed_responses := []; last_responses := rs |})
        st levels.

(** The level that [FindMaxThroughput] reports as the last successful one. *)
Definition last_successful_bursts (st : SearchState) : Z :=
  match failed_responses st with
  | [] => burst_requests st
  | _ :: _ => burst_requests st - 3
  end.

(** The sample that closes the report of a search with a successful level. *)
Definition max_throughput_sample (fl : Flags) (level : Z)
    (md : gmap string pyval) : Sample :=
  make_sample "max_throughput"
    (PFloat (Qc_of_Z level / ai_burst_time fl)%Qc) "count" md.

(** ** Concrete configurations and runs *)

Module Scenario.
(** Flags with the defaults of the benchmark for duration, burst time
    and strictness. *)
Definition flags (starting : Z) (maximum : option Z) : Flags :=
  {| ai_starting_requests := starting; ai_max_requests := maximum;
     ai_test_duration := 60; ai_burst_time := Qc_of_Z 1;
     ai_throw_on_client_errors := false |}.

Definition model : BaseManagedAiModel := {| GetResourceMetadata := ∅ |}.

(** A response that took [seconds] seconds. *)
Definition took (seconds : Z) (status : Z) : ModelResponse :=
  {| start_time := Qc_of_Z 0; end_time := Qc_of_Z seconds;
     response := None; status := status |}.

(** A scheduler that returns, at each level, the scripted responses. *)
Fixpoint scripted_run (runs : list (Z * list ModelResponse)) (level : Z)
    : list ModelResponse :=
  match runs with
  | [] => []
  | (l, rs) :: runs => if decide (l = level) then rs else scripted_run runs level
  end.

Definition scripted (runs : list (Z * list ModelResponse))
    : BaseManagedAiModel → Z → Z → Qc → result (list ModelResponse) :=
  fun _ level _ _ => Ok (scripted_run runs level).

(** Level 5 alone: one response in time, one after 96 seconds. *)
Definition mixed_first_level := scripted [(5, [took 1 0; took 96 0])].

(** Level 5 clean, level 8 with one or with two failed responses. *)
Definition break_at_8_once := scripted [(5, [took 1 0]); (8, [took 96 0])].
Definition break_at_8_twice :=
  scripted [(5, [took 1 0]); (8, [took 96 0; took 97 1])].

(** Level 5 returns no outcome at all, level 8 has a failed response. *)
Definition empty_then_break := scripted [(5, []); (8, [took 96 0])].

(** Level 5 returns no outcome at all. *)
Definition nothing_collected := scripted [(5, [])].

(** Three responses of 1, 2 and 3 seconds, and one of 96 seconds. *)
Definition three_successes : list ModelResponse := [took 1 0; took 2 0; took 3 0].
Definition one_failure : list ModelResponse := [took 96 0].
End Scenario.

(** ** Observations on one run of the scheduler *)

(** The number of worker processes that [goal_bursts] bursts of
    [burst_requests] requests create. *)
Definition dispatched (burst_requests goal_bursts : Z) : nat :=
  (Z.to_nat goal_bursts * Z.to_nat burst_requests)%nat.

(** The client did not keep up: launching a burst took longer than
    [time_between_bursts], or the time spent joining the processes went
    beyond [_FAIL_LATENCY]. *)
Definition client_overload (env : Env) (burst_requests goal_bursts : Z)
    (time_between_bursts : Qc) : Prop :=
  (∃ i : nat, (i < Z.to_nat goal_bursts)%nat ∧
              (time_between_bursts < process_startup_duration env i)%Qc) ∨
  (∃ p : nat, (p < dispatched burst_requests goal_bursts)%nat ∧
              (_FAIL_LATENCY < process_duration env p)%Qc).

Module BurstScenario.
(** A worker whose request is answered within a second, and whose
    outcome is in the queue when the parent first empties it. *)
Definition prompt_worker : Worker :=
  {| now_before := Qc_of_Z 0; now_after := Qc_of_Z 1;
     target := Returned; arrives := BeforeFirstDrain |}.

(** Launching is immediate and nothing is slow. *)
Definition calm : Env :=
  {| worker := fun _ => prompt_worker;
     process_startup_duration := fun _ => Qc_of_Z 0;
     queue_duration := fun _ _ => Qc_of_Z 0;
     process_duration := fun _ => Qc_of_Z 0 |}.

(** Launching each burst takes two seconds. *)
Definition slow_launch : Env :=
  {| worker := fun _ => prompt_worker;
     process_startup_duration := fun _ => Qc_of_Z 2;
     queue_duration := fun _ _ => Qc_of_Z 0;
     process_duration := fun _ => Qc_of_Z 0 |}.

Definition strict (throw : bool) : Flags :=
  {| ai_starting_requests := 5; ai_max_requests := None;
     ai_test_duration := 2; ai_burst_time := Qc_of_Z 1;
     ai_throw_on_client_errors := throw |}.

(** The floats 1.0, 0.1 and 0.07. *)
Definition one_second : float := S754_finite false 4503599627370496 (-52).
Definition a_tenth : float := S754_finite false 7205759403792794 (-56).
Definition seven_hundredths : float := S754_finite false 5044031582654956 (-56).

(** Levels 5, 8 and 11, each for one second at a burst time of 0.1. *)
Definition tenths : Flags :=
  {| ai_starting_requests := 5; ai_max_requests := Some 12;
     ai_test_duration := 1; ai_burst_time := float_value a_tenth;
     ai_throw_on_client_errors := false |}.
End BurstScenario.

(** The samples of a search that returned. *)
Definition report_of (r : result (list Sample)) : list Sample :=
  match r with Ok samples => samples | Raise _ => [] end.

(** [r] is the outcome that the worker [w] puts on the queue. *)
Definition outcome_of_worker (w : Worker) (r : ModelResponse) : Prop :=
  start_time r = now_before w ∧ end_time r = now_after w ∧ response r = None ∧
  (status r = 0 ∧ target w = Returned ∨ status r = 1 ∧ target w = RaisedGetError).

(** ** Run *)

(** Modelled from the spec: the benchmark specification and the methods of
    the model that [Run] calls are not part of the sources at hand. Taken as
    given are the model of the specification, if there is one, what
    [ListExistingEndpoints] returns or raises, what the prompt that is sent
    for confirmation does, and the model as it is once its metadata have
    been updated with the key ['First Model']. *)
Record BenchmarkSpec := {
  spec_ai_model : option BaseManagedAiModel;
  ListExistingEndpoints : result (list string);
  confirmation : send_result;
  with_first_model : bool → BaseManagedAiModel → BaseManagedAiModel;
}.

Definition Run (fl : Flags)
    (burst : BaseManagedAiModel → Z → Z → Qc → result (list ModelResponse))
    (benchmark_spec : BenchmarkSpec) : M (list Sample) :=
  match spec_ai_model benchmark_spec with
  | None => raise AssertionError
  | Some model =>
      endpoints ← lift (ListExistingEndpoints benchmark_spec);
      let model :=
        with_first_model benchmark_spec
          (bool_decide (length endpoints = 1%nat)) model in
      lift (_SendPrompt (confirmation benchmark_spec));;
      FindMaxThroughput fl burst model
  end.

(** ** Further concrete runs *)

Module MoreScenarios.
(** Level 5 is clean; the run at level 8 is stopped by a client error. *)
Definition stopped_at_8
    : BaseManagedAiModel → Z → Z → Qc → result (list ModelResponse) :=
  fun _ level _ _ =>
    if decide (level = 8) then Raise (RunError JoinWaitExceeded)
    else Ok [Scenario.took 1 0].

(** Every level returns one response in time. *)
Definition always_clean
    : BaseManagedAiModel → Z → Z → Qc → result (list ModelResponse) :=
  fun _ _ _ _ => Ok [Scenario.took 1 0].

(** A specification whose model has one endpoint and answers the prompt
    sent for confirmation as [confirmation] says. *)
Definition spec (confirmation : send_result) : BenchmarkSpec :=
  {| spec_ai_model := Some Scenario.model;
     ListExistingEndpoints := Ok ["endpoint"];
     confirmation := confirmation;
     with_first_model := fun _ model => model |}.

(** A queue of three outcomes. *)
Definition three_in_queue : list ModelResponse :=
  [Scenario.took 1 0; Scenario.took 2 0; Scenario.took 3 0].

(** Readings of the clock while the queue is emptied: the second reading
    is beyond the waiting time. *)
Definition late_second_reading (n : nat) : Qc :=
  if decide (n = 1%nat) then Qc_of_Z 601 else Qc_of_Z 0.

(** The first join is in time, the later ones are late. *)
Definition late_joins : Env :=
  {| worker := fun _ => BurstScenario.prompt_worker;
     process_startup_duration := fun _ => Qc_of_Z 0;
     queue_duration := fun _ _ => Qc_of_Z 0;
     process_duration := fun p => if decide (p = 0%nat) then Qc_of_Z 1
                                  else Qc_of_Z 96 |}.

(** Strict mode at a burst time of zero. *)
Definition zero_burst_time : Flags :=
  {| ai_starting_requests := 5; ai_max_requests := None;
     ai_test_duration := 60; ai_burst_time := Qc_of_Z 0;
     ai_throw_on_client_errors := true |}.
End MoreScenarios.

(** * Properties *)

(** ** Python built-ins *)

Lemma truediv_ok (a b : Qc) : b ≠ 0%Qc → truediv a b = Ok (a / b)%Qc.
Proof. intros Hb. unfold truediv. by case_decide. Qed.

Lemma Qc_of_Z_nonzero (z : Z) : z ≠ 0 → Qc_of_Z z ≠ 0%Qc.
Proof.
  intros Hz Heq. apply Hz.
  apply (f_equal (fun q : Qc => Qnum (this q))) in Heq. exact Heq.
Qed.

Lemma py_range_length (start stop : Z) :
  Z.of_nat (length (py_range start stop 3)) = Z.max 0 ((stop - start + 2) `div` 3).
Proof.
  unfold py_range. rewrite length_fmap, length_seq.
  replace (stop - start + 3 - 1) with (stop - start + 2) by lia. lia.
Qed.

Lemma py_range_lookup (start stop : Z) (i : nat) (x : Z) :
  py_range start stop 3 !! i = Some x ↔ x = start + 3 * Z.of_nat i ∧ x < stop.
Proof.
  unfold py_range. rewrite list_lookup_fmap, fmap_Some. split.
  - intros (j & Hj & ->). apply lookup_seq in Hj as [-> Hlt].
    split; [lia|]. revert Hlt. Z.div_mod_to_equations. lia.
  - intros [-> Hlt]. exists i. split; [|lia].
    apply lookup_seq. split; [done|]. revert Hlt. Z.div_mod_to_equations. lia.
Qed.

Lemma elem_of_py_range (start stop x : Z) :
  x ∈ py_range start stop 3 ↔ ∃ k : nat, x = start + 3 * Z.of_nat k ∧ x < stop.
Proof.
  rewrite list_elem_of_lookup. split.
  - intros [i Hi]. apply py_range_lookup in Hi. eauto.
  - intros (k & Hk). exists k. by apply py_range_lookup.
Qed.

Lemma py_range_nil (start stop : Z) : stop <= start → py_range start stop 3 = [].
Proof.
  intros Hle. apply length_zero_iff_nil.
  pose proof (py_range_length start stop) as Hlen.
  revert Hlen. Z.div_mod_to_equations. lia.
Qed.

Lemma py_range_cons (start stop : Z) :
  start < stop → py_range start stop 3 = start :: py_range (start + 3) stop 3.
Proof.
  intros Hlt. apply list_eq. intros [|i].
  - simpl. apply py_range_lookup. lia.
  - simpl. destruct (py_range (start + 3) stop 3 !! i) as [x|] eqn:Hx.
    + apply py_range_lookup in Hx. apply py_range_lookup. lia.
    + destruct (py_range start stop 3 !! S i) as [y|] eqn:Hy; [|done].
      apply py_range_lookup in Hy.
      assert (py_range (start + 3) stop 3 !! i = Some y) as Hy'
        by (apply py_range_lookup; lia).
      congruence.
Qed.

Lemma py_range_app (k : nat) (start stop : Z) :
  (k = 0%nat ∨ start + 3 * Z.of_nat k - 3 < stop) →
  py_range start stop 3 =
    py_range start (start + 3 * Z.of_nat k) 3 ++ py_range (start + 3 * Z.of_nat k) stop 3.
Proof.
  revert start. induction k as [|k IH]; intros start Hk.
  - rewrite (py_range_nil start (start + 3 * Z.of_nat 0)) by lia.
    simpl. f_equal. lia.
  - destruct Hk as [?|Hk]; [lia|].
    rewrite (py_range_cons start stop) by lia.
    rewrite (py_range_cons start (start + 3 * Z.of_nat (S k))) by lia.
    rewrite (IH (start + 3)) by lia. simpl.
    replace (start + 3 + 3 * Z.of_nat k) with (start + 3 * Z.of_nat (S k)) by lia.
    done.
Qed.

(** A level of the range splits it into the levels below, which are smaller,
    itself, and the levels above. *)
Lemma py_range_split (start stop level : Z) :
  level ∈ py_range start stop 3 →
  py_range start stop 3 =
    py_range start level 3 ++ level :: py_range (level + 3) stop 3.
Proof.
  intros (k & -> & Hlt)%elem_of_py_range.
  rewrite (py_range_app k start stop) by lia.
  by rewrite (py_range_cons (start + 3 * Z.of_nat k) stop) by lia.
Qed.

(** Below a level of the range other than the first, the range ends with
    that level minus the step. *)
Lemma py_range_snoc (start stop level : Z) :
  level ∈ py_range start stop 3 → start < level →
  py_range start level 3 = py_range start (level - 3) 3 ++ [level - 3].
Proof.
  intros (k & -> & Hlt)%elem_of_py_range Hgt.
  destruct k as [|k]; [lia|].
  rewrite (py_range_app k start (start + 3 * Z.of_nat (S k))) by lia.
  replace (start + 3 * Z.of_nat (S k) - 3) with (start + 3 * Z.of_nat k) by lia.
  f_equal.
  rewrite py_range_cons by lia. f_equal. apply py_range_nil. lia.
Qed.

Lemma py_range_below (start stop level x : Z) :
  x ∈ py_range start level 3 → level ∈ py_range start stop 3 →
  x ∈ py_range start stop 3 ∧ x < level.
Proof.
  intros (k & -> & Hlt)%elem_of_py_range (k' & -> & Hlt')%elem_of_py_range.
  split; [|done]. apply elem_of_py_range. exists k. lia.
Qed.

(** ** The monad of logging computations *)

(** Unfolds the operations of [M] and runs them on the log at hand. *)
Ltac run_M :=
  unfold mbind, M_bind, mret, M_ret, logging, lift, raise; cbn.

(** ** The aggregator *)

Lemma median_ok (data : list Qc) : data ≠ [] → ∃ m, median data = Ok m.
Proof.
  intros Hne. unfold median.
  assert (length (sorted data) ≠ 0%nat) as Hlen.
  { unfold sorted. rewrite (Permutation_length (merge_sort_Permutation _ data)).
    by destruct data. }
  case_decide; [done|]. destruct (Nat.odd _); eauto.
Qed.

Lemma mean_ok (data : list Qc) :
  data ≠ [] →
  ∃ avg, mean data = Ok avg ∧
         (avg * Qc_of_Z (Z.of_nat (length data)) = fsum data)%Qc.
Proof.
  intros Hne. unfold mean.
  assert (length data ≠ 0%nat) as Hlen by (by destruct data).
  case_decide; [done|]. eexists. split; [done|].
  assert (Qc_of_Z (Z.of_nat (length data)) ≠ 0%Qc) as Hnz
    by (apply Qc_of_Z_nonzero; lia).
  field. exact Hnz.
Qed.

Section AggregateFacts.
Variable fl : Flags.
Variable model : BaseManagedAiModel.
Hypothesis burst_time_nonzero : ai_burst_time fl ≠ 0%Qc.

Let md (level : Z) : gmap string pyval :=
  sample_metadata fl model level (Qc_of_Z level / ai_burst_time fl)%Qc.

(** The failure statistics come first, and are there exactly when there
    are failed responses. *)
Lemma aggregate_failures (failed_responses : list ModelResponse) (level : Z) :
  ∃ fmed,
    (failed_responses ≠ [] → median (duration <$> failed_responses) = Ok fmed) ∧
    _AggregateResponses fl [] failed_responses model level =
      Ok (failure_statistics (duration <$> failed_responses) fmed (md level)).
Proof.
  unfold _AggregateResponses.
  rewrite (truediv_ok _ (ai_burst_time fl)) by done. simpl.
  destruct failed_responses as [|r failed_responses].
  - exists 0%Qc. done.
  - destruct (median_ok (duration <$> r :: failed_responses)) as [fmed Hfmed]; [done|].
    exists fmed. split; [done|]. simpl in *. by rewrite Hfmed.
Qed.

Lemma aggregate_successes (responses failed_responses : list ModelResponse)
    (level : Z) :
  responses ≠ [] →
  ∃ fmed med avg,
    (failed_responses ≠ [] → median (duration <$> failed_responses) = Ok fmed) ∧
    median (duration <$> responses) = Ok med ∧
    mean (duration <$> responses) = Ok avg ∧
    _AggregateResponses fl responses failed_responses model level =
      Ok (failure_statistics (duration <$> failed_responses) fmed (md level) ++
          success_statistics (length responses) (length failed_responses)
            med avg (md level)).
Proof.
  intros Hne.
  destruct (aggregate_failures failed_responses level) as (fmed & Hfmed & Hagg).
  revert Hagg. unfold _AggregateResponses.
  rewrite !(truediv_ok _ (ai_burst_time fl)) by done.
  remember (duration <$> responses) as sd eqn:Hsd.
  assert (length sd = length responses) as Hlen by (subst sd; apply length_fmap).
  assert (sd ≠ []) as Hsdne by (intros ->; by destruct responses).
  destruct (median_ok sd) as [med Hmed]; [done|].
  destruct (mean_ok sd) as (avg & Havg & _); [done|].
  exists fmed, med, avg. repeat split; try done.
  simpl in *.
  destruct (match duration <$> failed_responses with [] => _ | _ => _ end)
    as [samples|e]; [|done].
  simpl in Hagg |- *. injection Hagg as ->.
  destruct sd as [|x sd']; [done|].
  rewrite truediv_ok.
  2:{ apply Qc_of_Z_nonzero. simpl. lia. }
  cbn. rewrite Hmed. cbn. rewrite Havg. cbn.
  unfold success_statistics. rewrite !length_fmap, <- Hlen. done.
Qed.
End AggregateFacts.

(** ** The loop of the search *)

Section SearchFacts.
Variable fl : Flags.
Variable burst : BaseManagedAiModel → Z → Z → Qc → result (list ModelResponse).
Variable ai_model : BaseManagedAiModel.

Let run (level : Z) := run_at fl burst ai_model level.
Let clean (level : Z) := clean_run (run level).

Lemma after_clean_runs_snoc (st : SearchState) (pre : list Z) (level : Z) :
  after_clean_runs fl burst ai_model st (pre ++ [level]) =
    {| burst_requests := level; responses := responses_of (run level);
       failed_responses := []; last_responses := responses_of (run level) |}.
Proof. unfold after_clean_runs. by rewrite foldl_app. Qed.

(** Clean runs: the loop goes on. *)
Lemma search_loop_clean (pre rest : list Z) (st : SearchState)
    (log : list log_record) :
  Forall clean pre →
  search_loop fl burst ai_model (pre ++ rest) st log =
    search_loop fl burst ai_model rest
      (after_clean_runs fl burst ai_model st pre)
      (log ++ (Info_SendingQps <$> pre)).
Proof.
  intros Hpre. revert st log.
  induction Hpre as [|level pre (rs & Hrs & Hclean) _ IH]; intros st log.
  - simpl. by rewrite app_nil_r.
  - simpl. run_M. unfold run, run_at in Hrs.
    rewrite Hrs, Hclean, IH, <- app_assoc. simpl.
    unfold run_at. by rewrite Hrs.
Qed.

(** A breaking run: the loop is left, with the responses of the run before. *)
Lemma search_loop_break (level : Z) (post : list Z) (rs : list ModelResponse)
    (st : SearchState) (log : list log_record) :
  breaking_run (run level) rs →
  search_loop fl burst ai_model (level :: post) st log =
    (Ok {| burst_requests := level; responses := rs;
           failed_responses := filter failed rs;
           last_responses := last_responses st |},
     log ++ [Info_SendingQps level;
             Info_ReachedFailurePoint level (length (filter failed rs))]).
Proof.
  intros [Hrs Hfailed]. simpl. run_M. unfold run, run_at in Hrs.
  rewrite Hrs.
  destruct (filter failed rs) as [|r failed_rs] eqn:Hf; [done|].
  by rewrite <- app_assoc.
Qed.
End SearchFacts.

(** ** The report of the search, from the loop variables *)

Section ReportFacts.
Variable fl : Flags.
Variable burst : BaseManagedAiModel → Z → Z → Qc → result (list ModelResponse).
Variable ai_model : BaseManagedAiModel.

Let levels := py_range (ai_starting_requests fl) (max_requests fl) 3.

(** No response of a clean run is kept: the branch of the first warning. *)
Lemma FindMaxThroughput_degraded (st : SearchState) (log : list log_record) :
  search_loop fl burst ai_model levels (initial_state fl) [] = (Ok st, log) →
  last_responses st = [] →
  FindMaxThroughput fl burst ai_model [] =
    (_AggregateResponses fl (responses st) (failed_responses st) ai_model
       (ai_starting_requests fl),
     log ++ [Warning_FirstQpsHadErrors]).
Proof.
  intros Hloop Hlast. unfold FindMaxThroughput.
  fold levels.
  run_M. rewrite Hloop, Hlast. done.
Qed.

(** Responses of a clean run are kept: statistics and [max_throughput]. *)
Lemma FindMaxThroughput_report (st : SearchState) (log : list log_record) :
  ai_burst_time fl ≠ 0%Qc →
  search_loop fl burst ai_model levels (initial_state fl) [] = (Ok st, log) →
  last_responses st ≠ [] →
  let level := last_successful_bursts st in
  let md := sample_metadata fl ai_model level
              (Qc_of_Z level / ai_burst_time fl)%Qc in
  ∃ fmed med avg,
    (failed_responses st ≠ [] →
     median (duration <$> failed_responses st) = Ok fmed) ∧
    median (duration <$> last_responses st) = Ok med ∧
    mean (duration <$> last_responses st) = Ok avg ∧
    outcome (FindMaxThroughput fl burst ai_model) =
      Ok (failure_statistics (duration <$> failed_responses st) fmed md ++
          success_statistics (length (last_responses st))
            (length (failed_responses st)) med avg md ++
          [max_throughput_sample fl level md]).
Proof.
  intros Hbt Hloop Hlast level md.
  destruct (aggregate_successes fl ai_model Hbt (last_responses st)
              (failed_responses st) level Hlast)
    as (fmed & med & avg & Hfmed & Hmed & Havg & Hagg).
  exists fmed, med, avg. repeat split; try done.
  unfold outcome, FindMaxThroughput.
  fold levels.
  run_M. rewrite Hloop.
  destruct (last_responses st) as [|r0 last] eqn:Hl; [done|].
  subst md level. unfold last_successful_bursts in *.
  destruct (failed_responses st) as [|f fs] eqn:Hf; cbn;
    rewrite Hagg; cbn; rewrite truediv_ok by done; done.
Qed.
End ReportFacts.

(** ** The levels that the search attempts *)

Section LevelFacts.
Variable fl : Flags.
Variable burst : BaseManagedAiModel → Z → Z → Qc → result (list ModelResponse).
Variable ai_model : BaseManagedAiModel.

Let levels := py_range (ai_starting_requests fl) (max_requests fl) 3.
Let clean (level : Z) := clean_run (run_at fl burst ai_model level).

Lemma levels_attempted_app (log1 log2 : list log_record) :
  levels_attempted (log1 ++ log2) = levels_attempted log1 ++ levels_attempted log2.
Proof. apply omap_app. Qed.

Lemma levels_attempted_sending (pre : list Z) :
  levels_attempted (Info_SendingQps <$> pre) = pre.
Proof.
  induction pre as [|l pre IH]; [done|].
  rewrite fmap_cons. unfold levels_attempted in *. cbn. by rewrite IH.
Qed.

(** After the loop, the search calls the scheduler no more. *)
Lemma levels_attempted_loop (st : SearchState) (log : list log_record) :
  search_loop fl burst ai_model levels (initial_state fl) [] = (Ok st, log) →
  levels_attempted (logged (FindMaxThroughput fl burst ai_model)) =
    levels_attempted log.
Proof.
  intros Hloop. unfold logged, FindMaxThroughput.
  fold levels.
  run_M. rewrite Hloop.
  destruct (last_responses st); cbn.
  { rewrite levels_attempted_app. cbn. apply app_nil_r. }
  destruct (failed_responses st); cbn;
    destruct (_AggregateResponses _ _ _ _ _) as [[|s0 samples]|e]; cbn;
    try destruct (truediv _ _); cbn;
    rewrite ?levels_attempted_app; cbn; by rewrite ?app_nil_r.
Qed.

(** Without a failed outcome, every level of the range is attempted. *)
Lemma levels_attempted_all_clean :
  Forall clean levels →
  levels_attempted (logged (FindMaxThroughput fl burst ai_model)) = levels.
Proof.
  intros Hclean.
  pose proof (search_loop_clean fl burst ai_model levels [] (initial_state fl) []
                Hclean) as Hloop.
  rewrite app_nil_r in Hloop. cbn in Hloop.
  rewrite (levels_attempted_loop _ _ Hloop).
  apply levels_attempted_sending.
Qed.

(** The level of the first run with a failed outcome is the last one
    attempted. *)
Lemma levels_attempted_until_break (pre post : list Z) (level : Z)
    (rs : list ModelResponse) :
  levels = pre ++ level :: post →
  Forall clean pre →
  breaking_run (run_at fl burst ai_model level) rs →
  levels_attempted (logged (FindMaxThroughput fl burst ai_model)) =
    pre ++ [level].
Proof.
  intros Hlevels Hclean Hbreak.
  pose proof (search_loop_clean fl burst ai_model pre (level :: post)
                (initial_state fl) [] Hclean) as Hloop.
  rewrite <- Hlevels in Hloop.
  rewrite (search_loop_break fl burst ai_model level post rs _ _ Hbreak) in Hloop.
  rewrite (levels_attempted_loop _ _ Hloop).
  by rewrite !levels_attempted_app, levels_attempted_sending.
Qed.
End LevelFacts.

(** ** The two ways in which the search ends with a successful level *)

Lemma py_range_adjacent (start stop x y : Z) (pre post : list Z) :
  py_range start stop 3 = pre ++ x :: y :: post → y = x + 3.
Proof.
  intros Hsplit.
  assert (py_range start stop 3 !! length pre = Some x) as Hx.
  { rewrite Hsplit. by apply list_lookup_middle. }
  assert (py_range start stop 3 !! S (length pre) = Some y) as Hy.
  { rewrite Hsplit, cons_middle, app_assoc. apply list_lookup_middle.
    rewrite length_app. simpl. lia. }
  apply py_range_lookup in Hx, Hy. lia.
Qed.

Lemma failure_statistics_metadata (ds : list Qc) (fmed : Qc) (md : gmap string pyval) :
  Forall (fun s => metadata s = md ∧ metric s ≠ "max_throughput")
    (failure_statistics ds fmed md).
Proof. destruct ds; repeat constructor; done. Qed.

Lemma success_statistics_metadata (n f : nat) (med avg : Qc) (md : gmap string pyval) :
  Forall (fun s => metadata s = md ∧ metric s ≠ "max_throughput")
    (success_statistics n f med avg md).
Proof. repeat constructor; done. Qed.

Lemma sample_metadata_level (fl : Flags) (model : BaseManagedAiModel) (level : Z)
    (qps : Qc) :
  sample_metadata fl model level qps !! "parallel_requests" = Some (PInt level).
Proof. unfold sample_metadata. by simplify_map_eq. Qed.

Section Outcomes.
Variable fl : Flags.
Variable burst : BaseManagedAiModel → Z → Z → Qc → result (list ModelResponse).
Variable ai_model : BaseManagedAiModel.
Hypothesis burst_time_nonzero : ai_burst_time fl ≠ 0%Qc.

Let levels := py_range (ai_starting_requests fl) (max_requests fl) 3.
Let run (level : Z) := run_at fl burst ai_model level.
Let clean (level : Z) := clean_run (run level).
Let md (level : Z) :=
  sample_metadata fl ai_model level (Qc_of_Z level / ai_burst_time fl)%Qc.

(** The aggregator returns whenever the burst time is not zero, and never
    speaks of [max_throughput]. *)
Lemma aggregate_total (rs failed_rs : list ModelResponse) (level : Z) :
  ∃ samples,
    _AggregateResponses fl rs failed_rs ai_model level = Ok samples ∧
    Forall (fun s => metadata s = md level ∧ metric s ≠ "max_throughput") samples ∧
    (rs = [] → failed_rs = [] → samples = []).
Proof.
  destruct rs as [|r rs].
  - destruct (aggregate_failures fl ai_model burst_time_nonzero failed_rs level)
      as (fmed & _ & Hagg).
    eexists. split; [exact Hagg|]. split.
    + apply failure_statistics_metadata.
    + by intros _ ->.
  - destruct (aggregate_successes fl ai_model burst_time_nonzero (r :: rs)
                failed_rs level) as (fmed & med & avg & _ & _ & _ & Hagg); [done|].
    eexists. split; [exact Hagg|]. split; [|done].
    apply Forall_app. split.
    + apply failure_statistics_metadata.
    + apply success_statistics_metadata.
Qed.

(** The loop up to and including a clean run at [last_level]. *)
Lemma search_loop_through (pre : list Z) (last_level : Z) (rest : list Z)
    (last : list ModelResponse) (log : list log_record) :
  Forall clean pre → run last_level = Ok last → filter failed last = [] →
  search_loop fl burst ai_model (pre ++ last_level :: rest) (initial_state fl) log =
    search_loop fl burst ai_model rest
      {| burst_requests := last_level; responses := last;
         failed_responses := []; last_responses := last |}
      (log ++ (Info_SendingQps <$> pre ++ [last_level])).
Proof.
  intros Hpre Hlast Hclean.
  rewrite (cons_middle last_level pre rest), (assoc_L (++)).
  rewrite search_loop_clean.
  - rewrite after_clean_runs_snoc. fold (run last_level). by rewrite Hlast.
  - apply Forall_app. split; [done|]. constructor; [|done]. by exists last.
Qed.

(** ReachedMax: the last level of the range was run and was clean. *)
Lemma FindMaxThroughput_reached_max (pre : list Z) (last_level : Z)
    (last : list ModelResponse) :
  levels = pre ++ [last_level] →
  Forall clean pre → run last_level = Ok last → filter failed last = [] →
  last ≠ [] →
  ∃ med avg,
    median (duration <$> last) = Ok med ∧
    mean (duration <$> last) = Ok avg ∧
    outcome (FindMaxThroughput fl burst ai_model) =
      Ok (success_statistics (length last) 0 med avg (md last_level) ++
          [max_throughput_sample fl last_level (md last_level)]).
Proof.
  intros Hlevels Hpre Hlast Hclean Hne.
  pose proof (search_loop_through pre last_level [] last [] Hpre Hlast Hclean)
    as Hloop.
  rewrite <- Hlevels in Hloop. simpl in Hloop.
  destruct (FindMaxThroughput_report fl burst ai_model _ _ burst_time_nonzero
              Hloop Hne) as (fmed & med & avg & _ & Hmed & Havg & Hout).
  exists med, avg. by repeat split.
Qed.

(** FoundBreak: the run after a clean run at [last_level] has a failed
    outcome. *)
Lemma FindMaxThroughput_found_break (pre : list Z) (last_level level : Z)
    (post : list Z) (last rs : list ModelResponse) :
  levels = pre ++ last_level :: level :: post →
  Forall clean pre → run last_level = Ok last → filter failed last = [] →
  last ≠ [] → breaking_run (run level) rs →
  ∃ fmed med avg,
    median (duration <$> filter failed rs) = Ok fmed ∧
    median (duration <$> last) = Ok med ∧
    mean (duration <$> last) = Ok avg ∧
    outcome (FindMaxThroughput fl burst ai_model) =
      Ok (failure_statistics (duration <$> filter failed rs) fmed (md last_level) ++
          success_statistics (length last) (length (filter failed rs)) med avg
            (md last_level) ++
          [max_throughput_sample fl last_level (md last_level)]).
Proof.
  intros Hlevels Hpre Hlast Hclean Hne Hbreak.
  pose proof (py_range_adjacent _ _ _ _ _ _ Hlevels) as Hstep.
  pose proof (search_loop_through pre last_level (level :: post) last []
                Hpre Hlast Hclean) as Hloop.
  rewrite <- Hlevels in Hloop.
  rewrite (search_loop_break fl burst ai_model level post rs _ _ Hbreak) in Hloop.
  destruct Hbreak as [_ Hfailed].
  destruct (FindMaxThroughput_report fl burst ai_model _ _ burst_time_nonzero
              Hloop Hne) as (fmed & med & avg & Hfmed & Hmed & Havg & Hout).
  simpl in Hfmed, Hmed, Havg, Hout.
  exists fmed, med, avg. repeat split; [by apply Hfmed|done|done|].
  rewrite Hout. unfold last_successful_bursts. simpl.
  destruct (filter failed rs) as [|f fs]; [done|].
  replace (level - 3) with last_level by lia. done.
Qed.
End Outcomes.

(** * The throughput search *)

Section SearchClaims.
Variable fl : Flags.
Variable burst : BaseManagedAiModel → Z → Z → Qc → result (list ModelResponse).
Variable ai_model : BaseManagedAiModel.

Let levels := py_range (ai_starting_requests fl) (max_requests fl) 3.
Let run (level : Z) := run_at fl burst ai_model level.
Let md (level : Z) :=
  sample_metadata fl ai_model level (Qc_of_Z level / ai_burst_time fl)%Qc.

(** C1, as the code has it: when the first level attempted, the starting
    level, has a failed outcome, the search returns a report that is
    labelled with the starting level, begins with
    [failure_median_response_time] and [num_failures] of the failed
    outcomes of that run, and has no [max_throughput] sample; the warning
    about the first level is logged. Samples computed from the outcomes
    of that run may follow the two failure statistics. *)
Theorem C1_first_level_failure (rs : list ModelResponse) :
  ai_burst_time fl ≠ 0%Qc →
  ai_starting_requests fl < max_requests fl →
  breaking_run (run (ai_starting_requests fl)) rs →
  ∃ fmed rest,
    median (duration <$> filter failed rs) = Ok fmed ∧
    md (ai_starting_requests fl) !! "parallel_requests" =
      Some (PInt (ai_starting_requests fl)) ∧
    outcome (FindMaxThroughput fl burst ai_model) =
      Ok (make_sample "failure_median_response_time" (PFloat fmed) "seconds"
            (md (ai_starting_requests fl)) ::
          make_sample "num_failures"
            (PInt (Z.of_nat (length (filter failed rs)))) "count"
            (md (ai_starting_requests fl)) :: rest) ∧
    ("max_throughput" ∉ metrics rest) ∧
    Warning_FirstQpsHadErrors ∈ logged (FindMaxThroughput fl burst ai_model).
Proof.
  intros Hbt Hlt Hbreak.
  assert (search_loop fl burst ai_model levels (initial_state fl) [] =
          (Ok {| burst_requests := ai_starting_requests fl; responses := rs;
                 failed_responses := filter failed rs; last_responses := [] |},
           [Info_SendingQps (ai_starting_requests fl);
            Info_ReachedFailurePoint (ai_starting_requests fl)
              (length (filter failed rs))])) as Hloop.
  { unfold levels. rewrite py_range_cons by done.
    by rewrite (search_loop_break fl burst ai_model _ _ rs _ _ Hbreak). }
  pose proof (FindMaxThroughput_degraded fl burst ai_model _ _ Hloop eq_refl)
    as Hrun.
  simpl in Hrun. destruct Hbreak as [_ Hfailed].
  assert (rs ≠ []) as Hne by (by intros ->).
  destruct (aggregate_successes fl ai_model Hbt rs (filter failed rs)
              (ai_starting_requests fl) Hne)
    as (fmed & med & avg & Hfmed & _ & _ & Hagg).
  fold (md (ai_starting_requests fl)) in Hagg.
  exists fmed, (success_statistics (length rs) (length (filter failed rs))
                  med avg (md (ai_starting_requests fl))).
  split; [by apply Hfmed|]. split; [apply sample_metadata_level|].
  split; [|split].
  - unfold outcome. rewrite Hrun. simpl. rewrite Hagg.
    destruct (filter failed rs) as [|f fs]; [done|].
    simpl. by rewrite length_fmap.
  - cbn. intros Hin.
    repeat (apply elem_of_cons in Hin as [Hin|Hin]; [discriminate|]).
    by apply elem_of_nil in Hin.
  - unfold logged. rewrite Hrun. simpl.
    do 2 apply list_elem_of_further. apply list_elem_of_here.
Qed.

(** C2, as the code has it: after a clean run at [last_level] that
    collected an outcome, which is followed by a run with a failed outcome
    (FoundBreak) or which is the last of the range (ReachedMax),
    [num_responses], [median_response_time] and [mean_response_time] are
    computed from the outcomes of the clean run alone;
    [failure_median_response_time] and [num_failures] are there exactly on
    FoundBreak and are computed from the failed outcomes [failed_rs] of
    the breaking run; [success_rate] divides the outcomes of the clean run
    by their number plus the number of [failed_rs]; [max_throughput] is
    [last_level / burst_time]. *)
Theorem C2_report_sources (pre post : list Z) (last_level : Z)
    (last failed_rs : list ModelResponse) :
  ai_burst_time fl ≠ 0%Qc →
  levels = pre ++ last_level :: post →
  Forall (fun level => clean_run (run level)) pre →
  run last_level = Ok last → filter failed last = [] → last ≠ [] →
  (post = [] ∧ failed_rs = [] ∨
   ∃ rs, post ≠ [] ∧ breaking_run (run (last_level + 3)) rs ∧
         failed_rs = filter failed rs) →
  ∃ fmed med avg,
    (failed_rs ≠ [] → median (duration <$> failed_rs) = Ok fmed) ∧
    median (duration <$> last) = Ok med ∧
    mean (duration <$> last) = Ok avg ∧
    outcome (FindMaxThroughput fl burst ai_model) =
      Ok (failure_statistics (duration <$> failed_rs) fmed (md last_level) ++
          success_statistics (length last) (length failed_rs) med avg
            (md last_level) ++
          [max_throughput_sample fl last_level (md last_level)]).
Proof.
  intros Hbt Hlevels Hpre Hlast Hclean Hne [[-> ->]|(rs & Hpost & Hbreak & ->)].
  - destruct (FindMaxThroughput_reached_max fl burst ai_model Hbt pre last_level
                last Hlevels Hpre Hlast Hclean Hne) as (med & avg & Hmed & Havg & Hout).
    exists 0%Qc, med, avg. by repeat split.
  - destruct post as [|level post]; [done|].
    pose proof (py_range_adjacent _ _ _ _ _ _ Hlevels) as ->.
    destruct (FindMaxThroughput_found_break fl burst ai_model Hbt pre last_level
                _ post last rs Hlevels Hpre Hlast Hclean Hne Hbreak)
      as (fmed & med & avg & Hfmed & Hmed & Havg & Hout).
    exists fmed, med, avg. by repeat split.
Qed.

(** C3, as the code has it: when a level [level] above the starting level
    is the first level of the range whose run has a failed outcome, and
    the run before it, at [level - 3], collected an outcome, every sample
    of the report is labelled with [parallel_requests = level - 3] and the
    report has a [max_throughput] sample of value
    [(level - 3) / burst_time]. *)
Theorem C3_break_above_start (level : Z) (rs previous : list ModelResponse) :
  ai_burst_time fl ≠ 0%Qc →
  level ∈ levels → ai_starting_requests fl < level →
  (∀ l, l ∈ levels → l < level → clean_run (run l)) →
  breaking_run (run level) rs →
  run (level - 3) = Ok previous → previous ≠ [] →
  ∃ samples,
    outcome (FindMaxThroughput fl burst ai_model) = Ok samples ∧
    (∀ s, s ∈ samples →
          metadata s !! "parallel_requests" = Some (PInt (level - 3))) ∧
    sample_value "max_throughput" samples =
      Some (PFloat (Qc_of_Z (level - 3) / ai_burst_time fl)%Qc).
Proof.
  intros Hbt Hin Hgt Hbelow Hbreak Hprev Hne.
  pose proof (py_range_split _ _ _ Hin) as Hsplit.
  pose proof (py_range_snoc _ _ _ Hin Hgt) as Hsnoc.
  fold levels in Hsplit. rewrite Hsnoc, <- (assoc_L (++)) in Hsplit.
  simpl in Hsplit.
  assert (∀ l, l ∈ py_range (ai_starting_requests fl) level 3 → clean_run (run l))
    as Hclean.
  { intros l Hl. destruct (py_range_below _ _ _ _ Hl Hin). by apply Hbelow. }
  assert (Forall (fun l => clean_run (run l))
            (py_range (ai_starting_requests fl) (level - 3) 3)) as Hpre.
  { apply Forall_forall. intros l Hl. apply Hclean. rewrite Hsnoc.
    apply elem_of_app. by left. }
  destruct (Hclean (level - 3)) as (previous' & Hprev' & Hclean_prev).
  { rewrite Hsnoc. apply elem_of_app. right. apply list_elem_of_singleton. done. }
  assert (previous' = previous) as -> by congruence.
  destruct (FindMaxThroughput_found_break fl burst ai_model Hbt _ (level - 3)
              level _ previous rs Hsplit Hpre Hprev Hclean_prev Hne Hbreak)
    as (fmed & med & avg & _ & _ & _ & Hout).
  eexists. split; [exact Hout|]. split.
  - intros s Hs. rewrite <- (sample_metadata_level fl ai_model (level - 3)
               (Qc_of_Z (level - 3) / ai_burst_time fl)%Qc).
    apply elem_of_app in Hs as [Hs|Hs]; [|apply elem_of_app in Hs as [Hs|Hs]].
    + pose proof (failure_statistics_metadata
                    (duration <$> filter failed rs) fmed (md (level - 3))) as Hall.
      rewrite Forall_forall in Hall. by destruct (Hall s Hs) as [-> _].
    + pose proof (success_statistics_metadata (length previous)
                    (length (filter failed rs)) med avg (md (level - 3))) as Hall.
      rewrite Forall_forall in Hall. by destruct (Hall s Hs) as [-> _].
    + apply list_elem_of_singleton in Hs as ->. done.
  - unfold sample_value.
    destruct (duration <$> filter failed rs); done.
Qed.
End SearchClaims.

Section DegradedClaims.
Variable fl : Flags.
Variable burst : BaseManagedAiModel → Z → Z → Qc → result (list ModelResponse).
Variable ai_model : BaseManagedAiModel.

Let levels := py_range (ai_starting_requests fl) (max_requests fl) 3.
Let run (level : Z) := run_at fl burst ai_model level.

(** C10: when the last clean run, at [last_level], collected no outcome,
    be it the last run of the range or the run before a run with a failed
    outcome, the search takes the branch of the first warning: it returns
    what the aggregator makes of the last run [rs] under the label of the
    starting level, and that report has no [max_throughput] sample. When
    no outcome was collected at all, the report is empty. *)
Theorem C10_empty_clean_run (pre post : list Z) (last_level : Z)
    (rs : list ModelResponse) :
  ai_burst_time fl ≠ 0%Qc →
  levels = pre ++ last_level :: post →
  Forall (fun level => clean_run (run level)) pre →
  run last_level = Ok [] →
  (post = [] ∧ rs = [] ∨
   ∃ level post', post = level :: post' ∧ breaking_run (run level) rs) →
  ∃ samples,
    outcome (FindMaxThroughput fl burst ai_model) = Ok samples ∧
    _AggregateResponses fl rs (filter failed rs) ai_model
      (ai_starting_requests fl) = Ok samples ∧
    Warning_FirstQpsHadErrors ∈ logged (FindMaxThroughput fl burst ai_model) ∧
    ("max_throughput" ∉ metrics samples) ∧
    (∀ s, s ∈ samples →
          metadata s !! "parallel_requests" =
            Some (PInt (ai_starting_requests fl))) ∧
    (rs = [] → samples = []).
Proof.
  intros Hbt Hlevels Hpre Hlast Hend.
  pose proof (search_loop_through fl burst ai_model pre last_level post [] []
                Hpre Hlast eq_refl) as Hloop.
  rewrite <- Hlevels in Hloop.
  assert (∃ log,
    FindMaxThroughput fl burst ai_model [] =
      (_AggregateResponses fl rs (filter failed rs) ai_model
         (ai_starting_requests fl), log ++ [Warning_FirstQpsHadErrors]))
    as [log Hrun].
  { destruct Hend as [[-> ->]|(level & post' & -> & Hbreak)].
    - eexists. by apply (FindMaxThroughput_degraded fl burst ai_model _ _ Hloop).
    - rewrite (search_loop_break fl burst ai_model level post' rs _ _ Hbreak)
        in Hloop.
      eexists. by apply (FindMaxThroughput_degraded fl burst ai_model _ _ Hloop). }
  destruct (aggregate_total fl ai_model Hbt rs (filter failed rs)
              (ai_starting_requests fl)) as (samples & Hagg & Hall & Hnil).
  rewrite Forall_forall in Hall.
  exists samples. repeat split.
  - unfold outcome. by rewrite Hrun.
  - done.
  - unfold logged. rewrite Hrun. apply elem_of_app. right. apply list_elem_of_here.
  - intros (s & Hname & Hs)%list_elem_of_fmap. by destruct (Hall s Hs).
  - intros s Hs. destruct (Hall s Hs) as [-> _]. apply sample_metadata_level.
  - intros ->. by apply Hnil.
Qed.
End DegradedClaims.

(** ** The configurations that the check lets through *)

Lemma CheckPrerequisites_raises (fl : Flags) :
  CheckPrerequisites fl = Raise InvalidValue ↔
  ∃ m, ai_max_requests fl = Some m ∧ m ≠ 0 ∧ m < ai_starting_requests fl.
Proof.
  unfold CheckPrerequisites. destruct (ai_max_requests fl) as [m|].
  - destruct (Z.eqb_spec m 0), (Z.ltb_spec m (ai_starting_requests fl)); simpl;
      split; try done; try (intros (m' & [= <-] & ? & ?); lia).
    intros _. by exists m.
  - split; [done|]. by intros (m & ? & _).
Qed.

Lemma CheckPrerequisites_passes (fl : Flags) :
  CheckPrerequisites fl = Ok tt ↔
  ai_max_requests fl = None ∨ ai_max_requests fl = Some 0 ∨
  ∃ m, ai_max_requests fl = Some m ∧ ai_starting_requests fl <= m.
Proof.
  unfold CheckPrerequisites. destruct (ai_max_requests fl) as [m|].
  - destruct (Z.eqb_spec m 0) as [Hz|Hz],
      (Z.ltb_spec m (ai_starting_requests fl)) as [Hlt|Hle]; simpl.
    + split; [|done]. intros _. right. left. by rewrite Hz.
    + split; [|done]. intros _. right. left. by rewrite Hz.
    + split; [done|]. intros [|[[=]|(m' & [= <-] & ?)]]; try done; lia.
    + split; [|done]. intros _. right. right. by exists m.
  - split; [by left|done].
Qed.

(** C6, at [ai_max_requests = 0] and [ai_starting_requests = 5]: the check
    raises nothing although 0 is set and is less than 5, and the search
    then replaces the 0 by 6 and runs over the single level 5. *)
Theorem C6_zero_maximum_accepted :
  CheckPrerequisites (Scenario.flags 5 (Some 0)) = Ok tt ∧
  max_requests (Scenario.flags 5 (Some 0)) = 6 ∧
  py_range 5 (max_requests (Scenario.flags 5 (Some 0))) 3 = [5].
Proof. by vm_compute. Qed.

(** C4, at [ai_max_requests = ai_starting_requests = 5]: whatever the
    scheduler would return, no level is attempted, not even the starting
    level, and the report is empty. *)
Theorem C4_maximum_equal_to_start
    (burst : BaseManagedAiModel → Z → Z → Qc → result (list ModelResponse))
    (ai_model : BaseManagedAiModel) :
  CheckPrerequisites (Scenario.flags 5 (Some 5)) = Ok tt ∧
  levels_attempted
    (logged (FindMaxThroughput (Scenario.flags 5 (Some 5)) burst ai_model)) = [] ∧
  outcome (FindMaxThroughput (Scenario.flags 5 (Some 5)) burst ai_model) = Ok [].
Proof. by vm_compute. Qed.

(** ** The search on concrete runs *)

Lemma Scenario_burst_time (starting : Z) (maximum : option Z) :
  ai_burst_time (Scenario.flags starting maximum) ≠ 0%Qc.
Proof. by apply Qc_of_Z_nonzero. Qed.

(** Starting at 5 without a maximum, with one response in time and one
    after 96 seconds at level 5: the report holds the four success
    statistics next to the two failure statistics. *)
Lemma C1_counterexample :
  breaking_run
    (run_at (Scenario.flags 5 None) Scenario.mixed_first_level Scenario.model 5)
    [Scenario.took 1 0; Scenario.took 96 0] ∧
  metrics <$> outcome (FindMaxThroughput (Scenario.flags 5 None)
                         Scenario.mixed_first_level Scenario.model) =
    Ok ["failure_median_response_time"; "num_failures"; "success_rate";
        "num_responses"; "median_response_time"; "mean_response_time"] ∧
  ¬ ∃ samples,
      outcome (FindMaxThroughput (Scenario.flags 5 None)
                 Scenario.mixed_first_level Scenario.model) = Ok samples ∧
      only_failure_statistics samples.
Proof.
  assert (metrics <$> outcome (FindMaxThroughput (Scenario.flags 5 None)
                         Scenario.mixed_first_level Scenario.model) =
    Ok ["failure_median_response_time"; "num_failures"; "success_rate";
        "num_responses"; "median_response_time"; "mean_response_time"]) as Hnames
    by (by vm_compute).
  split; [|split; [exact Hnames|]].
  - split; [done|]. by vm_compute.
  - intros (samples & Hout & Honly). rewrite Hout in Hnames.
    injection Hnames as Hnames.
    destruct (Honly "success_rate") as [?|?]; [|done..].
    rewrite Hnames. do 2 apply list_elem_of_further. apply list_elem_of_here.
Qed.

Lemma C1_witness :
  ∃ fmed rest,
    median (duration <$> filter failed [Scenario.took 1 0; Scenario.took 96 0]) =
      Ok fmed ∧
    sample_metadata (Scenario.flags 5 None) Scenario.model 5
      (Qc_of_Z 5 / Qc_of_Z 1)%Qc !! "parallel_requests" = Some (PInt 5) ∧
    outcome (FindMaxThroughput (Scenario.flags 5 None)
               Scenario.mixed_first_level Scenario.model) =
      Ok (make_sample "failure_median_response_time" (PFloat fmed) "seconds"
            (sample_metadata (Scenario.flags 5 None) Scenario.model 5
               (Qc_of_Z 5 / Qc_of_Z 1)%Qc) ::
          make_sample "num_failures"
            (PInt (Z.of_nat (length (filter failed
                     [Scenario.took 1 0; Scenario.took 96 0])))) "count"
            (sample_metadata (Scenario.flags 5 None) Scenario.model 5
               (Qc_of_Z 5 / Qc_of_Z 1)%Qc) :: rest) ∧
    ("max_throughput" ∉ metrics rest) ∧
    Warning_FirstQpsHadErrors ∈
      logged (FindMaxThroughput (Scenario.flags 5 None)
                Scenario.mixed_first_level Scenario.model).
Proof.
  apply (C1_first_level_failure (Scenario.flags 5 None)
           Scenario.mixed_first_level Scenario.model
           [Scenario.took 1 0; Scenario.took 96 0]).
  - apply Scenario_burst_time.
  - by vm_compute.
  - split; [reflexivity|]. by vm_compute.
Defined.

(** Starting at 5 with maximum 11, level 5 clean: a second failed outcome
    at level 8 changes the report. *)
Lemma C2_counterexample :
  run_at (Scenario.flags 5 (Some 11)) Scenario.break_at_8_once Scenario.model 5 =
    run_at (Scenario.flags 5 (Some 11)) Scenario.break_at_8_twice Scenario.model 5 ∧
  clean_run
    (run_at (Scenario.flags 5 (Some 11)) Scenario.break_at_8_once Scenario.model 5) ∧
  breaking_run
    (run_at (Scenario.flags 5 (Some 11)) Scenario.break_at_8_once Scenario.model 8)
    [Scenario.took 96 0] ∧
  breaking_run
    (run_at (Scenario.flags 5 (Some 11)) Scenario.break_at_8_twice Scenario.model 8)
    [Scenario.took 96 0; Scenario.took 97 1] ∧
  sample_value "num_failures" <$>
    outcome (FindMaxThroughput (Scenario.flags 5 (Some 11))
               Scenario.break_at_8_once Scenario.model) = Ok (Some (PInt 1)) ∧
  sample_value "num_failures" <$>
    outcome (FindMaxThroughput (Scenario.flags 5 (Some 11))
               Scenario.break_at_8_twice Scenario.model) = Ok (Some (PInt 2)) ∧
  outcome (FindMaxThroughput (Scenario.flags 5 (Some 11))
             Scenario.break_at_8_once Scenario.model) ≠
  outcome (FindMaxThroughput (Scenario.flags 5 (Some 11))
             Scenario.break_at_8_twice Scenario.model).
Proof.
  assert (sample_value "num_failures" <$>
    outcome (FindMaxThroughput (Scenario.flags 5 (Some 11))
               Scenario.break_at_8_once Scenario.model) = Ok (Some (PInt 1)))
    as Honce by (by vm_compute).
  assert (sample_value "num_failures" <$>
    outcome (FindMaxThroughput (Scenario.flags 5 (Some 11))
               Scenario.break_at_8_twice Scenario.model) = Ok (Some (PInt 2)))
    as Htwice by (by vm_compute).
  split; [reflexivity|]. split; [by exists [Scenario.took 1 0]|].
  split; [split; [reflexivity|by vm_compute]|].
  split; [split; [reflexivity|by vm_compute]|].
  split; [exact Honce|]. split; [exact Htwice|].
  intros Heq. rewrite Heq, Htwice in Honce. discriminate.
Qed.

Lemma C2_witness :
  ∃ fmed med avg,
    ([Scenario.took 96 0] ≠ [] →
     median (duration <$> [Scenario.took 96 0]) = Ok fmed) ∧
    median (duration <$> [Scenario.took 1 0]) = Ok med ∧
    mean (duration <$> [Scenario.took 1 0]) = Ok avg ∧
    outcome (FindMaxThroughput (Scenario.flags 5 (Some 11))
               Scenario.break_at_8_once Scenario.model) =
      Ok (failure_statistics (duration <$> [Scenario.took 96 0]) fmed
            (sample_metadata (Scenario.flags 5 (Some 11)) Scenario.model 5
               (Qc_of_Z 5 / Qc_of_Z 1)%Qc) ++
          success_statistics 1 1 med avg
            (sample_metadata (Scenario.flags 5 (Some 11)) Scenario.model 5
               (Qc_of_Z 5 / Qc_of_Z 1)%Qc) ++
          [max_throughput_sample (Scenario.flags 5 (Some 11)) 5
             (sample_metadata (Scenario.flags 5 (Some 11)) Scenario.model 5
                (Qc_of_Z 5 / Qc_of_Z 1)%Qc)]).
Proof.
  apply (C2_report_sources (Scenario.flags 5 (Some 11)) Scenario.break_at_8_once
           Scenario.model [] [8] 5 [Scenario.took 1 0] [Scenario.took 96 0]).
  - apply Scenario_burst_time.
  - reflexivity.
  - constructor.
  - reflexivity.
  - by vm_compute.
  - discriminate.
  - right. exists [Scenario.took 96 0].
    split; [discriminate|]. split; [|by vm_compute].
    split; [reflexivity|]. by vm_compute.
Defined.

(** Starting at 5 with maximum 11: level 5 collects nothing and is clean,
    level 8 is the first level with a failed outcome, and the report has no
    [max_throughput] sample. *)
Lemma C3_counterexample :
  8 ∈ py_range 5 (max_requests (Scenario.flags 5 (Some 11))) 3 ∧
  clean_run
    (run_at (Scenario.flags 5 (Some 11)) Scenario.empty_then_break Scenario.model 5) ∧
  breaking_run
    (run_at (Scenario.flags 5 (Some 11)) Scenario.empty_then_break Scenario.model 8)
    [Scenario.took 96 0] ∧
  metrics <$> outcome (FindMaxThroughput (Scenario.flags 5 (Some 11))
                         Scenario.empty_then_break Scenario.model) =
    Ok ["failure_median_response_time"; "num_failures"; "success_rate";
        "num_responses"; "median_response_time"; "mean_response_time"] ∧
  sample_value "max_throughput" <$>
    outcome (FindMaxThroughput (Scenario.flags 5 (Some 11))
               Scenario.empty_then_break Scenario.model) = Ok None.
Proof.
  repeat split; try by vm_compute.
  - vm_compute. apply list_elem_of_further, list_elem_of_here.
  - by exists [].
Qed.

Lemma C3_witness :
  ∃ samples,
    outcome (FindMaxThroughput (Scenario.flags 5 (Some 11))
               Scenario.break_at_8_once Scenario.model) = Ok samples ∧
    (∀ s, s ∈ samples →
          metadata s !! "parallel_requests" = Some (PInt (8 - 3))) ∧
    sample_value "max_throughput" samples =
      Some (PFloat (Qc_of_Z (8 - 3) / Qc_of_Z 1)%Qc).
Proof.
  apply (C3_break_above_start (Scenario.flags 5 (Some 11))
           Scenario.break_at_8_once Scenario.model 8
           [Scenario.took 96 0] [Scenario.took 1 0]).
  - apply Scenario_burst_time.
  - vm_compute. apply list_elem_of_further, list_elem_of_here.
  - reflexivity.
  - intros l Hl Hlt. vm_compute in Hl.
    apply elem_of_cons in Hl as [->|Hl].
    + by exists [Scenario.took 1 0].
    + apply list_elem_of_singleton in Hl. lia.
  - split; [reflexivity|]. by vm_compute.
  - reflexivity.
  - discriminate.
Defined.

Lemma C10_witness :
  ∃ samples,
    outcome (FindMaxThroughput (Scenario.flags 5 None)
               Scenario.nothing_collected Scenario.model) = Ok samples ∧
    _AggregateResponses (Scenario.flags 5 None) [] (filter failed [])
      Scenario.model 5 = Ok samples ∧
    Warning_FirstQpsHadErrors ∈
      logged (FindMaxThroughput (Scenario.flags 5 None)
                Scenario.nothing_collected Scenario.model) ∧
    ("max_throughput" ∉ metrics samples) ∧
    (∀ s, s ∈ samples → metadata s !! "parallel_requests" = Some (PInt 5)) ∧
    ((@nil ModelResponse) = [] → samples = []).
Proof.
  apply (C10_empty_clean_run (Scenario.flags 5 None) Scenario.nothing_collected
           Scenario.model [] [] 5 []).
  - apply Scenario_burst_time.
  - reflexivity.
  - constructor.
  - reflexivity.
  - left. split; reflexivity.
Defined.

(** * The aggregator *)

(** ** The median of Python is a median *)

Lemma Qc_midpoint (a b : Qc) :
  (a ≤ b → a ≤ (a + b) / Qc_of_Z 2 ∧ (a + b) / Qc_of_Z 2 ≤ b)%Qc.
Proof.
  intros Hab.
  assert (Qc_of_Z 2 = 1 + 1)%Qc as -> by (by apply Qc_is_canon).
  set (h := (/ (1 + 1))%Qc).
  assert (0 ≤ h)%Qc as Hh by (by vm_compute).
  assert (∀ x y : Qc, (x + y) / (1 + 1) = x * h + y * h)%Qc as Hmid.
  { intros x y. unfold h. field. by vm_compute. }
  assert (∀ x : Qc, x = x * h + x * h)%Qc as Hself.
  { intros x. unfold h. field. by vm_compute. }
  rewrite Hmid. split.
  - rewrite (Hself a) at 1. apply Qcplus_le_mono_l.
    by apply Qcmult_le_mono_nonneg_r.
  - rewrite (Hself b) at 2. apply Qcplus_le_mono_r.
    by apply Qcmult_le_mono_nonneg_r.
Qed.

Lemma sorted_lookup_le (s : list Qc) (i j : nat) (x y : Qc) :
  StronglySorted Qcle s → (i <= j)%nat →
  s !! i = Some x → s !! j = Some y → (x ≤ y)%Qc.
Proof.
  intros Hs. revert i j.
  induction Hs as [|a s Hs IH Hall]; intros i j Hij Hi Hj; [done|].
  destruct i as [|i], j as [|j]; simpl in *; try lia.
  - injection Hi as ->. injection Hj as ->. done.
  - injection Hi as ->. rewrite Forall_lookup in Hall. by eapply Hall.
  - apply (IH i j); [lia|done..].
Qed.

Section Counting.
Context (P : Qc → Prop) `{!∀ x, Decision (P x)}.

Lemma filter_all (l : list Qc) : Forall P l → filter P l = l.
Proof.
  induction 1 as [|x l Hx _ IH]; [done|].
  rewrite filter_cons. case_decide; [|done]. by rewrite IH.
Qed.

(** Values that hold up to rank [k] are at least [k]. *)
Lemma count_prefix (s : list Qc) (k : nat) :
  (∀ i x, (i < k)%nat → s !! i = Some x → P x) → (k <= length s)%nat →
  (k <= length (filter P s))%nat.
Proof.
  intros Hbelow Hk. rewrite <- (take_drop k s), filter_app, length_app.
  rewrite filter_all.
  - rewrite length_take. lia.
  - apply Forall_lookup. intros i x Hx.
    apply lookup_take_Some in Hx as [Hx Hi]. by apply (Hbelow i).
Qed.

(** Values that hold from rank [k] on are at least the length less [k]. *)
Lemma count_suffix (s : list Qc) (k : nat) :
  (∀ i x, (k <= i)%nat → s !! i = Some x → P x) →
  (length s - k <= length (filter P s))%nat.
Proof.
  intros Habove. rewrite <- (take_drop k s) at 2.
  rewrite filter_app, length_app, (filter_all (drop k s)).
  - rewrite length_drop. lia.
  - apply Forall_lookup. intros i x Hx. rewrite lookup_drop in Hx.
    apply (Habove (k + i)%nat); [lia|done].
Qed.
End Counting.

Lemma median_is_median (data : list Qc) (m : Qc) :
  median data = Ok m → is_median m data.
Proof.
  unfold median, is_median.
  pose proof (merge_sort_Permutation Qcle data) as Hperm. fold (sorted data) in Hperm.
  assert (StronglySorted Qcle (sorted data)) as Hsorted
    by apply (StronglySorted_merge_sort _).
  rewrite <- (Permutation_length Hperm).
  rewrite <- (Permutation_length
                (filter_Permutation (fun x => x ≤ m)%Qc _ _ Hperm)).
  rewrite <- (Permutation_length
                (filter_Permutation (fun x => m ≤ x)%Qc _ _ Hperm)).
  set (s := sorted data) in *. clearbody s. clear Hperm data. revert m.
  case_decide as Hlen; [done|]. intros m0.
  remember (length s / 2)%nat as h eqn:Hh.
  pose proof (Nat.div_mod_eq (length s) 2) as Hn.
  rewrite <- Nat.bit0_mod, Nat.bit0_odd, <- Hh in Hn.
  destruct (Nat.odd (length s)) eqn:Hodd; simpl in Hn.
  - intros [= <-].
    destruct (nth_lookup_or_length s h 0%Qc) as [Hm|?]; [|lia].
    set (m := nth h s 0%Qc) in *. split.
    + assert (h + 1 <= length (filter (fun x => x ≤ m)%Qc s))%nat; [|lia].
      apply count_prefix; [|lia]. intros i x Hi Hx.
      apply (sorted_lookup_le s i h); [done|lia|done..].
    + assert (length s - h <= length (filter (fun x => m ≤ x)%Qc s))%nat; [|lia].
      apply count_suffix. intros i x Hi Hx.
      by apply (sorted_lookup_le s h i).
  - intros [= <-].
    destruct (nth_lookup_or_length s (h - 1) 0%Qc) as [Hlo|?]; [|lia].
    destruct (nth_lookup_or_length s h 0%Qc) as [Hhi|?]; [|lia].
    set (lo := nth (h - 1) s 0%Qc) in *. set (hi := nth h s 0%Qc) in *.
    assert (lo ≤ hi)%Qc as Hle
      by (apply (sorted_lookup_le s (h - 1) h); [done|lia|done..]).
    destruct (Qc_midpoint lo hi Hle) as [Hlom Hmhi].
    set (m := ((lo + hi) / Qc_of_Z 2)%Qc) in *. split.
    + assert (h <= length (filter (fun x => x ≤ m)%Qc s))%nat; [|lia].
      apply count_prefix; [|lia]. intros i x Hi Hx.
      transitivity lo; [|done].
      apply (sorted_lookup_le s i (h - 1)); [done|lia|done..].
    + assert (length s - h <= length (filter (fun x => m ≤ x)%Qc s))%nat; [|lia].
      apply count_suffix. intros i x Hi Hx.
      transitivity hi; [done|].
      by apply (sorted_lookup_le s h i).
Qed.

(** ** What the aggregator emits *)

(** C5: from responses of which there is at least one and from failed
    responses, the aggregator emits [success_rate] = successes / (successes
    + failures) * 100, [num_responses] = the number of successes,
    [median_response_time] and [mean_response_time] = the median (a value
    with at least half of the durations on either side) and the arithmetic
    mean (the sum over the number) of the durations of the successes, and,
    exactly when there are failed responses, before them
    [failure_median_response_time] = the median of the durations of the
    failures and [num_failures] = their number. *)
Theorem C5_aggregate_statistics (fl : Flags) (model : BaseManagedAiModel)
    (responses failed_responses : list ModelResponse) (level : Z) :
  ai_burst_time fl ≠ 0%Qc →
  responses ≠ [] →
  let md := sample_metadata fl model level (Qc_of_Z level / ai_burst_time fl)%Qc in
  ∃ fmed med avg,
    (failed_responses ≠ [] →
     median (duration <$> failed_responses) = Ok fmed ∧
     is_median fmed (duration <$> failed_responses)) ∧
    median (duration <$> responses) = Ok med ∧
    is_median med (duration <$> responses) ∧
    mean (duration <$> responses) = Ok avg ∧
    (avg * Qc_of_Z (Z.of_nat (length responses)) = fsum (duration <$> responses))%Qc ∧
    _AggregateResponses fl responses failed_responses model level =
      Ok (match failed_responses with
          | [] => []
          | _ :: _ =>
              [ make_sample "failure_median_response_time" (PFloat fmed)
                  "seconds" md;
                make_sample "num_failures"
                  (PInt (Z.of_nat (length failed_responses))) "count" md ]
          end ++
          [ make_sample "success_rate"
              (PFloat (Qc_of_Z (Z.of_nat (length responses))
                       / Qc_of_Z (Z.of_nat (length responses)
                                  + Z.of_nat (length failed_responses))
                       * Qc_of_Z 100)%Qc) "percent" md;
            make_sample "num_responses"
              (PInt (Z.of_nat (length responses))) "count" md;
            make_sample "median_response_time" (PFloat med) "seconds" md;
            make_sample "mean_response_time" (PFloat avg) "seconds" md ]).
Proof.
  intros Hbt Hne md.
  destruct (aggregate_successes fl model Hbt responses failed_responses level Hne)
    as (fmed & med & avg & Hfmed & Hmed & Havg & Hagg).
  destruct (mean_ok (duration <$> responses)) as (avg' & Havg' & Hsum);
    [by destruct responses|].
  assert (avg' = avg) as -> by congruence.
  rewrite length_fmap in Hsum.
  exists fmed, med, avg. split; [|split; [|split; [|split; [|split]]]]; try done.
  - intros Hf. split; [by apply Hfmed|]. apply median_is_median. by apply Hfmed.
  - by apply median_is_median.
  - rewrite Hagg. unfold failure_statistics, success_statistics. fold md.
    destruct failed_responses as [|f fs]; [done|]. simpl. by rewrite length_fmap.
Qed.

(** Successes of 1, 2 and 3 seconds and one failure of 96 seconds. *)
Lemma C5_witness :
  ∃ samples,
    _AggregateResponses (Scenario.flags 5 None) Scenario.three_successes
      Scenario.one_failure Scenario.model 5 = Ok samples ∧
    metrics samples =
      ["failure_median_response_time"; "num_failures"; "success_rate";
       "num_responses"; "median_response_time"; "mean_response_time"] ∧
    sample_value "success_rate" samples = Some (PFloat (Qc_of_Z 75)) ∧
    sample_value "num_responses" samples = Some (PInt 3) ∧
    sample_value "median_response_time" samples = Some (PFloat (Qc_of_Z 2)) ∧
    sample_value "mean_response_time" samples = Some (PFloat (Qc_of_Z 2)) ∧
    sample_value "failure_median_response_time" samples =
      Some (PFloat (Qc_of_Z 96)) ∧
    sample_value "num_failures" samples = Some (PInt 1).
Proof.
  destruct (C5_aggregate_statistics (Scenario.flags 5 None) Scenario.model
              Scenario.three_successes Scenario.one_failure 5
              (Scenario_burst_time 5 None) ltac:(discriminate))
    as (fmed & med & avg & Hfailed & Hmed & _ & Havg & _ & Hagg).
  destruct (Hfailed ltac:(discriminate)) as [Hfmed _].
  eexists. split; [exact Hagg|].
  vm_compute in Hfmed, Hmed, Havg.
  injection Hfmed as <-. injection Hmed as <-. injection Havg as <-.
  repeat split; try reflexivity;
    vm_compute; do 2 f_equal; apply Qc_is_canon; reflexivity.
Defined.

(** * The workers *)

(** C7, as the code has it: a worker whose call of the model returns or
    raises [GetError] puts exactly one outcome on the queue, with the two
    clock readings and with status 1 exactly for [GetError], and raises
    nothing. *)
Theorem C7_worker_puts_one_outcome (t0 t1 : Qc) (target : send_result)
    (output_queue : list ModelResponse) :
  (∀ name, target ≠ RaisedOther name) →
  ∃ r,
    TimePromptsForModel t0 t1 target output_queue = (Ok tt, output_queue ++ [r]) ∧
    start_time r = t0 ∧ end_time r = t1 ∧ response r = None ∧
    status r = match target with RaisedGetError => 1 | _ => 0 end.
Proof.
  intros Hhandled. destruct target as [| |name].
  - by eexists.
  - by eexists.
  - by destruct (Hhandled name).
Qed.

Lemma C7_witness :
  ∃ r,
    TimePromptsForModel (Qc_of_Z 0) (Qc_of_Z 1) RaisedGetError [] = (Ok tt, [] ++ [r]) ∧
    start_time r = Qc_of_Z 0 ∧ end_time r = Qc_of_Z 1 ∧ response r = None ∧
    status r = 1.
Proof.
  apply (C7_worker_puts_one_outcome (Qc_of_Z 0) (Qc_of_Z 1) RaisedGetError []).
  intros name. discriminate.
Defined.

(** An exception of the model other than [GetError] leaves the worker, and
    nothing is put on the queue. *)
Lemma C7_counterexample :
  TimePromptsForModel (Qc_of_Z 0) (Qc_of_Z 1) (RaisedOther "TimeoutError") [] =
    (Raise (OtherError "TimeoutError"), []) ∧
  ¬ ∃ r, TimePromptsForModel (Qc_of_Z 0) (Qc_of_Z 1)
           (RaisedOther "TimeoutError") [] = (Ok tt, [r]).
Proof. split; [reflexivity|]. intros [r Hr]. discriminate. Qed.

(** Whatever the exception of the model other than [GetError] is, it leaves
    the worker and the queue is as it was. *)
Lemma TimePromptsForModel_other_exception (t0 t1 : Qc) (name : string)
    (output_queue : list ModelResponse) :
  TimePromptsForModel t0 t1 (RaisedOther name) output_queue =
    (Raise (OtherError name), output_queue).
Proof. reflexivity. Qed.

Lemma TimePromptsForModel_puts (t0 t1 : Qc) (target : send_result)
    (output_queue : list ModelResponse) :
  ∃ put, (TimePromptsForModel t0 t1 target output_queue).2 = output_queue ++ put ∧
         (length put <= 1)%nat.
Proof.
  destruct target; simpl.
  - eexists [_]. split; [done|]. simpl. lia.
  - eexists [_]. split; [done|]. simpl. lia.
  - exists []. split; [by rewrite app_nil_r|]. simpl. lia.
Qed.

(** * The burst scheduler *)

(** ** What reaches the queue *)

Lemma deliver_length (env : Env) (when : arrival) (processes : list nat)
    (output_queue : list ModelResponse) :
  (length (deliver env when processes output_queue) <=
   length output_queue +
   length (filter (fun p => arrives (worker env p) = when) processes))%nat.
Proof.
  revert output_queue. induction processes as [|p processes IH]; intros queue.
  - simpl. lia.
  - unfold deliver in *. simpl. rewrite filter_cons. case_decide as Hwhen.
    + destruct (TimePromptsForModel_puts (now_before (worker env p))
                  (now_after (worker env p)) (target (worker env p)) queue)
        as (put & -> & Hput).
      etransitivity; [apply IH|]. rewrite length_app. simpl. lia.
    + apply IH.
Qed.

(** ** The three loops of the scheduler *)

Section BurstFacts.
Variable fl : Flags.
Variable env : Env.

Let strict := ai_throw_on_client_errors fl.

Lemma _EncounterClientError_result (e : client_error) (log : list log_record) :
  _EncounterClientError fl e log =
    if strict then (Raise (RunError e), log)
    else (Ok tt, log ++ [Warning_ClientError e]).
Proof. unfold _EncounterClientError, strict. by destruct (ai_throw_on_client_errors fl). Qed.

(** The launches either all go through, creating one process per request
    of each burst, or stop at a client error in strict mode. *)
Lemma launch_result (burst_requests : Z) (time_between_bursts : Qc)
    (bursts processes : list nat) (log : list log_record) :
  (∃ log',
     launch fl env burst_requests time_between_bursts bursts processes log =
       (Ok (processes ++
            seq (length processes) (length bursts * Z.to_nat burst_requests)),
        log ++ log') ∧
     (∀ i, i ∈ bursts →
           (time_between_bursts < process_startup_duration env i)%Qc →
           strict = false ∧
           Warning_ClientError (StartupTooSlow (process_startup_duration env i))
             ∈ log')) ∨
  (∃ e log',
     strict = true ∧
     launch fl env burst_requests time_between_bursts bursts processes log =
       (Raise (RunError e), log')).
Proof.
  revert processes log. induction bursts as [|i bursts IH]; intros processes log.
  - left. exists []. simpl. rewrite !app_nil_r. split; [done|].
    intros i Hi. by apply elem_of_nil in Hi.
  - simpl. unfold SendParallelRequests.
    set (processes1 := processes ++ seq (length processes) (Z.to_nat burst_requests)).
    assert (processes1 ++
              seq (length processes1) (length bursts * Z.to_nat burst_requests) =
            processes ++
              seq (length processes)
                (Z.to_nat burst_requests + length bursts * Z.to_nat burst_requests))
      as Hseq.
    { unfold processes1. rewrite length_app, length_seq, <- (assoc_L (++)).
      by rewrite <- seq_app. }
    case_decide as Hslow; unfold mbind, M_bind.
    + rewrite _EncounterClientError_result. destruct strict eqn:Hstrict.
      * right. by eexists _, _.
      * destruct (IH processes1
                    (log ++ [Warning_ClientError
                               (StartupTooSlow (process_startup_duration env i))]))
          as [(log' & Hrun & Hwarn)|(e & log' & [=] & _)].
        left. eexists (_ :: log'). rewrite Hrun, Hseq, <- (assoc_L (++)).
        split; [done|]. intros j [->|Hj]%elem_of_cons Hj_slow.
        -- split; [done|]. apply list_elem_of_here.
        -- split; [done|]. apply list_elem_of_further. by apply Hwarn.
    + unfold mret, M_ret.
      destruct (IH processes1 log) as [(log' & Hrun & Hwarn)|(e & log' & Hs & Hrun)].
      * left. exists log'. rewrite Hrun, Hseq. split; [done|].
        intros j [->|Hj]%elem_of_cons Hj_slow; [done|]. by apply Hwarn.
      * right. by exists e, log'.
Qed.

(** Emptying the queue moves outcomes from the head of the queue to the
    results, at least one unless the queue is empty. *)
Lemma EmptyQueue_loop_result (clock : nat → Qc) (n : nat)
    (output_queue results : list ModelResponse) (log : list log_record) :
  (∃ got output_queue' log',
     EmptyQueue_loop fl clock n output_queue results log =
       (Ok (results ++ got, output_queue'), log ++ log') ∧
     got ++ output_queue' = output_queue ∧
     (got = [] → output_queue = [])) ∨
  (∃ e log',
     strict = true ∧
     EmptyQueue_loop fl clock n output_queue results log =
       (Raise (RunError e), log')).
Proof.
  revert n results log.
  induction output_queue as [|r queue IH]; intros n results log.
  - left. exists [], [], []. simpl. by rewrite !app_nil_r.
  - simpl. case_decide as Hlate.
    + unfold mbind, M_bind. rewrite _EncounterClientError_result.
      destruct strict eqn:Hstrict.
      * right. by eexists _, _.
      * left. by eexists [r], _, [_].
    + destruct (IH (S n) (results ++ [r]) log)
        as [(got & queue' & log' & Hrun & Hsame & Hnil)|(e & log' & Hs & Hrun)].
      * left. exists (r :: got), queue', log'.
        rewrite Hrun, <- (assoc_L (++)). simpl. by rewrite Hsame.
      * right. by exists e, log'.
Qed.

(** The joins either all go through or stop at the first one that comes
    back too late: with a warning, or with an error in strict mode. *)
Lemma join_loop_result (processes : list nat) (log : list log_record) :
  (∃ log',
     join_loop fl env processes log = (Ok tt, log ++ log') ∧
     (∀ p, p ∈ processes → (_FAIL_LATENCY < process_duration env p)%Qc →
           strict = false ∧ Warning_ClientError JoinWaitExceeded ∈ log')) ∨
  (∃ e log',
     strict = true ∧ join_loop fl env processes log = (Raise (RunError e), log')).
Proof.
  revert log. induction processes as [|p processes IH]; intros log.
  - left. exists []. rewrite app_nil_r. split; [done|].
    intros p Hp. by apply elem_of_nil in Hp.
  - simpl. case_decide as Hlate.
    + rewrite _EncounterClientError_result. destruct strict eqn:Hstrict.
      * right. by eexists _, _.
      * left. eexists [_]. split; [done|]. intros q _ _.
        split; [done|]. apply list_elem_of_here.
    + destruct (IH log) as [(log' & Hrun & Hwarn)|(e & log' & Hs & Hrun)].
      * left. exists log'. split; [done|].
        intros q [->|Hq]%elem_of_cons Hq_late; [done|]. by apply (Hwarn q).
      * right. by exists e, log'.
Qed.
End BurstFacts.

(** ** The loops when the client keeps up *)

Section OnTime.
Variable fl : Flags.
Variable env : Env.

(** As long as no reading is beyond [_QUEUE_WAIT_TIME], the loop goes on to
    the end of the queue. *)
Lemma EmptyQueue_loop_within_time (clock : nat → Qc) (n : nat)
    (output_queue results : list ModelResponse) (log : list log_record) :
  (∀ k, (k < length output_queue)%nat → ¬ (_QUEUE_WAIT_TIME < clock (n + k)%nat)%Qc) →
  EmptyQueue_loop fl clock n output_queue results log =
    (Ok (results ++ output_queue, []), log).
Proof.
  revert n results. induction output_queue as [|r queue IH]; intros n results Hin.
  - simpl. by rewrite app_nil_r.
  - simpl. case_decide as Hlate.
    + destruct (Hin 0%nat); [simpl; lia|]. by rewrite Nat.add_0_r.
    + rewrite IH.
      * by rewrite <- (assoc_L (++)).
      * intros k Hk. replace (S n + k)%nat with (n + S k)%nat by lia.
        apply Hin. simpl. lia.
Qed.

(** Launches that are all on time. *)
Lemma launch_on_time (burst_requests : Z) (time_between_bursts : Qc)
    (bursts processes : list nat) (log : list log_record) :
  Forall (fun i => ¬ (time_between_bursts < process_startup_duration env i)%Qc)
    bursts →
  launch fl env burst_requests time_between_bursts bursts processes log =
    (Ok (processes ++
         seq (length processes) (length bursts * Z.to_nat burst_requests)), log).
Proof.
  intros Hon_time. revert processes.
  induction Hon_time as [|i bursts Hi _ IH]; intros processes; simpl.
  - by rewrite !app_nil_r.
  - unfold mbind, M_bind, mret, M_ret, SendParallelRequests.
    case_decide; [done|]. rewrite IH.
    by rewrite length_app, length_seq, <- !(assoc_L (++)), <- seq_app.
Qed.

(** Joins that all come back in time. *)
Lemma join_loop_on_time (processes : list nat) (log : list log_record) :
  Forall (fun p => ¬ (_FAIL_LATENCY < process_duration env p)%Qc) processes →
  join_loop fl env processes log = (Ok tt, log).
Proof.
  induction 1 as [|p processes Hp _ IH]; simpl; [done|]. by case_decide.
Qed.

End OnTime.

(** ** One run of the scheduler *)

(** Joins in strict mode, when one of them comes back late. *)
Lemma join_loop_strict (fl : Flags) (env : Env) (processes : list nat)
    (log : list log_record) :
  ai_throw_on_client_errors fl = true →
  Exists (fun p => (_FAIL_LATENCY < process_duration env p)%Qc) processes →
  join_loop fl env processes log = (Raise (RunError JoinWaitExceeded), log).
Proof.
  intros Hstrict Hlate. induction processes as [|p processes IH]; simpl.
  - by apply Exists_nil in Hlate.
  - case_decide as Hp.
    + by rewrite _EncounterClientError_result, Hstrict.
    + apply IH. by apply Exists_cons in Hlate as [?|?].
Qed.

(** Launches in strict mode, up to the first one that is slow. *)
Lemma launch_strict (fl : Flags) (env : Env) (burst_requests : Z)
    (time_between_bursts : Qc) (n i : nat) (processes : list nat)
    (log : list log_record) :
  ai_throw_on_client_errors fl = true →
  (i < n)%nat →
  (time_between_bursts < process_startup_duration env i)%Qc →
  (∀ j, (j < i)%nat →
        ¬ (time_between_bursts < process_startup_duration env j)%Qc) →
  launch fl env burst_requests time_between_bursts (seq 0 n) processes log =
    (Raise (RunError (StartupTooSlow (process_startup_duration env i))), log).
Proof.
  intros Hstrict Hi Hslow Hbefore.
  assert (∀ start k m processes,
    (k < m)%nat →
    (∀ j, (start <= j < start + k)%nat →
          ¬ (time_between_bursts < process_startup_duration env j)%Qc) →
    (time_between_bursts < process_startup_duration env (start + k))%Qc →
    launch fl env burst_requests time_between_bursts (seq start m) processes log =
      (Raise (RunError (StartupTooSlow
                          (process_startup_duration env (start + k)))), log))
    as Hgen.
  { intros start k. revert start. induction k as [|k IH];
      intros start m created Hm Hon_time Hslow_k;
      (destruct m as [|m]; [lia|]); simpl; unfold mbind, M_bind.
    - rewrite Nat.add_0_r in Hslow_k |- *. case_decide; [|done].
      by rewrite _EncounterClientError_result, Hstrict.
    - case_decide as Hnow; [destruct (Hon_time start); [lia|done]|].
      unfold mret, M_ret.
      replace (start + S k)%nat with (S start + k)%nat in * by lia.
      apply IH; [lia| |done]. intros j Hj. apply Hon_time. lia. }
  apply (Hgen 0%nat i n processes Hi); [|done].
  intros j Hj. apply Hbefore. lia.
Qed.

Section RunFacts.
Variable fl : Flags.
Variable env : Env.
Variable ai_model : BaseManagedAiModel.
Variable burst_requests : Z.
Variable total_duration : Z.
Variable time_between_bursts : float.

Let strict := ai_throw_on_client_errors fl.
Let run := BurstRequestsOverTime fl env ai_model burst_requests total_duration
             time_between_bursts.
Let slow (i : nat) : Prop :=
  (float_value time_between_bursts < process_startup_duration env i)%Qc.
Let late (p : nat) : Prop := (_FAIL_LATENCY < process_duration env p)%Qc.

(** A run that cannot compute its number of bursts raises what that
    computation raises, before anything else happens. *)
Lemma BurstRequestsOverTime_no_goal (e : exn) (log : list log_record) :
  goal_bursts_of total_duration time_between_bursts = Raise e →
  run log = (Raise e, log).
Proof.
  intros Hgoal. unfold run, BurstRequestsOverTime. by rewrite Hgoal.
Qed.

(** A run returns only when it has computed its number of bursts. *)
Lemma BurstRequestsOverTime_goal (results : list ModelResponse) :
  outcome run = Ok results →
  ∃ goal_bursts, goal_bursts_of total_duration time_between_bursts = Ok goal_bursts.
Proof.
  intros Hout.
  destruct (goal_bursts_of total_duration time_between_bursts)
    as [goal_bursts|e] eqn:Hgoal; [by exists goal_bursts|].
  unfold outcome in Hout. rewrite (BurstRequestsOverTime_no_goal e [] Hgoal) in Hout.
  discriminate.
Qed.

Section WithGoal.
Variable goal_bursts : Z.
Hypothesis goal :
  goal_bursts_of total_duration time_between_bursts = Ok goal_bursts.

Let processes := seq 0 (dispatched burst_requests goal_bursts).

(** A run either returns at most as many outcomes as it created
    processes, having logged every client error it met, or it is stopped by
    a client error in strict mode. *)
Lemma BurstRequestsOverTime_result :
  (∃ results log,
     run [] = (Ok results, log) ∧
     (length results <= dispatched burst_requests goal_bursts)%nat ∧
     (client_overload env burst_requests goal_bursts
        (float_value time_between_bursts) →
      strict = false ∧ ∃ e, Warning_ClientError e ∈ log)) ∨
  (∃ e log, strict = true ∧ run [] = (Raise (RunError e), log)).
Proof.
  destruct (run []) as [outcome_ log] eqn:Hrun.
  unfold run, BurstRequestsOverTime in Hrun. rewrite goal in Hrun.
  unfold mbind, M_bind, lift, mret, M_ret, logging, EmptyQueue in Hrun.
  cbn beta iota in Hrun.
  destruct (launch_result fl env burst_requests (float_value time_between_bursts)
              (seq 0 (Z.to_nat goal_bursts)) [] [])
    as [(log1 & Hlaunch & Hwarn1)|(e & log' & Hs & Hlaunch)];
    rewrite Hlaunch in Hrun; clear Hlaunch;
    [|right; exists e, log'; split; [done|congruence]].
  cbn [app length] in Hrun. rewrite length_seq in Hrun.
  fold (dispatched burst_requests goal_bursts) in Hrun. fold processes in Hrun.
  assert (length processes = dispatched burst_requests goal_bursts) as Hcreated
    by apply length_seq.
  destruct (EmptyQueue_loop_result fl (queue_duration env 0) 0
              (deliver env BeforeFirstDrain processes []) [] log1)
    as [(got1 & queue1 & log2 & Hdrain1 & Hsame1 & Hnil1)|(e & log' & Hs & Hdrain1)];
    rewrite Hdrain1 in Hrun; clear Hdrain1;
    [|right; exists e, log'; split; [done|congruence]].
  cbn [app] in Hrun.
  destruct (join_loop_result fl env processes (log1 ++ log2))
    as [(log3 & Hjoin & Hwarn3)|(e & log' & Hs & Hjoin)];
    rewrite Hjoin in Hrun; clear Hjoin;
    [|right; exists e, log'; split; [done|congruence]].
  assert (∀ when queue,
    (length (deliver env when processes queue) <=
     length queue + dispatched burst_requests goal_bursts)%nat) as Hdeliver.
  { intros when queue. etransitivity; [apply deliver_length|].
    rewrite <- Hcreated. apply Nat.add_le_mono_l, length_filter. }
  assert (∀ log',
    client_overload env burst_requests goal_bursts
      (float_value time_between_bursts) →
    strict = false ∧
    ∃ e, Warning_ClientError e ∈ ((log1 ++ log2) ++ log3) ++ log') as Hwarn.
  { intros log' [(i & Hi & Hslow)|(q & Hq & Hlate)].
    - destruct (Hwarn1 i) as [Hlenient Hin]; [apply elem_of_seq; lia|done|].
      split; [done|]. eexists. rewrite !elem_of_app. eauto.
    - destruct (Hwarn3 q) as [Hlenient Hin]; [apply elem_of_seq; lia|done|].
      split; [done|]. eexists. rewrite !elem_of_app. eauto. }
  destruct got1 as [|r got1].
  - rewrite (Hnil1 eq_refl) in Hsame1. simpl in Hsame1. subst queue1.
    destruct (EmptyQueue_loop_result fl (queue_duration env 1) 0
                (deliver env BeforeSecondDrain processes []) []
                ((log1 ++ log2) ++ log3))
      as [(got2 & queue2 & log4 & Hdrain2 & Hsame2 & _)|(e & log' & Hs & Hdrain2)];
      rewrite Hdrain2 in Hrun; clear Hdrain2;
      [|right; exists e, log'; split; [done|congruence]].
    cbn [app] in Hrun.
    assert (length got2 <= dispatched burst_requests goal_bursts)%nat as Hbound.
    { pose proof (Hdeliver BeforeSecondDrain []) as Hle.
      rewrite <- Hsame2, length_app in Hle. simpl in Hle. lia. }
    left. case_decide; injection Hrun as <- <-; eexists _, _;
      (split; [done|]); (split; [done|]).
    + intros Hover. destruct (Hwarn log4 Hover) as [Hlenient [e He]].
      split; [done|]. exists e. apply elem_of_app. by left.
    + apply Hwarn.
  - assert (length (r :: got1) <= dispatched burst_requests goal_bursts)%nat
      as Hbound.
    { pose proof (Hdeliver BeforeFirstDrain []) as Hle.
      rewrite <- Hsame1, length_app in Hle. simpl in Hle |- *. lia. }
    left. case_decide; injection Hrun as <- <-; eexists _, _;
      (split; [done|]); (split; [done|]).
    + intros Hover. destruct (Hwarn [] Hover) as [Hlenient [e He]].
      rewrite app_nil_r in He.
      split; [done|]. exists e. apply elem_of_app. by left.
    + intros Hover. destruct (Hwarn [] Hover) as [Hlenient [e He]].
      rewrite app_nil_r in He. eauto.
Qed.

(** Without strict mode the run goes on to its end: it returns, every burst
    whose launch was slow and a late join are in the log with their
    warning, and when no reading of the first emptying is beyond the
    waiting time the run returns the whole queue that the first emptying
    finds, unless that queue is empty. *)
Lemma BurstRequestsOverTime_lenient :
  strict = false →
  ∃ results log,
    run [] = (Ok results, log) ∧
    (∀ i, (i < Z.to_nat goal_bursts)%nat → slow i →
          Warning_ClientError (StartupTooSlow (process_startup_duration env i))
            ∈ log) ∧
    (∀ p, (p < dispatched burst_requests goal_bursts)%nat → late p →
          Warning_ClientError JoinWaitExceeded ∈ log) ∧
    ((∀ n, ¬ (_QUEUE_WAIT_TIME < queue_duration env 0 n)%Qc) →
     deliver env BeforeFirstDrain processes [] ≠ [] →
     results = deliver env BeforeFirstDrain processes []).
Proof.
  intros Hlenient.
  destruct (run []) as [outcome_ log] eqn:Hrun.
  unfold run, BurstRequestsOverTime in Hrun. rewrite goal in Hrun.
  unfold mbind, M_bind, lift, mret, M_ret, logging, EmptyQueue in Hrun.
  cbn beta iota in Hrun.
  destruct (launch_result fl env burst_requests (float_value time_between_bursts)
              (seq 0 (Z.to_nat goal_bursts)) [] [])
    as [(log1 & Hlaunch & Hwarn1)|(e & log' & Hs & Hlaunch)];
    [|unfold strict in *; congruence].
  rewrite Hlaunch in Hrun; clear Hlaunch.
  cbn [app length] in Hrun. rewrite length_seq in Hrun.
  fold (dispatched burst_requests goal_bursts) in Hrun. fold processes in Hrun.
  destruct (EmptyQueue_loop_result fl (queue_duration env 0) 0
              (deliver env BeforeFirstDrain processes []) [] log1)
    as [(got1 & queue1 & log2 & Hdrain1 & Hsame1 & Hnil1)|(e & log' & Hs & Hdrain1)];
    [|unfold strict in *; congruence].
  assert ((∀ n, ¬ (_QUEUE_WAIT_TIME < queue_duration env 0 n)%Qc) →
          got1 = deliver env BeforeFirstDrain processes []) as Hwhole.
  { intros Hin_time.
    rewrite EmptyQueue_loop_within_time in Hdrain1 by (intros k _; apply Hin_time).
    by injection Hdrain1 as <- _. }
  rewrite Hdrain1 in Hrun; clear Hdrain1.
  cbn [app] in Hrun.
  destruct (join_loop_result fl env processes (log1 ++ log2))
    as [(log3 & Hjoin & Hwarn3)|(e & log' & Hs & Hjoin)];
    [|unfold strict in *; congruence].
  rewrite Hjoin in Hrun; clear Hjoin.
  assert (∀ log' i, (i < Z.to_nat goal_bursts)%nat → slow i →
    Warning_ClientError (StartupTooSlow (process_startup_duration env i))
      ∈ ((log1 ++ log2) ++ log3) ++ log') as Hslow.
  { intros log' i Hi Hslow.
    destruct (Hwarn1 i) as [_ Hin]; [apply elem_of_seq; lia|done|].
    rewrite !elem_of_app. eauto. }
  assert (∀ log' p, (p < dispatched burst_requests goal_bursts)%nat → late p →
    Warning_ClientError JoinWaitExceeded ∈ ((log1 ++ log2) ++ log3) ++ log')
    as Hlate.
  { intros log' p Hp Hlate.
    destruct (Hwarn3 p) as [_ Hin]; [apply elem_of_seq; lia|done|].
    rewrite !elem_of_app. eauto. }
  destruct got1 as [|r got1].
  - rewrite (Hnil1 eq_refl) in Hsame1. simpl in Hsame1. subst queue1.
    destruct (EmptyQueue_loop_result fl (queue_duration env 1) 0
                (deliver env BeforeSecondDrain processes []) []
                ((log1 ++ log2) ++ log3))
      as [(got2 & queue2 & log4 & Hdrain2 & Hsame2 & _)|(e & log' & Hs & Hdrain2)];
      [|unfold strict in *; congruence].
    rewrite Hdrain2 in Hrun; clear Hdrain2. cbn [app] in Hrun.
    case_decide; injection Hrun as <- <-; eexists _, _; (split; [done|]).
    + split; [|split].
      * intros i Hi Hi_slow. apply elem_of_app. left. by apply (Hslow _ i).
      * intros p Hp Hp_late. apply elem_of_app. left. by apply (Hlate _ p).
      * intros Hin_time Hne. by destruct Hne; rewrite <- Hwhole.
    + split; [|split].
      * intros i Hi Hi_slow. by apply (Hslow _ i).
      * intros p Hp Hp_late. by apply (Hlate _ p).
      * intros Hin_time Hne. by destruct Hne; rewrite <- Hwhole.
  - case_decide; injection Hrun as <- <-; eexists _, _; (split; [done|]).
    + split; [|split].
      * intros i Hi Hi_slow. apply elem_of_app. left.
        rewrite <- (app_nil_r (_ ++ log3)). by apply (Hslow _ i).
      * intros p Hp Hp_late. apply elem_of_app. left.
        rewrite <- (app_nil_r (_ ++ log3)). by apply (Hlate _ p).
      * intros Hin_time _. by apply Hwhole.
    + split; [|split].
      * intros i Hi Hi_slow. rewrite <- (app_nil_r (_ ++ log3)). by apply (Hslow _ i).
      * intros p Hp Hp_late. rewrite <- (app_nil_r (_ ++ log3)). by apply (Hlate _ p).
      * intros Hin_time _. by apply Hwhole.
Qed.

(** In strict mode the first burst whose launch is slow stops the run, with
    the error about that launch. *)
Lemma BurstRequestsOverTime_strict_launch (i : nat) :
  strict = true → (i < Z.to_nat goal_bursts)%nat → slow i →
  (∀ j, (j < i)%nat → ¬ slow j) →
  run [] =
    (Raise (RunError (StartupTooSlow (process_startup_duration env i))), []).
Proof.
  intros Hstrict Hi Hslow Hbefore.
  unfold run, BurstRequestsOverTime. rewrite goal.
  unfold mbind, M_bind, lift. cbn beta iota.
  by rewrite (launch_strict fl env burst_requests _ _ i [] [] Hstrict Hi Hslow Hbefore).
Qed.

(** In strict mode, when the launches were on time and the first emptying
    within the waiting time, a late join stops the run. *)
Lemma BurstRequestsOverTime_strict_join (p : nat) :
  strict = true →
  (∀ i, (i < Z.to_nat goal_bursts)%nat → ¬ slow i) →
  (∀ n, ¬ (_QUEUE_WAIT_TIME < queue_duration env 0 n)%Qc) →
  (p < dispatched burst_requests goal_bursts)%nat → late p →
  run [] = (Raise (RunError JoinWaitExceeded), []).
Proof.
  intros Hstrict Hlaunch Hdrain Hp Hlate.
  unfold run, BurstRequestsOverTime. rewrite goal.
  unfold mbind, M_bind, lift, mret, M_ret, logging. cbn beta iota.
  rewrite launch_on_time
    by (apply Forall_forall; intros i Hi%elem_of_seq; apply Hlaunch; lia).
  cbn [app length]. rewrite length_seq.
  fold (dispatched burst_requests goal_bursts). fold processes.
  unfold EmptyQueue at 1.
  rewrite EmptyQueue_loop_within_time by (intros k _; apply Hdrain).
  cbn [app].
  rewrite join_loop_strict; [done|done|].
  apply Exists_exists. exists p. split; [|done]. apply elem_of_seq. lia.
Qed.

(** When no launch is slow, no reading of an emptying is beyond the waiting
    time and no join is late, the run returns and logs no client error. *)
Lemma BurstRequestsOverTime_undisturbed :
  (∀ i, (i < Z.to_nat goal_bursts)%nat → ¬ slow i) →
  (∀ n, ¬ (_QUEUE_WAIT_TIME < queue_duration env 0 n)%Qc) →
  (∀ n, ¬ (_QUEUE_WAIT_TIME < queue_duration env 1 n)%Qc) →
  (∀ p, (p < dispatched burst_requests goal_bursts)%nat → ¬ late p) →
  ∃ results log,
    run [] = (Ok results, log) ∧ ∀ e, Warning_ClientError e ∉ log.
Proof.
  intros Hlaunch Hdrain0 Hdrain1 Hjoin.
  unfold run, BurstRequestsOverTime. rewrite goal.
  unfold mbind, M_bind, lift, mret, M_ret, logging. cbn beta iota.
  rewrite launch_on_time
    by (apply Forall_forall; intros i Hi%elem_of_seq; apply Hlaunch; lia).
  cbn [app length]. rewrite length_seq.
  fold (dispatched burst_requests goal_bursts). fold processes.
  unfold EmptyQueue at 1.
  rewrite EmptyQueue_loop_within_time by (intros k _; apply Hdrain0).
  cbn [app].
  rewrite join_loop_on_time
    by (apply Forall_forall; intros p Hp%elem_of_seq; apply Hjoin; lia).
  destruct (deliver env BeforeFirstDrain processes []) as [|r queue].
  - unfold EmptyQueue.
    rewrite EmptyQueue_loop_within_time by (intros k _; apply Hdrain1).
    cbn [app]. case_decide; eexists _, _; (split; [done|]); intros e He.
    + by apply list_elem_of_singleton in He.
    + by apply elem_of_nil in He.
  - case_decide; eexists _, _; (split; [done|]); intros e He.
    + by apply list_elem_of_singleton in He.
    + by apply elem_of_nil in He.
Qed.
End WithGoal.
End RunFacts.

(** The floor of a quotient is taken after rounding: a tenth of a second
    goes 600 times into a minute for the program, and 599 times for the
    numbers. *)
Example goal_bursts_of_rounded_quotient :
  goal_bursts_of 60 BurstScenario.a_tenth = Ok 600 ∧
  Qfloor (Qc_of_Z 60 / float_value BurstScenario.a_tenth)%Qc = 599 ∧
  goal_bursts_of 7 BurstScenario.seven_hundredths = Ok 99 ∧
  goal_bursts_of 1 BurstScenario.a_tenth = Ok 10 ∧
  float_of_Qc (Qc_of_Z 1) = BurstScenario.one_second ∧
  float_of_Qc (Q2Qc (1 # 10)) = BurstScenario.a_tenth ∧
  float_of_Qc (Q2Qc (7 # 100)) = BurstScenario.seven_hundredths ∧
  float_of_Qc (float_value BurstScenario.a_tenth) = BurstScenario.a_tenth.
Proof. by vm_compute. Qed.

(** What the computation of the number of bursts raises. *)
Example goal_bursts_of_exceptions :
  goal_bursts_of 60 (S754_zero false) = Raise ZeroDivisionError ∧
  goal_bursts_of (10 ^ 400) BurstScenario.one_second = Raise OverflowError ∧
  goal_bursts_of (10 ^ 400) (S754_zero false) = Raise OverflowError ∧
  goal_bursts_of 60 S754_nan = Raise ValueError ∧
  goal_bursts_of 60 (S754_finite false 1 (-1074)) = Raise OverflowError ∧
  goal_bursts_of 60 (S754_infinity false) = Ok 0.
Proof. by vm_compute. Qed.

(** C8: a hard error of a run is a [RunError] and is raised in strict mode
    only. In strict mode a run that meets a slow launch or a late join is
    stopped by a [RunError]: by the error about the first slow launch when
    there is one, and by the error about the joins when the launches were
    on time, the first emptying was within the waiting time and a join is
    late. Without strict mode the run returns, the log holds the warning
    about every slow launch and about a late join, and what the run
    returns is the whole queue as the first emptying finds it when that
    emptying is within the waiting time and the queue is not empty. When no
    launch is slow, no emptying is beyond the waiting time and no join is
    late, the run returns and logs no client error. *)
Theorem C8_client_overload_policy (fl : Flags) (env : Env)
    (ai_model : BaseManagedAiModel) (burst_requests total_duration : Z)
    (time_between_bursts : float) (goal_bursts : Z) :
  goal_bursts_of total_duration time_between_bursts = Ok goal_bursts →
  let run := BurstRequestsOverTime fl env ai_model burst_requests total_duration
               time_between_bursts in
  let processes := seq 0 (dispatched burst_requests goal_bursts) in
  let slow (i : nat) :=
    (float_value time_between_bursts < process_startup_duration env i)%Qc in
  let late (p : nat) := (_FAIL_LATENCY < process_duration env p)%Qc in
  (∀ e, outcome run = Raise e →
        ai_throw_on_client_errors fl = true ∧ ∃ error_msg, e = RunError error_msg) ∧
  (ai_throw_on_client_errors fl = true →
   (client_overload env burst_requests goal_bursts
      (float_value time_between_bursts) →
    ∃ error_msg, outcome run = Raise (RunError error_msg)) ∧
   (∀ i, (i < Z.to_nat goal_bursts)%nat → slow i →
         (∀ j, (j < i)%nat → ¬ slow j) →
         outcome run =
           Raise (RunError (StartupTooSlow (process_startup_duration env i)))) ∧
   (∀ p, (∀ i, (i < Z.to_nat goal_bursts)%nat → ¬ slow i) →
         (∀ n, ¬ (_QUEUE_WAIT_TIME < queue_duration env 0 n)%Qc) →
         (p < dispatched burst_requests goal_bursts)%nat → late p →
         outcome run = Raise (RunError JoinWaitExceeded))) ∧
  (ai_throw_on_client_errors fl = false →
   ∃ results,
     outcome run = Ok results ∧
     (∀ i, (i < Z.to_nat goal_bursts)%nat → slow i →
           Warning_ClientError (StartupTooSlow (process_startup_duration env i))
             ∈ logged run) ∧
     (∀ p, (p < dispatched burst_requests goal_bursts)%nat → late p →
           Warning_ClientError JoinWaitExceeded ∈ logged run) ∧
     ((∀ n, ¬ (_QUEUE_WAIT_TIME < queue_duration env 0 n)%Qc) →
      deliver env BeforeFirstDrain processes [] ≠ [] →
      results = deliver env BeforeFirstDrain processes [])) ∧
  ((∀ i, (i < Z.to_nat goal_bursts)%nat → ¬ slow i) →
   (∀ n, ¬ (_QUEUE_WAIT_TIME < queue_duration env 0 n)%Qc) →
   (∀ n, ¬ (_QUEUE_WAIT_TIME < queue_duration env 1 n)%Qc) →
   (∀ p, (p < dispatched burst_requests goal_bursts)%nat → ¬ late p) →
   ∃ results,
     outcome run = Ok results ∧ ∀ e, Warning_ClientError e ∉ logged run).
Proof.
  intros Hgoal run processes slow late. unfold outcome, logged.
  split; [|split; [|split]].
  - intros e Hraise.
    destruct (BurstRequestsOverTime_result fl env ai_model burst_requests
                total_duration time_between_bursts goal_bursts Hgoal)
      as [(results & log & Hrun & _)|(error_msg & log & Hstrict & Hrun)];
      unfold run in Hraise; rewrite Hrun in Hraise; simpl in Hraise;
      [discriminate|].
    split; [done|]. exists error_msg. congruence.
  - intros Hstrict. split; [|split].
    + intros Hover.
      destruct (BurstRequestsOverTime_result fl env ai_model burst_requests
                  total_duration time_between_bursts goal_bursts Hgoal)
        as [(results & log & Hrun & _ & Hwarn)|(error_msg & log & _ & Hrun)].
      * destruct (Hwarn Hover) as [Hlenient _]. congruence.
      * exists error_msg. unfold run. by rewrite Hrun.
    + intros i Hi Hslow Hbefore. unfold run.
      by rewrite (BurstRequestsOverTime_strict_launch fl env ai_model
                    burst_requests total_duration time_between_bursts
                    goal_bursts Hgoal i Hstrict Hi Hslow Hbefore).
    + intros p Hlaunch Hdrain Hp Hlate. unfold run.
      by rewrite (BurstRequestsOverTime_strict_join fl env ai_model
                    burst_requests total_duration time_between_bursts
                    goal_bursts Hgoal p Hstrict Hlaunch Hdrain Hp Hlate).
  - intros Hlenient.
    destruct (BurstRequestsOverTime_lenient fl env ai_model burst_requests
                total_duration time_between_bursts goal_bursts Hgoal Hlenient)
      as (results & log & Hrun & Hslow & Hlate & Hwhole).
    exists results. unfold run. rewrite Hrun. by simpl.
  - intros Hlaunch Hdrain0 Hdrain1 Hjoin.
    destruct (BurstRequestsOverTime_undisturbed fl env ai_model burst_requests
                total_duration time_between_bursts goal_bursts Hgoal
                Hlaunch Hdrain0 Hdrain1 Hjoin)
      as (results & log & Hrun & Hquiet).
    exists results. unfold run. rewrite Hrun. by simpl.
Qed.

(** Two bursts of one request at one second between bursts. When each
    launch takes two seconds, the first launch stops the run in strict
    mode; without strict mode both launches are in the log and both
    outcomes are returned. When the second join is late, it stops the run in
    strict mode. When nothing is slow, the run returns in strict mode too,
    without a client error in the log. *)
Lemma C8_witness :
  outcome (BurstRequestsOverTime (BurstScenario.strict true)
             BurstScenario.slow_launch Scenario.model 1 2
             BurstScenario.one_second) =
    Raise (RunError (StartupTooSlow (Qc_of_Z 2))) ∧
  (∃ results,
     outcome (BurstRequestsOverTime (BurstScenario.strict false)
                BurstScenario.slow_launch Scenario.model 1 2
                BurstScenario.one_second) = Ok results ∧
     Warning_ClientError (StartupTooSlow (Qc_of_Z 2)) ∈
       logged (BurstRequestsOverTime (BurstScenario.strict false)
                 BurstScenario.slow_launch Scenario.model 1 2
                 BurstScenario.one_second) ∧
     results = deliver BurstScenario.slow_launch BeforeFirstDrain [0; 1]%nat []) ∧
  outcome (BurstRequestsOverTime (BurstScenario.strict true)
             MoreScenarios.late_joins Scenario.model 1 2
             BurstScenario.one_second) =
    Raise (RunError JoinWaitExceeded) ∧
  (∃ results,
     outcome (BurstRequestsOverTime (BurstScenario.strict true)
                BurstScenario.calm Scenario.model 1 2
                BurstScenario.one_second) = Ok results ∧
     ∀ e, Warning_ClientError e ∉
            logged (BurstRequestsOverTime (BurstScenario.strict true)
                      BurstScenario.calm Scenario.model 1 2
                      BurstScenario.one_second)).
Proof.
  assert (goal_bursts_of 2 BurstScenario.one_second = Ok 2) as Hgoal
    by (by vm_compute).
  split; [|split; [|split]].
  - destruct (C8_client_overload_policy (BurstScenario.strict true)
                BurstScenario.slow_launch Scenario.model 1 2
                BurstScenario.one_second 2 Hgoal)
      as (_ & Hstrict & _).
    destruct (Hstrict eq_refl) as (_ & Hfirst & _).
    apply (Hfirst 0%nat).
    + vm_compute. lia.
    + by vm_compute.
    + intros j Hj. lia.
  - destruct (C8_client_overload_policy (BurstScenario.strict false)
                BurstScenario.slow_launch Scenario.model 1 2
                BurstScenario.one_second 2 Hgoal)
      as (_ & _ & Hlenient & _).
    destruct (Hlenient eq_refl) as (results & Hout & Hslow & _ & Hwhole).
    exists results. split; [exact Hout|]. split.
    + apply (Hslow 0%nat); [vm_compute; lia|by vm_compute].
    + apply Hwhole; [intros n; by vm_compute|by vm_compute].
  - destruct (C8_client_overload_policy (BurstScenario.strict true)
                MoreScenarios.late_joins Scenario.model 1 2
                BurstScenario.one_second 2 Hgoal)
      as (_ & Hstrict & _).
    destruct (Hstrict eq_refl) as (_ & _ & Hjoin).
    apply (Hjoin 1%nat).
    + intros i _. by vm_compute.
    + intros n. by vm_compute.
    + vm_compute. lia.
    + by vm_compute.
  - destruct (C8_client_overload_policy (BurstScenario.strict true)
                BurstScenario.calm Scenario.model 1 2
                BurstScenario.one_second 2 Hgoal)
      as (_ & _ & _ & Hquiet).
    apply Hquiet.
    + intros i _. by vm_compute.
    + intros n. by vm_compute.
    + intros n. by vm_compute.
    + intros p _. by vm_compute.
Defined.

(** C9: a run that returns has computed its number of bursts,
    [goal_bursts = math.floor(total_duration / time_between_bursts)], and
    returns at most as many outcomes as it created processes:
    [burst_requests * goal_bursts] of them when neither number is
    negative. *)
Theorem C9_outcomes_bounded (fl : Flags) (env : Env)
    (ai_model : BaseManagedAiModel) (burst_requests total_duration : Z)
    (time_between_bursts : float) (results : list ModelResponse) :
  outcome (BurstRequestsOverTime fl env ai_model burst_requests total_duration
             time_between_bursts) = Ok results →
  ∃ goal_bursts,
    goal_bursts_of total_duration time_between_bursts = Ok goal_bursts ∧
    (length results <= dispatched burst_requests goal_bursts)%nat ∧
    (0 <= burst_requests → 0 <= goal_bursts →
     Z.of_nat (length results) <= burst_requests * goal_bursts).
Proof.
  intros Hout.
  destruct (BurstRequestsOverTime_goal fl env ai_model burst_requests
              total_duration time_between_bursts results Hout)
    as [goal_bursts Hgoal].
  exists goal_bursts. split; [done|]. unfold outcome in Hout.
  destruct (BurstRequestsOverTime_result fl env ai_model burst_requests
              total_duration time_between_bursts goal_bursts Hgoal)
    as [(results' & log & Hrun & Hbound & _)|(e & log & _ & Hrun)];
    rewrite Hrun in Hout; simpl in Hout; [|done].
  injection Hout as ->. split; [done|].
  intros Hrequests Hbursts. unfold dispatched in Hbound. nia.
Qed.

(** Five requests every tenth of a second for one second, all answered in
    time: ten bursts, fifty outcomes. *)
Lemma C9_witness :
  ∃ goal_bursts,
    goal_bursts_of 1 BurstScenario.a_tenth = Ok goal_bursts ∧
    (length (responses_of
       (outcome (BurstRequestsOverTime (BurstScenario.strict false)
                   BurstScenario.calm Scenario.model 5 1
                   BurstScenario.a_tenth))) <=
     dispatched 5 goal_bursts)%nat ∧
    (0 <= 5 → 0 <= goal_bursts →
     Z.of_nat (length (responses_of
       (outcome (BurstRequestsOverTime (BurstScenario.strict false)
                   BurstScenario.calm Scenario.model 5 1
                   BurstScenario.a_tenth)))) <= 5 * goal_bursts).
Proof.
  apply (C9_outcomes_bounded (BurstScenario.strict false) BurstScenario.calm
           Scenario.model 5 1 BurstScenario.a_tenth).
  by vm_compute.
Defined.

(** The search run against the scheduler, when nothing is slow and every
    request is answered: the single level 5 is clean and is reported. *)
Example FindMaxThroughput_in_calm :
  metrics <$> outcome (FindMaxThroughput_in (BurstScenario.strict false)
                         (fun _ => BurstScenario.calm) Scenario.model) =
    Ok ["success_rate"; "num_responses"; "median_response_time";
        "mean_response_time"; "max_throughput"] ∧
  levels_attempted (logged (FindMaxThroughput_in (BurstScenario.strict false)
                              (fun _ => BurstScenario.calm) Scenario.model)) = [5].
Proof. by vm_compute. Qed.

(** * The search against any scheduler *)

(** ** How the loop ends *)

Section LoopCases.
Variable fl : Flags.
Variable burst : BaseManagedAiModel → Z → Z → Qc → result (list ModelResponse).
Variable ai_model : BaseManagedAiModel.

Let run (level : Z) := run_at fl burst ai_model level.
Let clean (level : Z) := clean_run (run level).

(** A run that raises: the loop is left with the exception. *)
Lemma search_loop_raise (level : Z) (post : list Z) (e : exn)
    (st : SearchState) (log : list log_record) :
  run level = Raise e →
  search_loop fl burst ai_model (level :: post) st log =
    (Raise e, log ++ [Info_SendingQps level]).
Proof.
  intros Hrun. simpl. run_M. unfold run, run_at in Hrun. by rewrite Hrun.
Qed.

(** The levels are all clean, or there is a first level whose run has a
    failed outcome or raises. *)
Lemma first_unclean_run (levels : list Z) :
  Forall clean levels ∨
  ∃ pre level post,
    levels = pre ++ level :: post ∧ Forall clean pre ∧
    ((∃ rs, breaking_run (run level) rs) ∨ ∃ e, run level = Raise e).
Proof.
  induction levels as [|level levels IH]; [by left|].
  destruct (run level) as [rs|e] eqn:Hrun.
  - destruct (filter failed rs) as [|f fs] eqn:Hfailed.
    + assert (clean level) as Hclean by (exists rs; by rewrite Hrun).
      destruct IH as [Hall|(pre & l & post & -> & Hpre & Hl)].
      * left. by constructor.
      * right. exists (level :: pre), l, post. split; [done|]. split; [|done].
        by constructor.
    + right. exists [], level, levels. split; [done|]. split; [constructor|].
      left. exists rs. split; [done|]. by rewrite Hfailed.
  - right. exists [], level, levels. split; [done|]. split; [constructor|].
    right. by exists e.
Qed.

(** The three ways in which the loop ends. *)
Lemma search_loop_cases (levels : list Z) (st : SearchState)
    (log : list log_record) :
  (Forall clean levels ∧
   search_loop fl burst ai_model levels st log =
     (Ok (after_clean_runs fl burst ai_model st levels),
      log ++ (Info_SendingQps <$> levels))) ∨
  (∃ pre level post rs,
     levels = pre ++ level :: post ∧ Forall clean pre ∧
     breaking_run (run level) rs ∧
     search_loop fl burst ai_model levels st log =
       (Ok {| burst_requests := level; responses := rs;
              failed_responses := filter failed rs;
              last_responses :=
                last_responses (after_clean_runs fl burst ai_model st pre) |},
        (log ++ (Info_SendingQps <$> pre)) ++
        [Info_SendingQps level;
         Info_ReachedFailurePoint level (length (filter failed rs))])) ∨
  (∃ pre level post e,
     levels = pre ++ level :: post ∧ Forall clean pre ∧
     run level = Raise e ∧
     search_loop fl burst ai_model levels st log =
       (Raise e, (log ++ (Info_SendingQps <$> pre)) ++ [Info_SendingQps level])).
Proof.
  destruct (first_unclean_run levels)
    as [Hall|(pre & level & post & -> & Hpre & [[rs Hbreak]|[e Hraise]])].
  - left. split; [done|].
    pose proof (search_loop_clean fl burst ai_model levels [] st log Hall) as Hloop.
    by rewrite app_nil_r in Hloop.
  - right. left. exists pre, level, post, rs. repeat split; try done; try apply Hbreak.
    rewrite (search_loop_clean fl burst ai_model pre _ st log Hpre).
    by rewrite (search_loop_break fl burst ai_model level post rs _ _ Hbreak).
  - right. right. exists pre, level, post, e. repeat split; try done.
    rewrite (search_loop_clean fl burst ai_model pre _ st log Hpre).
    by rewrite (search_loop_raise level post e _ _ Hraise).
Qed.
End LoopCases.

(** ** What the search returns, raises and attempts *)

Lemma truediv_zero (a : Qc) : truediv a 0%Qc = Raise ZeroDivisionError.
Proof. unfold truediv. by case_decide. Qed.

Lemma aggregate_zero_burst_time (fl : Flags) (model : BaseManagedAiModel)
    (rs failed_rs : list ModelResponse) (level : Z) :
  ai_burst_time fl = 0%Qc →
  _AggregateResponses fl rs failed_rs model level = Raise ZeroDivisionError.
Proof. intros Hzero. unfold _AggregateResponses. by rewrite Hzero, truediv_zero. Qed.

Section AnyScheduler.
Variable fl : Flags.
Variable burst : BaseManagedAiModel → Z → Z → Qc → result (list ModelResponse).
Variable ai_model : BaseManagedAiModel.

Let levels := py_range (ai_starting_requests fl) (max_requests fl) 3.
Let run (level : Z) := run_at fl burst ai_model level.
Let clean (level : Z) := clean_run (run level).

Lemma FindMaxThroughput_loop_raises (e : exn) (log : list log_record) :
  search_loop fl burst ai_model levels (initial_state fl) [] = (Raise e, log) →
  FindMaxThroughput fl burst ai_model [] = (Raise e, log).
Proof.
  intros Hloop. unfold FindMaxThroughput. fold levels. run_M. by rewrite Hloop.
Qed.

(** Once the loop has ended without an exception, the search returns a
    report, unless the burst time is zero. *)
Lemma FindMaxThroughput_after_loop (st : SearchState) (log : list log_record) :
  search_loop fl burst ai_model levels (initial_state fl) [] = (Ok st, log) →
  if decide (ai_burst_time fl = 0%Qc)
  then outcome (FindMaxThroughput fl burst ai_model) = Raise ZeroDivisionError
  else ∃ samples, outcome (FindMaxThroughput fl burst ai_model) = Ok samples.
Proof.
  intros Hloop. case_decide as Hbt.
  - unfold outcome, FindMaxThroughput. fold levels. run_M. rewrite Hloop.
    destruct (last_responses st); [by rewrite aggregate_zero_burst_time|].
    destruct (failed_responses st); cbn; by rewrite aggregate_zero_burst_time.
  - destruct (last_responses st) as [|r last] eqn:Hlast.
    + pose proof (FindMaxThroughput_degraded fl burst ai_model st log Hloop Hlast)
        as Hrun.
      destruct (aggregate_total fl ai_model Hbt (responses st) (failed_responses st)
                  (ai_starting_requests fl)) as (samples & Hagg & _).
      exists samples. unfold outcome. by rewrite Hrun.
    + destruct (FindMaxThroughput_report fl burst ai_model st log Hbt Hloop)
        as (fmed & med & avg & _ & _ & _ & Hout); [by rewrite Hlast|].
      eexists. exact Hout.
Qed.

(** The levels attempted, in each of the three ways in which the loop
    ends. *)
Lemma levels_attempted_cases :
  (Forall clean levels ∧
   levels_attempted (logged (FindMaxThroughput fl burst ai_model)) = levels) ∨
  (∃ pre level post,
     levels = pre ++ level :: post ∧ Forall clean pre ∧ ¬ clean level ∧
     levels_attempted (logged (FindMaxThroughput fl burst ai_model)) =
       pre ++ [level]).
Proof.
  destruct (search_loop_cases fl burst ai_model levels (initial_state fl) [])
    as [[Hall Hloop]|[(pre & level & post & rs & Hsplit & Hpre & Hbreak & Hloop)|
                      (pre & level & post & e & Hsplit & Hpre & Hraise & Hloop)]].
  - left. split; [done|]. by apply levels_attempted_all_clean.
  - right. exists pre, level, post. repeat split; try done.
    + intros (rs' & Hrs' & Hclean). destruct Hbreak as [Hrs Hfailed].
      unfold run in *. congruence.
    + by apply (levels_attempted_until_break fl burst ai_model pre post level rs).
  - right. exists pre, level, post. repeat split; try done.
    + intros (rs' & Hrs' & _). unfold run in *. congruence.
    + unfold logged. rewrite (FindMaxThroughput_loop_raises e _ Hloop). simpl.
      by rewrite !levels_attempted_app, levels_attempted_sending.
Qed.

(** Whatever the scheduler does, the levels attempted are the first levels
    of [range(starting, max_requests, 3)], in that order. *)
Theorem levels_attempted_prefix :
  levels_attempted (logged (FindMaxThroughput fl burst ai_model))
    `prefix_of` levels.
Proof.
  destruct levels_attempted_cases
    as [[_ ->]|(pre & level & post & Hsplit & _ & _ & ->)]; [done|].
  rewrite Hsplit, (cons_middle level pre post), (assoc_L (++)).
  by apply prefix_app_r.
Qed.

(** No level is attempted exactly when the range is empty, that is when
    [max_requests] is not above the starting level. *)
Lemma levels_attempted_nil :
  levels_attempted (logged (FindMaxThroughput fl burst ai_model)) = [] ↔
  max_requests fl <= ai_starting_requests fl.
Proof.
  assert (levels = [] ↔ max_requests fl <= ai_starting_requests fl) as Hrange.
  { split.
    - intros Hnil. destruct (Z.le_gt_cases (max_requests fl) (ai_starting_requests fl))
        as [|Hlt]; [done|].
      unfold levels in Hnil. by rewrite py_range_cons in Hnil by lia.
    - apply py_range_nil. }
  rewrite <- Hrange.
  destruct levels_attempted_cases
    as [[_ ->]|(pre & level & post & Hsplit & _ & _ & ->)]; [done|].
  rewrite Hsplit. split; intros Hnil; by destruct pre.
Qed.
End AnyScheduler.

Section AnySchedulerTheorems.
Variable fl : Flags.
Variable burst : BaseManagedAiModel → Z → Z → Qc → result (list ModelResponse).
Variable ai_model : BaseManagedAiModel.

Let levels := py_range (ai_starting_requests fl) (max_requests fl) 3.
Let run (level : Z) := run_at fl burst ai_model level.

(** Without a maximum, or with a maximum of 0, exactly the starting level
    is attempted, whatever the scheduler returns or raises. *)
Theorem levels_attempted_without_maximum :
  ai_max_requests fl = None ∨ ai_max_requests fl = Some 0 →
  levels_attempted (logged (FindMaxThroughput fl burst ai_model)) =
    [ai_starting_requests fl].
Proof.
  intros Hmax.
  assert (levels = [ai_starting_requests fl]) as Hlevels.
  { unfold levels, max_requests. destruct Hmax as [-> | ->]; simpl;
      rewrite py_range_cons by lia; by rewrite py_range_nil by lia. }
  destruct (levels_attempted_cases fl burst ai_model)
    as [[_ ->]|(pre & level & post & Hsplit & _ & _ & ->)]; [done|].
  fold levels in Hsplit. rewrite Hlevels in Hsplit.
  destruct pre as [|l pre]; [by injection Hsplit as <- _|].
  injection Hsplit as _ Hrest. by destruct pre.
Qed.

(** After a check that passes, no level at all is attempted exactly when
    the maximum is set to the starting level and is not 0. *)
Theorem levels_attempted_after_check :
  CheckPrerequisites fl = Ok tt →
  (levels_attempted (logged (FindMaxThroughput fl burst ai_model)) = [] ↔
   ai_max_requests fl = Some (ai_starting_requests fl) ∧
   ai_starting_requests fl ≠ 0).
Proof.
  intros Hcheck. rewrite levels_attempted_nil. unfold max_requests, py_or.
  apply CheckPrerequisites_passes in Hcheck
    as [Hnone|[Hzero|(m & Hm & Hle)]].
  - rewrite Hnone. split; [lia|]. by intros [[=] _].
  - rewrite Hzero. simpl. split; [lia|]. intros [[= <-] ?]. done.
  - rewrite Hm. destruct (Z.eqb_spec m 0) as [->|Hnz].
    + split; [lia|]. intros [[= <-] ?]. done.
    + split.
      * intros Hge. assert (m = ai_starting_requests fl) as -> by lia. done.
      * intros [[= ->] _]. lia.
Qed.


(** An exception of the scheduler at the first level that is not clean
    leaves the search as it is, and no further level is attempted. *)
Theorem FindMaxThroughput_propagates (pre post : list Z) (level : Z) (e : exn) :
  levels = pre ++ level :: post →
  Forall (fun l => clean_run (run l)) pre →
  run level = Raise e →
  outcome (FindMaxThroughput fl burst ai_model) = Raise e ∧
  levels_attempted (logged (FindMaxThroughput fl burst ai_model)) = pre ++ [level].
Proof.
  intros Hsplit Hpre Hraise.
  pose proof (search_loop_clean fl burst ai_model pre (level :: post)
                (initial_state fl) [] Hpre) as Hloop.
  fold levels in Hloop. rewrite <- Hsplit in Hloop.
  rewrite (search_loop_raise fl burst ai_model level post e _ _ Hraise) in Hloop.
  pose proof (FindMaxThroughput_loop_raises fl burst ai_model e _ Hloop) as Hrun.
  unfold outcome, logged. rewrite Hrun. simpl. split; [done|].
  by rewrite !levels_attempted_app, levels_attempted_sending.
Qed.
End AnySchedulerTheorems.

Lemma levels_attempted_after_check_witness :
  levels_attempted
    (logged (FindMaxThroughput (Scenario.flags 5 (Some 11))
               Scenario.break_at_8_once Scenario.model)) = [] ↔
  ai_max_requests (Scenario.flags 5 (Some 11)) =
    Some (ai_starting_requests (Scenario.flags 5 (Some 11))) ∧
  ai_starting_requests (Scenario.flags 5 (Some 11)) ≠ 0.
Proof.
  apply (levels_attempted_after_check (Scenario.flags 5 (Some 11))
           Scenario.break_at_8_once Scenario.model).
  reflexivity.
Defined.

Lemma levels_attempted_without_maximum_witness :
  levels_attempted
    (logged (FindMaxThroughput (Scenario.flags 5 None)
               Scenario.mixed_first_level Scenario.model)) = [5].
Proof.
  apply (levels_attempted_without_maximum (Scenario.flags 5 None)
           Scenario.mixed_first_level Scenario.model).
  left. reflexivity.
Defined.

Lemma FindMaxThroughput_propagates_witness :
  outcome (FindMaxThroughput (Scenario.flags 5 (Some 11))
             MoreScenarios.stopped_at_8 Scenario.model) =
    Raise (RunError JoinWaitExceeded) ∧
  levels_attempted
    (logged (FindMaxThroughput (Scenario.flags 5 (Some 11))
               MoreScenarios.stopped_at_8 Scenario.model)) = [5] ++ [8].
Proof.
  apply (FindMaxThroughput_propagates (Scenario.flags 5 (Some 11))
           MoreScenarios.stopped_at_8 Scenario.model [5] [] 8).
  - reflexivity.
  - constructor; [|constructor]. by exists [Scenario.took 1 0].
  - reflexivity.
Defined.

(** ** The level that is reported was run and was clean *)

Lemma list_nil_or_snoc {A} (l : list A) : l = [] ∨ ∃ pre x, l = pre ++ [x].
Proof. destruct l as [|x pre _] using rev_ind; [by left|right; by exists pre, x]. Qed.

Lemma report_facts (fl : Flags) (ds : list Qc) (fmed med avg : Qc) (n f : nat)
    (level : Z) (md : gmap string pyval) :
  let samples :=
    failure_statistics ds fmed md ++ success_statistics n f med avg md ++
    [max_throughput_sample fl level md] in
  (∀ s, s ∈ samples → metadata s = md) ∧
  sample_value "max_throughput" samples =
    Some (PFloat (Qc_of_Z level / ai_burst_time fl)%Qc) ∧
  sample_value "num_responses" samples = Some (PInt (Z.of_nat n)).
Proof.
  intros samples. split; [|split].
  - intros s Hs. unfold samples in Hs.
    apply elem_of_app in Hs as [Hs|Hs]; [|apply elem_of_app in Hs as [Hs|Hs]].
    + pose proof (failure_statistics_metadata ds fmed md) as Hall.
      rewrite Forall_forall in Hall. by destruct (Hall s Hs).
    + pose proof (success_statistics_metadata n f med avg md) as Hall.
      rewrite Forall_forall in Hall. by destruct (Hall s Hs).
    + by apply list_elem_of_singleton in Hs as ->.
  - unfold samples, sample_value. by destruct ds.
  - unfold samples, sample_value. by destruct ds.
Qed.

Section Soundness.
Variable fl : Flags.
Variable burst : BaseManagedAiModel → Z → Z → Qc → result (list ModelResponse).
Variable ai_model : BaseManagedAiModel.

Let levels := py_range (ai_starting_requests fl) (max_requests fl) 3.
Let run (level : Z) := run_at fl burst ai_model level.

Lemma degraded_without_max_throughput (st : SearchState) (log : list log_record)
    (samples : list Sample) :
  search_loop fl burst ai_model levels (initial_state fl) [] = (Ok st, log) →
  last_responses st = [] →
  outcome (FindMaxThroughput fl burst ai_model) = Ok samples →
  "max_throughput" ∉ metrics samples.
Proof.
  intros Hloop Hlast Hout.
  pose proof (FindMaxThroughput_after_loop fl burst ai_model _ _ Hloop) as Hafter.
  case_decide as Hbt; [congruence|]. clear Hafter.
  pose proof (FindMaxThroughput_degraded fl burst ai_model st log Hloop Hlast) as Hrun.
  unfold outcome in Hout. rewrite Hrun in Hout. simpl in Hout.
  destruct (aggregate_total fl ai_model Hbt (responses st) (failed_responses st)
              (ai_starting_requests fl)) as (samples' & Hagg & Hall & _).
  assert (samples' = samples) as -> by congruence.
  rewrite Forall_forall in Hall.
  intros (s & Hname & Hs)%list_elem_of_fmap. by destruct (Hall s Hs).
Qed.

(** A report with a [max_throughput] sample is labelled with a level that
    was attempted, whose run returned at least one outcome and no failed
    one; [max_throughput] is that level over the burst time and
    [num_responses] is the number of outcomes of that run. *)
Theorem FindMaxThroughput_sound (samples : list Sample) :
  outcome (FindMaxThroughput fl burst ai_model) = Ok samples →
  "max_throughput" ∈ metrics samples →
  ∃ level last,
    level ∈ levels_attempted (logged (FindMaxThroughput fl burst ai_model)) ∧
    run level = Ok last ∧ filter failed last = [] ∧ last ≠ [] ∧
    (∀ s, s ∈ samples → metadata s !! "parallel_requests" = Some (PInt level)) ∧
    sample_value "max_throughput" samples =
      Some (PFloat (Qc_of_Z level / ai_burst_time fl)%Qc) ∧
    sample_value "num_responses" samples = Some (PInt (Z.of_nat (length last))).
Proof.
  intros Hout Hmax.
  assert (ai_burst_time fl ≠ 0%Qc) as Hbt.
  { intros Hzero.
    destruct (search_loop_cases fl burst ai_model levels (initial_state fl) [])
      as [[_ Hloop]|[(? & ? & ? & ? & _ & _ & _ & Hloop)|
                     (? & ? & ? & e & _ & _ & _ & Hloop)]].
    - pose proof (FindMaxThroughput_after_loop fl burst ai_model _ _ Hloop) as Hafter.
      case_decide; congruence.
    - pose proof (FindMaxThroughput_after_loop fl burst ai_model _ _ Hloop) as Hafter.
      case_decide; congruence.
    - pose proof (FindMaxThroughput_loop_raises fl burst ai_model e _ Hloop) as Hrun.
      unfold outcome in Hout. rewrite Hrun in Hout. discriminate. }
  destruct (search_loop_cases fl burst ai_model levels (initial_state fl) [])
    as [[Hall Hloop]|[(pre & level & post & rs & Hsplit & Hpre & Hbreak & Hloop)|
                      (pre & level & post & e & Hsplit & Hpre & Hraise & Hloop)]].
  - destruct (list_nil_or_snoc levels) as [Hnil|(pre & level & Hsnoc)].
    { assert (last_responses (after_clean_runs fl burst ai_model
                                (initial_state fl) levels) = []) as Hempty
        by (by rewrite Hnil).
      by destruct (degraded_without_max_throughput _ _ samples Hloop Hempty Hout). }
    rewrite Hsnoc in Hall. apply Forall_app in Hall as [Hpre Hlevel].
    apply Forall_singleton in Hlevel as (last & Hlast & Hclean).
    destruct last as [|r last].
    { assert (last_responses (after_clean_runs fl burst ai_model
                                (initial_state fl) levels) = []) as Hempty.
      { rewrite Hsnoc, after_clean_runs_snoc. simpl.
        unfold run in Hlast. by rewrite Hlast. }
      by destruct (degraded_without_max_throughput _ _ samples Hloop Hempty Hout). }
    destruct (FindMaxThroughput_reached_max fl burst ai_model Hbt pre level
                (r :: last) Hsnoc Hpre Hlast Hclean) as (med & avg & _ & _ & Hrep);
      [done|].
    rewrite Hout in Hrep. injection Hrep as ->.
    destruct (report_facts fl [] 0%Qc med avg (length (r :: last)) 0 level
                (sample_metadata fl ai_model level
                   (Qc_of_Z level / ai_burst_time fl)%Qc)) as (Hmd & Hmt & Hnum).
    exists level, (r :: last). repeat split; try done.
    + rewrite (levels_attempted_all_clean fl burst ai_model).
      * fold levels. rewrite Hsnoc. apply elem_of_app. right. apply list_elem_of_here.
      * fold levels. rewrite Hsnoc. apply Forall_app. split; [done|].
        apply Forall_singleton. by exists (r :: last).
    + intros s Hs. rewrite (Hmd s Hs). apply sample_metadata_level.
  - destruct (list_nil_or_snoc pre) as [->|(pre' & previous & ->)].
    { by destruct (degraded_without_max_throughput _ _ samples Hloop eq_refl Hout). }
    apply Forall_app in Hpre as [Hpre' Hprevious].
    apply Forall_singleton in Hprevious as (last & Hlast & Hclean).
    rewrite <- (assoc_L (++)) in Hsplit. simpl in Hsplit.
    destruct last as [|r last].
    { assert (last_responses (after_clean_runs fl burst ai_model
                                (initial_state fl) (pre' ++ [previous])) = [])
        as Hempty.
      { rewrite after_clean_runs_snoc. simpl. unfold run in Hlast. by rewrite Hlast. }
      by destruct (degraded_without_max_throughput _ _ samples Hloop Hempty Hout). }
    destruct (FindMaxThroughput_found_break fl burst ai_model Hbt pre' previous
                level post (r :: last) rs Hsplit Hpre' Hlast Hclean)
      as (fmed & med & avg & _ & _ & _ & Hrep); [done|done|].
    rewrite Hout in Hrep. injection Hrep as ->.
    destruct (report_facts fl (duration <$> filter failed rs) fmed med avg
                (length (r :: last)) (length (filter failed rs)) previous
                (sample_metadata fl ai_model previous
                   (Qc_of_Z previous / ai_burst_time fl)%Qc)) as (Hmd & Hmt & Hnum).
    exists previous, (r :: last). repeat split; try done.
    + rewrite (levels_attempted_until_break fl burst ai_model (pre' ++ [previous])
                 post level rs).
      * rewrite !elem_of_app. left. right. apply list_elem_of_here.
      * fold levels. by rewrite Hsplit, <- (assoc_L (++)).
      * apply Forall_app. split; [done|]. apply Forall_singleton.
        by exists (r :: last).
      * done.
    + intros s Hs. rewrite (Hmd s Hs). apply sample_metadata_level.
  - pose proof (FindMaxThroughput_loop_raises fl burst ai_model e _ Hloop) as Hrun.
    unfold outcome in Hout. rewrite Hrun in Hout. discriminate.
Qed.
End Soundness.

Lemma FindMaxThroughput_sound_witness :
  ∃ level last,
    level ∈ levels_attempted
              (logged (FindMaxThroughput (Scenario.flags 5 (Some 11))
                         MoreScenarios.always_clean Scenario.model)) ∧
    run_at (Scenario.flags 5 (Some 11)) MoreScenarios.always_clean
      Scenario.model level = Ok last ∧
    filter failed last = [] ∧ last ≠ [] ∧
    (∀ s, s ∈ report_of
                (outcome (FindMaxThroughput (Scenario.flags 5 (Some 11))
                            MoreScenarios.always_clean Scenario.model)) →
          metadata s !! "parallel_requests" = Some (PInt level)) ∧
    sample_value "max_throughput"
      (report_of (outcome (FindMaxThroughput (Scenario.flags 5 (Some 11))
                             MoreScenarios.always_clean Scenario.model))) =
      Some (PFloat (Qc_of_Z level / ai_burst_time (Scenario.flags 5 (Some 11)))%Qc) ∧
    sample_value "num_responses"
      (report_of (outcome (FindMaxThroughput (Scenario.flags 5 (Some 11))
                             MoreScenarios.always_clean Scenario.model))) =
      Some (PInt (Z.of_nat (length last))).
Proof.
  apply (FindMaxThroughput_sound (Scenario.flags 5 (Some 11))
           MoreScenarios.always_clean Scenario.model
           (report_of (outcome (FindMaxThroughput (Scenario.flags 5 (Some 11))
                                  MoreScenarios.always_clean Scenario.model)))).
  - by vm_compute.
  - vm_compute. do 4 apply list_elem_of_further. apply list_elem_of_here.
Defined.

(** * More on the aggregator *)

(** ** The order of the responses does not matter *)

Lemma sorted_Permutation (data data' : list Qc) :
  data ≡ₚ data' → sorted data = sorted data'.
Proof.
  intros Hperm. unfold sorted. apply (Sorted_unique Qcle).
  - apply (Sorted_merge_sort _).
  - apply (Sorted_merge_sort _).
  - by rewrite !merge_sort_Permutation.
Qed.

Lemma median_Permutation (data data' : list Qc) :
  data ≡ₚ data' → median data = median data'.
Proof. intros Hperm. unfold median. by rewrite (sorted_Permutation _ _ Hperm). Qed.

Lemma fsum_Permutation (data data' : list Qc) :
  data ≡ₚ data' → fsum data = fsum data'.
Proof.
  induction 1 as [|x l l' _ IH|x y l|l l' l'' _ IH1 _ IH2]; simpl.
  - done.
  - by rewrite IH.
  - ring.
  - congruence.
Qed.

Lemma mean_Permutation (data data' : list Qc) :
  data ≡ₚ data' → mean data = mean data'.
Proof.
  intros Hperm. unfold mean.
  by rewrite (Permutation_length Hperm), (fsum_Permutation _ _ Hperm).
Qed.

Lemma failure_statistics_Permutation (ds ds' : list Qc) (fmed fmed' : Qc)
    (md : gmap string pyval) :
  ds ≡ₚ ds' →
  (ds ≠ [] → median ds = Ok fmed) → (ds' ≠ [] → median ds' = Ok fmed') →
  failure_statistics ds fmed md = failure_statistics ds' fmed' md.
Proof.
  intros Hperm Hmed Hmed'.
  destruct ds as [|d ds], ds' as [|d' ds'].
  - done.
  - by apply Permutation_nil_cons in Hperm.
  - symmetry in Hperm. by apply Permutation_nil_cons in Hperm.
  - specialize (Hmed ltac:(done)). specialize (Hmed' ltac:(done)).
    rewrite (median_Permutation _ _ Hperm) in Hmed.
    assert (fmed = fmed') as -> by congruence.
    unfold failure_statistics. by rewrite (Permutation_length Hperm).
Qed.

(** The report of the aggregator is the same for the same responses in any
    order, as it is for the same failed responses in any order. *)
Theorem aggregate_order_independent (fl : Flags) (model : BaseManagedAiModel)
    (rs rs' failed_rs failed_rs' : list ModelResponse) (level : Z) :
  rs ≡ₚ rs' → failed_rs ≡ₚ failed_rs' →
  _AggregateResponses fl rs failed_rs model level =
  _AggregateResponses fl rs' failed_rs' model level.
Proof.
  intros Hrs Hfailed.
  destruct (decide (ai_burst_time fl = 0%Qc)) as [Hzero|Hbt].
  { by rewrite !aggregate_zero_burst_time. }
  assert (duration <$> failed_rs ≡ₚ duration <$> failed_rs') as Hfd
    by (by apply fmap_Permutation).
  assert (duration <$> rs ≡ₚ duration <$> rs') as Hsd by (by apply fmap_Permutation).
  assert (∀ l : list ModelResponse, l ≠ [] → duration <$> l ≠ []) as Hkeep
    by (by intros [|? ?]).
  assert (∀ l : list ModelResponse, duration <$> l ≠ [] → l ≠ []) as Hback
    by (by intros [|? ?]).
  destruct rs as [|r rs].
  - apply Permutation_nil_l in Hrs. subst rs'.
    destruct (aggregate_failures fl model Hbt failed_rs level) as (fmed & Hmed & ->).
    destruct (aggregate_failures fl model Hbt failed_rs' level)
      as (fmed' & Hmed' & ->).
    f_equal. apply failure_statistics_Permutation; auto.
  - assert (rs' ≠ []) as Hne'.
    { intros ->. by apply Permutation_nil_r in Hrs. }
    destruct (aggregate_successes fl model Hbt (r :: rs) failed_rs level)
      as (fmed & med & avg & Hfmed & Hmed & Havg & ->); [done|].
    destruct (aggregate_successes fl model Hbt rs' failed_rs' level Hne')
      as (fmed' & med' & avg' & Hfmed' & Hmed' & Havg' & ->).
    rewrite (median_Permutation _ _ Hsd) in Hmed.
    rewrite (mean_Permutation _ _ Hsd) in Havg.
    assert (med = med') as -> by congruence.
    assert (avg = avg') as -> by congruence.
    rewrite (Permutation_length Hrs), (Permutation_length Hfailed).
    f_equal. f_equal. apply failure_statistics_Permutation; auto.
Qed.

Lemma aggregate_order_independent_witness :
  _AggregateResponses (Scenario.flags 5 None)
    [Scenario.took 1 0; Scenario.took 2 0; Scenario.took 3 0]
    Scenario.one_failure Scenario.model 5 =
  _AggregateResponses (Scenario.flags 5 None)
    [Scenario.took 3 0; Scenario.took 1 0; Scenario.took 2 0]
    Scenario.one_failure Scenario.model 5.
Proof.
  apply (aggregate_order_independent (Scenario.flags 5 None) Scenario.model).
  - symmetry.
    apply (Permutation_cons_append [Scenario.took 1 0; Scenario.took 2 0]
             (Scenario.took 3 0)).
  - reflexivity.
Defined.

(** ** What the aggregator raises *)


(** ** The metadata of the samples *)

(** Every sample of a report carries the metadata of the model with the
    four keys of the run set, and with every other key as the model has
    it. *)
Theorem aggregate_metadata (fl : Flags) (model : BaseManagedAiModel)
    (rs failed_rs : list ModelResponse) (level : Z) (samples : list Sample)
    (s : Sample) :
  _AggregateResponses fl rs failed_rs model level = Ok samples →
  s ∈ samples →
  metadata s !! "parallel_requests" = Some (PInt level) ∧
  metadata s !! "test_duration" = Some (PInt (ai_test_duration fl)) ∧
  metadata s !! "burst_time" = Some (PFloat (ai_burst_time fl)) ∧
  metadata s !! "effective_qps" =
    Some (PFloat (Qc_of_Z level / ai_burst_time fl)%Qc) ∧
  ∀ key, key ≠ "parallel_requests" → key ≠ "test_duration" →
         key ≠ "burst_time" → key ≠ "effective_qps" →
         metadata s !! key = GetResourceMetadata model !! key.
Proof.
  intros Hagg Hs.
  assert (ai_burst_time fl ≠ 0%Qc) as Hbt.
  { intros Hzero. rewrite aggregate_zero_burst_time in Hagg by done. discriminate. }
  destruct (aggregate_total fl model Hbt rs failed_rs level)
    as (samples' & Hagg' & Hall & _).
  assert (samples' = samples) as -> by congruence.
  rewrite Forall_forall in Hall. destruct (Hall s Hs) as [-> _].
  unfold sample_metadata. repeat split.
  - by simplify_map_eq.
  - by simplify_map_eq.
  - by simplify_map_eq.
  - by simplify_map_eq.
  - intros key ? ? ? ?. by simplify_map_eq.
Qed.

Lemma aggregate_metadata_witness :
  metadata (make_sample "num_failures" (PInt 1) "count"
              (sample_metadata (Scenario.flags 5 None) Scenario.model 5
                 (Qc_of_Z 5 / Qc_of_Z 1)%Qc)) !! "parallel_requests" =
    Some (PInt 5) ∧
  metadata (make_sample "num_failures" (PInt 1) "count"
              (sample_metadata (Scenario.flags 5 None) Scenario.model 5
                 (Qc_of_Z 5 / Qc_of_Z 1)%Qc)) !! "test_duration" =
    Some (PInt (ai_test_duration (Scenario.flags 5 None))) ∧
  metadata (make_sample "num_failures" (PInt 1) "count"
              (sample_metadata (Scenario.flags 5 None) Scenario.model 5
                 (Qc_of_Z 5 / Qc_of_Z 1)%Qc)) !! "burst_time" =
    Some (PFloat (ai_burst_time (Scenario.flags 5 None))) ∧
  metadata (make_sample "num_failures" (PInt 1) "count"
              (sample_metadata (Scenario.flags 5 None) Scenario.model 5
                 (Qc_of_Z 5 / Qc_of_Z 1)%Qc)) !! "effective_qps" =
    Some (PFloat (Qc_of_Z 5 / ai_burst_time (Scenario.flags 5 None))%Qc) ∧
  ∀ key, key ≠ "parallel_requests" → key ≠ "test_duration" →
         key ≠ "burst_time" → key ≠ "effective_qps" →
         metadata (make_sample "num_failures" (PInt 1) "count"
                     (sample_metadata (Scenario.flags 5 None) Scenario.model 5
                        (Qc_of_Z 5 / Qc_of_Z 1)%Qc)) !! key =
           GetResourceMetadata Scenario.model !! key.
Proof.
  apply (aggregate_metadata (Scenario.flags 5 None) Scenario.model
           Scenario.three_successes Scenario.one_failure 5
           (report_of (_AggregateResponses (Scenario.flags 5 None)
                         Scenario.three_successes Scenario.one_failure
                         Scenario.model 5))).
  - by vm_compute.
  - vm_compute. apply list_elem_of_further, list_elem_of_here.
Defined.

(** ** The success rate is a percentage *)

Lemma Qc_ratio_bounds (a b : Z) :
  0 < a → a <= b →
  (0 < Qc_of_Z a / Qc_of_Z b * Qc_of_Z 100 ∧
   Qc_of_Z a / Qc_of_Z b * Qc_of_Z 100 ≤ Qc_of_Z 100 ∧
   (Qc_of_Z a / Qc_of_Z b * Qc_of_Z 100 = Qc_of_Z 100 ↔ a = b))%Qc.
Proof.
  intros Ha Hab.
  assert (0 < Qc_of_Z a)%Qc as Hqa
    by (rewrite <- Z2Qc_inj_0; apply (proj1 (Z2Qc_inj_lt 0 a)); lia).
  assert (0 < Qc_of_Z b)%Qc as Hqb
    by (rewrite <- Z2Qc_inj_0; apply (proj1 (Z2Qc_inj_lt 0 b)); lia).
  assert (0 < Qc_of_Z 100)%Qc as Hq100 by (by vm_compute).
  assert (Qc_of_Z b ≠ 0%Qc) as Hbnz by (apply Qc_of_Z_nonzero; lia).
  assert (0 < / Qc_of_Z b)%Qc as Hinv by (by apply Qcinv_pos).
  assert (Qc_of_Z b / Qc_of_Z b = 1)%Qc as Hone by (by apply Qcmult_inv_r).
  split; [|split].
  - apply Qcmult_pos_pos; [|done]. by apply Qcmult_pos_pos.
  - rewrite <- (Qcmult_1_l (Qc_of_Z 100)) at 2. rewrite <- Hone.
    apply Qcmult_le_mono_nonneg_r; [by apply Qclt_le_weak|].
    apply Qcmult_le_mono_nonneg_r; [by apply Qclt_le_weak|].
    by apply (proj1 (Z2Qc_inj_le a b)).
  - split.
    + intros Heq. destruct (Z.eq_dec a b) as [|Hne]; [done|]. exfalso.
      assert (Qc_of_Z a / Qc_of_Z b * Qc_of_Z 100 < Qc_of_Z 100)%Qc as Hlt.
      { rewrite <- (Qcmult_1_l (Qc_of_Z 100)) at 2. rewrite <- Hone.
        apply Qcmult_lt_mono_pos_r; [done|].
        apply Qcmult_lt_mono_pos_r; [done|].
        apply (proj1 (Z2Qc_inj_lt a b)). lia. }
      rewrite Heq in Hlt. by apply Qclt_not_eq in Hlt.
    + intros ->. by rewrite Hone, Qcmult_1_l.
Qed.

(** Whenever the aggregator emits [success_rate], its value is above 0 and
    at most 100, and it is 100 exactly when there is no failed response. *)
Theorem success_rate_bounds (fl : Flags) (model : BaseManagedAiModel)
    (rs failed_rs : list ModelResponse) (level : Z) (samples : list Sample) :
  _AggregateResponses fl rs failed_rs model level = Ok samples →
  rs ≠ [] →
  ∃ rate,
    sample_value "success_rate" samples = Some (PFloat rate) ∧
    (0 < rate)%Qc ∧ (rate ≤ Qc_of_Z 100)%Qc ∧
    (rate = Qc_of_Z 100 ↔ failed_rs = []).
Proof.
  intros Hagg Hne.
  assert (ai_burst_time fl ≠ 0%Qc) as Hbt.
  { intros Hzero. rewrite aggregate_zero_burst_time in Hagg by done. discriminate. }
  destruct (aggregate_successes fl model Hbt rs failed_rs level Hne)
    as (fmed & med & avg & _ & _ & _ & Hagg').
  rewrite Hagg in Hagg'. injection Hagg' as ->.
  destruct (Qc_ratio_bounds (Z.of_nat (length rs))
              (Z.of_nat (length rs) + Z.of_nat (length failed_rs)))
    as (Hpos & Hle & Heq); [destruct rs; [done|simpl; lia]|lia|].
  eexists. split; [|split; [exact Hpos|split; [exact Hle|]]].
  - unfold sample_value. by destruct (duration <$> failed_rs).
  - rewrite Heq. split.
    + intros Hlen. destruct failed_rs; [done|simpl in Hlen; lia].
    + intros ->. simpl. lia.
Qed.

Lemma success_rate_bounds_witness :
  ∃ rate,
    sample_value "success_rate"
      (report_of (_AggregateResponses (Scenario.flags 5 None)
                    Scenario.three_successes Scenario.one_failure
                    Scenario.model 5)) = Some (PFloat rate) ∧
    (0 < rate)%Qc ∧ (rate ≤ Qc_of_Z 100)%Qc ∧
    (rate = Qc_of_Z 100 ↔ Scenario.one_failure = []).
Proof.
  apply (success_rate_bounds (Scenario.flags 5 None) Scenario.model
           Scenario.three_successes Scenario.one_failure 5).
  - by vm_compute.
  - discriminate.
Defined.

(** * More on the burst scheduler *)

(** ** Emptying the queue *)

Section EmptyQueueTheorems.
Variable fl : Flags.

(** Whatever [EmptyQueue] returns was at the head of the queue, in the same
    order, the rest is still in the queue, and at least one outcome is
    returned unless the queue is empty. *)
Theorem EmptyQueue_conserves (clock : nat → Qc)
    (output_queue results rest : list ModelResponse) (log log' : list log_record) :
  EmptyQueue fl clock output_queue log = (Ok (results, rest), log') →
  results ++ rest = output_queue ∧ (results = [] → output_queue = []).
Proof.
  intros Hrun. unfold EmptyQueue in Hrun.
  destruct (EmptyQueue_loop_result fl clock 0 output_queue [] log)
    as [(got & queue' & log1 & Hloop & Hsame & Hnil)|(e & log1 & _ & Hloop)];
    rewrite Hloop in Hrun; [|discriminate].
  simpl in Hrun. injection Hrun as <- <- _. by split.
Qed.

(** Within the waiting time the whole queue is returned and nothing is
    logged. *)
Theorem EmptyQueue_within_time (clock : nat → Qc)
    (output_queue : list ModelResponse) (log : list log_record) :
  (∀ k, (k < length output_queue)%nat → ¬ (_QUEUE_WAIT_TIME < clock k)%Qc) →
  EmptyQueue fl clock output_queue log = (Ok (output_queue, []), log).
Proof.
  intros Hin. unfold EmptyQueue.
  by rewrite EmptyQueue_loop_within_time.
Qed.

(** When the reading after get number [k] is the first one beyond the
    waiting time, the [k + 1] outcomes got so far are returned with a
    warning and the rest stays in the queue; in strict mode the run is
    stopped and nothing is returned. *)
Theorem EmptyQueue_timeout (clock : nat → Qc) (k : nat)
    (output_queue : list ModelResponse) (log : list log_record) :
  (k < length output_queue)%nat →
  (∀ j, (j < k)%nat → ¬ (_QUEUE_WAIT_TIME < clock j)%Qc) →
  (_QUEUE_WAIT_TIME < clock k)%Qc →
  EmptyQueue fl clock output_queue log =
    if ai_throw_on_client_errors fl
    then (Raise (RunError QueueWaitExceeded), log)
    else (Ok (take (S k) output_queue, drop (S k) output_queue),
          log ++ [Warning_ClientError QueueWaitExceeded]).
Proof.
  intros Hk Hbefore Hlate. unfold EmptyQueue.
  assert (∀ n results queue,
    (k < length queue)%nat →
    (∀ j, (j < k)%nat → ¬ (_QUEUE_WAIT_TIME < clock (n + j)%nat)%Qc) →
    (_QUEUE_WAIT_TIME < clock (n + k)%nat)%Qc →
    EmptyQueue_loop fl clock n queue results log =
      if ai_throw_on_client_errors fl
      then (Raise (RunError QueueWaitExceeded), log)
      else (Ok (results ++ take (S k) queue, drop (S k) queue),
            log ++ [Warning_ClientError QueueWaitExceeded])) as Hgen.
  { clear Hk Hbefore Hlate output_queue.
    induction k as [|k IH]; intros n results queue Hk Hbefore Hlate.
    - destruct queue as [|r queue]; [simpl in Hk; lia|]. simpl.
      rewrite Nat.add_0_r in Hlate. case_decide; [|done].
      unfold mbind, M_bind. rewrite _EncounterClientError_result.
      destruct (ai_throw_on_client_errors fl); [done|].
      by rewrite take_0.
    - destruct queue as [|r queue]; [simpl in Hk; lia|]. simpl.
      case_decide as Hnow.
      + destruct (Hbefore 0%nat); [lia|]. by rewrite Nat.add_0_r.
      + rewrite (IH (S n) (results ++ [r]) queue).
        * destruct (ai_throw_on_client_errors fl); [done|].
          by rewrite <- (assoc_L (++)).
        * simpl in Hk. lia.
        * intros j Hj. replace (S n + j)%nat with (n + S j)%nat by lia.
          apply Hbefore. lia.
        * by replace (S n + k)%nat with (n + S k)%nat by lia. }
  by apply (Hgen 0%nat []).
Qed.
End EmptyQueueTheorems.

(** ** Launching and joining *)

Section LaunchTheorems.
Variable fl : Flags.
Variable env : Env.

(** Without strict mode the launches never stop: every burst is launched,
    the processes are ranked in the order of their creation without gap, and
    one warning is logged for each burst whose launch took longer than the
    time between bursts, in the order of the bursts. *)
Theorem launch_keeps_launching (burst_requests : Z) (time_between_bursts : Qc)
    (bursts processes : list nat) (log : list log_record) :
  ai_throw_on_client_errors fl = false →
  launch fl env burst_requests time_between_bursts bursts processes log =
    (Ok (processes ++
         seq (length processes) (length bursts * Z.to_nat burst_requests)),
     log ++ ((fun i => Warning_ClientError
                         (StartupTooSlow (process_startup_duration env i))) <$>
             filter (fun i => (time_between_bursts <
                               process_startup_duration env i)%Qc) bursts)).
Proof.
  intros Hlenient. revert processes log.
  induction bursts as [|i bursts IH]; intros processes log.
  - simpl. by rewrite !app_nil_r.
  - simpl. unfold SendParallelRequests. rewrite filter_cons.
    unfold mbind, M_bind. case_decide as Hslow.
    + rewrite _EncounterClientError_result, Hlenient, IH.
      rewrite length_app, length_seq, <- !(assoc_L (++)), <- seq_app. done.
    + unfold mret, M_ret. rewrite IH.
      rewrite length_app, length_seq, <- !(assoc_L (++)), <- seq_app. done.
Qed.


(** The joins stop at the first process whose join comes back after
    [_FAIL_LATENCY]: the processes after it are not joined, and a single
    warning is logged, or the run is stopped in strict mode. *)
Theorem join_loop_stops_at_first_late (in_time : list nat) (late : nat)
    (processes : list nat) (log : list log_record) :
  Forall (fun p => ¬ (_FAIL_LATENCY < process_duration env p)%Qc) in_time →
  (_FAIL_LATENCY < process_duration env late)%Qc →
  join_loop fl env (in_time ++ late :: processes) log =
    if ai_throw_on_client_errors fl
    then (Raise (RunError JoinWaitExceeded), log)
    else (Ok tt, log ++ [Warning_ClientError JoinWaitExceeded]).
Proof.
  intros Hin_time Hlate.
  induction Hin_time as [|p in_time Hp _ IH]; simpl.
  - case_decide; [|done]. apply _EncounterClientError_result.
  - by case_decide.
Qed.
End LaunchTheorems.

(** ** What is in the queue *)

(** What is in the queue was there before or was put by a process. *)
Lemma deliver_elem_of (env : Env) (when : arrival) (processes : list nat)
    (output_queue : list ModelResponse) (r : ModelResponse) :
  r ∈ deliver env when processes output_queue →
  r ∈ output_queue ∨
  ∃ p, p ∈ processes ∧ arrives (worker env p) = when ∧
       outcome_of_worker (worker env p) r.
Proof.
  revert output_queue.
  induction processes as [|p processes IH]; intros queue Hr; [by left|].
  unfold deliver in Hr. simpl in Hr. fold (deliver env when processes) in Hr.
  assert (∀ q : list ModelResponse,
      (r ∈ q ∨ ∃ p', p' ∈ processes ∧ arrives (worker env p') = when ∧
                     outcome_of_worker (worker env p') r) →
      r ∈ q ∨ ∃ p', p' ∈ p :: processes ∧ arrives (worker env p') = when ∧
                    outcome_of_worker (worker env p') r) as Hweaken.
  { intros q [?|(p' & Hp' & Hrest)]; [by left|].
    right. exists p'. split; [by apply list_elem_of_further|done]. }
  case_decide as Hwhen; [|by apply Hweaken, IH].
  apply IH in Hr. destruct Hr as [Hr|Hr]; [|by apply Hweaken; right].
  unfold outcome_of_worker.
  destruct (target (worker env p)) eqn:Htarget; simpl in Hr.
  - apply elem_of_app in Hr as [Hr|Hr]; [by left|].
    apply list_elem_of_singleton in Hr as ->.
    right. exists p. split; [apply list_elem_of_here|]. rewrite Htarget. simpl.
    by eauto 10.
  - apply elem_of_app in Hr as [Hr|Hr]; [by left|].
    apply list_elem_of_singleton in Hr as ->.
    right. exists p. split; [apply list_elem_of_here|]. rewrite Htarget. simpl.
    by eauto 10.
  - by left.
Qed.

(** When every process puts in phase [when] an outcome of a call that
    returned or raised [GetError], the queue grows by one outcome for each
    process. *)
Lemma deliver_all (env : Env) (when : arrival) (processes : list nat)
    (output_queue : list ModelResponse) :
  Forall (fun p => arrives (worker env p) = when ∧
                   ∀ name, target (worker env p) ≠ RaisedOther name) processes →
  length (deliver env when processes output_queue) =
    (length output_queue + length processes)%nat.
Proof.
  intros Hall. revert output_queue.
  induction Hall as [|p processes [Hwhen Hhandled] _ IH]; intros queue.
  - simpl. lia.
  - unfold deliver in *. simpl. case_decide; [|done].
    rewrite IH. destruct (target (worker env p)) as [| |name]; simpl.
    + rewrite length_app. simpl. lia.
    + rewrite length_app. simpl. lia.
    + by destruct (Hhandled name).
Qed.

(** When no process puts in phase [when], the queue stays as it is. *)
Lemma deliver_none (env : Env) (when : arrival) (processes : list nat)
    (output_queue : list ModelResponse) :
  Forall (fun p => arrives (worker env p) ≠ when) processes →
  deliver env when processes output_queue = output_queue.
Proof.
  intros Hall. revert output_queue.
  induction Hall as [|p processes Hp _ IH]; intros queue; [done|].
  unfold deliver in *. simpl. by case_decide.
Qed.

(** ** What a run returns and raises *)

(** What the computation of the number of bursts raises: [OverflowError],
    for an int beyond the range of a float or a quotient that is an
    infinity, [ZeroDivisionError], for a time between bursts that is a
    zero, or [ValueError], for a quotient that is not a number. *)
Lemma goal_bursts_of_raises (total_duration : Z) (time_between_bursts : float)
    (e : exn) :
  goal_bursts_of total_duration time_between_bursts = Raise e →
  e = OverflowError ∨
  (e = ZeroDivisionError ∧ ∃ s, time_between_bursts = S754_zero s) ∨
  e = ValueError.
Proof.
  unfold goal_bursts_of, int_truediv_float.
  destruct (float_of_int total_duration) as [x|e0] eqn:Hx.
  - destruct time_between_bursts as [s|s| |s m k]; cbn.
    + intros [= <-]. right. left. eauto.
    + destruct (SFdiv prec emax x (S754_infinity s)); cbn; intros [= <-]; auto.
    + destruct (SFdiv prec emax x S754_nan); cbn; intros [= <-]; auto.
    + destruct (SFdiv prec emax x (S754_finite s m k)); cbn; intros [= <-]; auto.
  - cbn. intros [= <-]. left. unfold float_of_int in Hx.
    destruct (binary_normalize prec emax total_duration 0 false); congruence.
Qed.

Section RunTheorems.
Variable fl : Flags.
Variable env : Env.
Variable ai_model : BaseManagedAiModel.

(** The outcomes that a run returns are the first outcomes of the queue as
    the first emptying found it, in the order of the queue; only when the
    first emptying found the queue empty are they the first outcomes of the
    queue as it is after the joins. *)
Lemma BurstRequestsOverTime_prefix (burst_requests total_duration : Z)
    (time_between_bursts : float) (results : list ModelResponse) :
  outcome (BurstRequestsOverTime fl env ai_model burst_requests total_duration
             time_between_bursts) = Ok results →
  ∃ goal_bursts,
    goal_bursts_of total_duration time_between_bursts = Ok goal_bursts ∧
    let processes := seq 0 (dispatched burst_requests goal_bursts) in
    (results ≠ [] ∧
     results `prefix_of` deliver env BeforeFirstDrain processes []) ∨
    (deliver env BeforeFirstDrain processes [] = [] ∧
     results `prefix_of` deliver env BeforeSecondDrain processes []).
Proof.
  intros Hout.
  destruct (BurstRequestsOverTime_goal fl env ai_model burst_requests
              total_duration time_between_bursts results Hout)
    as [goal_bursts Hgoal].
  exists goal_bursts. split; [done|]. intros processes.
  unfold outcome in Hout.
  destruct (BurstRequestsOverTime fl env ai_model burst_requests total_duration
              time_between_bursts []) as [outcome_ log] eqn:Hrun.
  simpl in Hout. subst outcome_.
  unfold BurstRequestsOverTime in Hrun. rewrite Hgoal in Hrun.
  unfold mbind, M_bind, lift, mret, M_ret, logging, EmptyQueue in Hrun.
  cbn beta iota in Hrun.
  destruct (launch_result fl env burst_requests (float_value time_between_bursts)
              (seq 0 (Z.to_nat goal_bursts)) [] [])
    as [(log1 & Hlaunch & _)|(e & log' & _ & Hlaunch)];
    rewrite Hlaunch in Hrun; clear Hlaunch; [|discriminate].
  cbn [app length] in Hrun. rewrite length_seq in Hrun.
  fold (dispatched burst_requests goal_bursts) in Hrun. fold processes in Hrun.
  destruct (EmptyQueue_loop_result fl (queue_duration env 0) 0
              (deliver env BeforeFirstDrain processes []) [] log1)
    as [(got1 & queue1 & log2 & Hdrain1 & Hsame1 & Hnil1)|(e & log' & _ & Hdrain1)];
    rewrite Hdrain1 in Hrun; clear Hdrain1; [|discriminate].
  cbn [app] in Hrun.
  destruct (join_loop_result fl env processes (log1 ++ log2))
    as [(log3 & Hjoin & _)|(e & log' & _ & Hjoin)];
    rewrite Hjoin in Hrun; clear Hjoin; [|discriminate].
  destruct got1 as [|r got1].
  - rewrite (Hnil1 eq_refl) in Hsame1. simpl in Hsame1. subst queue1.
    destruct (EmptyQueue_loop_result fl (queue_duration env 1) 0
                (deliver env BeforeSecondDrain processes []) []
                ((log1 ++ log2) ++ log3))
      as [(got2 & queue2 & log4 & Hdrain2 & Hsame2 & _)|(e & log' & _ & Hdrain2)];
      rewrite Hdrain2 in Hrun; clear Hdrain2; [|discriminate].
    cbn [app] in Hrun. right. split; [by apply Hnil1|].
    case_decide; injection Hrun as <- _; by exists queue2.
  - left. case_decide; injection Hrun as <- _; (split; [done|by exists queue1]).
Qed.

(** Every outcome that a run returns was put on the queue by one of the
    processes that the run created, in time for one of the two emptyings,
    after a call of the model that returned (status 0) or raised [GetError]
    (status 1). *)
Lemma BurstRequestsOverTime_origin (burst_requests total_duration : Z)
    (time_between_bursts : float) (results : list ModelResponse)
    (r : ModelResponse) :
  outcome (BurstRequestsOverTime fl env ai_model burst_requests total_duration
             time_between_bursts) = Ok results →
  r ∈ results →
  ∃ (goal_bursts : Z) (p : nat),
    goal_bursts_of total_duration time_between_bursts = Ok goal_bursts ∧
    (p < dispatched burst_requests goal_bursts)%nat ∧
    arrives (worker env p) ≠ NotInTime ∧
    outcome_of_worker (worker env p) r.
Proof.
  intros Hout Hr.
  destruct (BurstRequestsOverTime_prefix _ _ _ _ Hout)
    as (goal_bursts & Hgoal & [[_ [rest Hprefix]]|[_ [rest Hprefix]]]);
    exists goal_bursts.
  - destruct (deliver_elem_of env BeforeFirstDrain
                (seq 0 (dispatched burst_requests goal_bursts)) [] r)
      as [Hnil|(p & Hp & Hwhen & Hput)].
    + rewrite Hprefix. apply elem_of_app. by left.
    + by apply elem_of_nil in Hnil.
    + exists p. apply elem_of_seq in Hp.
      split; [done|]. split; [lia|]. split; [congruence|done].
  - destruct (deliver_elem_of env BeforeSecondDrain
                (seq 0 (dispatched burst_requests goal_bursts)) [] r)
      as [Hnil|(p & Hp & Hwhen & Hput)].
    + rewrite Hprefix. apply elem_of_app. by left.
    + by apply elem_of_nil in Hnil.
    + exists p. apply elem_of_seq in Hp.
      split; [done|]. split; [lia|]. split; [congruence|done].
Qed.

(** What a run raises is what the computation of its number of bursts
    raises, or a [RunError] in strict mode; an exception in a worker
    process does not reach the run. *)
Lemma BurstRequestsOverTime_raise_cases (burst_requests total_duration : Z)
    (time_between_bursts : float) (e : exn) :
  outcome (BurstRequestsOverTime fl env ai_model burst_requests total_duration
             time_between_bursts) = Raise e →
  (goal_bursts_of total_duration time_between_bursts = Raise e ∧
   (e = OverflowError ∨
    (e = ZeroDivisionError ∧ ∃ s, time_between_bursts = S754_zero s) ∨
    e = ValueError)) ∨
  (ai_throw_on_client_errors fl = true ∧
   (∃ goal_bursts,
      goal_bursts_of total_duration time_between_bursts = Ok goal_bursts) ∧
   ∃ error_msg, e = RunError error_msg).
Proof.
  intros Hout. unfold outcome in Hout.
  destruct (goal_bursts_of total_duration time_between_bursts)
    as [goal_bursts|e'] eqn:Hgoal.
  - right.
    destruct (BurstRequestsOverTime_result fl env ai_model burst_requests
                total_duration time_between_bursts goal_bursts Hgoal)
      as [(results & log & Hrun & _)|(error_msg & log & Hstrict & Hrun)];
      rewrite Hrun in Hout; simpl in Hout; [discriminate|].
    split; [done|]. split; [by exists goal_bursts|].
    exists error_msg. congruence.
  - left.
    rewrite (BurstRequestsOverTime_no_goal fl env ai_model burst_requests
               total_duration time_between_bursts e' [] Hgoal) in Hout.
    simpl in Hout. injection Hout as <-. split; [done|].
    by apply (goal_bursts_of_raises total_duration time_between_bursts).
Qed.

(** When no launch is slow, no reading of the first emptying is beyond the
    waiting time, no join is late, and every process puts the outcome of a
    call that returned or raised [GetError] in time for the first emptying,
    the run returns one outcome for each request of each burst and logs
    nothing. *)
Lemma BurstRequestsOverTime_all_collected (burst_requests total_duration : Z)
    (time_between_bursts : float) (goal_bursts : Z) :
  goal_bursts_of total_duration time_between_bursts = Ok goal_bursts →
  0 <= burst_requests →
  (∀ i, ¬ (float_value time_between_bursts < process_startup_duration env i)%Qc) →
  (∀ n, ¬ (_QUEUE_WAIT_TIME < queue_duration env 0 n)%Qc) →
  (∀ p, ¬ (_FAIL_LATENCY < process_duration env p)%Qc) →
  (∀ p, arrives (worker env p) = BeforeFirstDrain ∧
        ∀ name, target (worker env p) ≠ RaisedOther name) →
  ∃ results,
    BurstRequestsOverTime fl env ai_model burst_requests total_duration
      time_between_bursts [] = (Ok results, []) ∧
    Z.of_nat (length results) = burst_requests * Z.max 0 goal_bursts.
Proof.
  intros Hgoal Hrequests Hlaunch Hdrain Hjoin Hworkers.
  set (processes := seq 0 (dispatched burst_requests goal_bursts)).
  set (queue := deliver env BeforeFirstDrain processes []).
  assert (length queue = dispatched burst_requests goal_bursts) as Hlen.
  { unfold queue. rewrite deliver_all.
    - simpl. apply length_seq.
    - apply Forall_forall. intros p _. apply Hworkers. }
  assert (deliver env BeforeSecondDrain processes [] = []) as Hsecond.
  { apply deliver_none, Forall_forall. intros p _.
    destruct (Hworkers p) as [-> _]. done. }
  assert (Z.of_nat (length queue) = burst_requests * Z.max 0 goal_bursts)
    as HlenZ.
  { rewrite Hlen. unfold dispatched. lia. }
  exists queue. split; [|done].
  unfold BurstRequestsOverTime. rewrite Hgoal.
  unfold mbind, M_bind, lift, mret, M_ret, logging.
  cbn beta iota.
  rewrite launch_on_time by (apply Forall_forall; intros i _; apply Hlaunch).
  cbn [app length]. rewrite length_seq.
  fold (dispatched burst_requests goal_bursts). fold processes. fold queue.
  unfold EmptyQueue at 1.
  rewrite EmptyQueue_loop_within_time by (intros k _; apply Hdrain).
  cbn [app].
  rewrite join_loop_on_time by (apply Forall_forall; intros p _; apply Hjoin).
  destruct queue as [|r queue'] eqn:Hqueue.
  - rewrite Hsecond. unfold EmptyQueue. simpl.
    case_decide as Hfewer; [simpl in HlenZ; lia|done].
  - case_decide as Hfewer; [lia|done].
Qed.
End RunTheorems.

(** * The search against the scheduler *)

(** When there is a level to run and the run at the starting level raises,
    the search raises the same and has attempted that level only. *)
Lemma FindMaxThroughput_first_run_raises (fl : Flags)
    (burst : BaseManagedAiModel → Z → Z → Qc → result (list ModelResponse))
    (ai_model : BaseManagedAiModel) (e : exn) :
  ai_starting_requests fl < max_requests fl →
  run_at fl burst ai_model (ai_starting_requests fl) = Raise e →
  outcome (FindMaxThroughput fl burst ai_model) = Raise e ∧
  levels_attempted (logged (FindMaxThroughput fl burst ai_model)) =
    [ai_starting_requests fl].
Proof.
  intros Hrange Hraise.
  pose proof (search_loop_raise fl burst ai_model (ai_starting_requests fl)
                (py_range (ai_starting_requests fl + 3) (max_requests fl) 3)
                e (initial_state fl) [] Hraise) as Hloop.
  rewrite <- py_range_cons in Hloop by done.
  pose proof (FindMaxThroughput_loop_raises fl burst ai_model e _ Hloop) as Hrun.
  unfold outcome, logged. rewrite Hrun. by simpl.
Qed.

Section SearchAgainstScheduler.
Variable fl : Flags.
Variable world : Z → Env.
Variable ai_model : BaseManagedAiModel.


(** With a burst time of zero and a level to run, the first run of the
    scheduler raises and the search with it, whatever the other flags and
    whatever happens: [ZeroDivisionError], or [OverflowError] when the test
    duration is beyond the range of a float, which the division finds
    first. No further level is attempted. *)
Theorem FindMaxThroughput_in_zero_burst_time :
  ai_burst_time fl = 0%Qc →
  ai_starting_requests fl < max_requests fl →
  outcome (FindMaxThroughput_in fl world ai_model) =
    Raise match float_of_int (ai_test_duration fl) with
          | Ok _ => ZeroDivisionError
          | Raise e => e
          end ∧
  levels_attempted (logged (FindMaxThroughput_in fl world ai_model)) =
    [ai_starting_requests fl].
Proof.
  intros Hzero Hrange. unfold FindMaxThroughput_in.
  apply FindMaxThroughput_first_run_raises; [done|].
  unfold run_at, outcome. rewrite Hzero.
  rewrite BurstRequestsOverTime_no_goal
    with (e := match float_of_int (ai_test_duration fl) with
               | Ok _ => ZeroDivisionError
               | Raise e => e
               end); [done|].
  change (float_of_Qc 0%Qc) with (S754_zero false).
  unfold goal_bursts_of, int_truediv_float.
  by destruct (float_of_int (ai_test_duration fl)).
Qed.
End SearchAgainstScheduler.

(** * Run *)

(** When the prompt that [Run] sends for confirmation raises, be it
    [GetError], [Run] raises the same exception and the search attempts no
    level. *)
Theorem Run_confirmation_fails (fl : Flags)
    (burst : BaseManagedAiModel → Z → Z → Qc → result (list ModelResponse))
    (benchmark_spec : BenchmarkSpec) (model : BaseManagedAiModel)
    (endpoints : list string) (e : exn) :
  spec_ai_model benchmark_spec = Some model →
  ListExistingEndpoints benchmark_spec = Ok endpoints →
  _SendPrompt (confirmation benchmark_spec) = Raise e →
  outcome (Run fl burst benchmark_spec) = Raise e ∧
  levels_attempted (logged (Run fl burst benchmark_spec)) = [].
Proof.
  intros Hmodel Hendpoints Hprompt. unfold outcome, logged, Run.
  rewrite Hmodel. run_M. by rewrite Hendpoints, Hprompt.
Qed.

Lemma Run_confirmation_fails_witness :
  outcome (Run (Scenario.flags 5 None) MoreScenarios.always_clean
             (MoreScenarios.spec RaisedGetError)) = Raise GetError ∧
  levels_attempted
    (logged (Run (Scenario.flags 5 None) MoreScenarios.always_clean
               (MoreScenarios.spec RaisedGetError))) = [].
Proof.
  apply (Run_confirmation_fails (Scenario.flags 5 None) MoreScenarios.always_clean
           (MoreScenarios.spec RaisedGetError) Scenario.model ["endpoint"]).
  - reflexivity.
  - reflexivity.
  - reflexivity.
Defined.

(** * What the search and the scheduler raise *)





(** What a run of the scheduler raises is what the computation of its
    number of bursts raises, [OverflowError], [ZeroDivisionError] for a time
    between bursts that is a zero, or [ValueError], or it is a [RunError] in
    strict mode, and nothing else; an exception in a worker process does not
    reach the run. *)
Theorem BurstRequestsOverTime_raises_only (fl : Flags) (env : Env)
    (ai_model : BaseManagedAiModel) (burst_requests total_duration : Z)
    (time_between_bursts : float) (e : exn) :
  outcome (BurstRequestsOverTime fl env ai_model burst_requests total_duration
             time_between_bursts) = Raise e →
  (goal_bursts_of total_duration time_between_bursts = Raise e ∧
   (e = OverflowError ∨
    (e = ZeroDivisionError ∧ ∃ s, time_between_bursts = S754_zero s) ∨
    e = ValueError)) ∨
  (ai_throw_on_client_errors fl = true ∧
   (∃ goal_bursts,
      goal_bursts_of total_duration time_between_bursts = Ok goal_bursts) ∧
   ∃ error_msg, e = RunError error_msg).
Proof. apply BurstRequestsOverTime_raise_cases. Qed.

(** A time between bursts that is not a number. *)
Lemma BurstRequestsOverTime_raises_only_witness :
  (goal_bursts_of 60 S754_nan = Raise ValueError ∧
   (ValueError = OverflowError ∨
    (ValueError = ZeroDivisionError ∧ ∃ s, S754_nan = S754_zero s) ∨
    ValueError = ValueError)) ∨
  (ai_throw_on_client_errors (BurstScenario.strict false) = true ∧
   (∃ goal_bursts, goal_bursts_of 60 S754_nan = Ok goal_bursts) ∧
   ∃ error_msg, ValueError = RunError error_msg).
Proof.
  apply (BurstRequestsOverTime_raises_only (BurstScenario.strict false)
           BurstScenario.calm Scenario.model 5 60 S754_nan).
  by vm_compute.
Defined.

Lemma FindMaxThroughput_in_zero_burst_time_witness :
  outcome (FindMaxThroughput_in MoreScenarios.zero_burst_time
             (fun _ => BurstScenario.calm) Scenario.model) =
    Raise ZeroDivisionError ∧
  levels_attempted (logged (FindMaxThroughput_in MoreScenarios.zero_burst_time
                              (fun _ => BurstScenario.calm) Scenario.model)) = [5].
Proof.
  apply (FindMaxThroughput_in_zero_burst_time MoreScenarios.zero_burst_time
           (fun _ => BurstScenario.calm) Scenario.model).
  - exact Z2Qc_inj_0.
  - by vm_compute.
Defined.

(** * The scheduler on concrete runs *)

(** The outcomes that a run returns are the first outcomes of the queue as
    the first emptying found it, in the order of the queue; only when the
    first emptying found the queue empty are they the first outcomes of the
    queue as it is after the joins. *)
Theorem BurstRequestsOverTime_one_drain (fl : Flags) (env : Env)
    (ai_model : BaseManagedAiModel) (burst_requests total_duration : Z)
    (time_between_bursts : float) (results : list ModelResponse) :
  outcome (BurstRequestsOverTime fl env ai_model burst_requests total_duration
             time_between_bursts) = Ok results →
  ∃ goal_bursts,
    goal_bursts_of total_duration time_between_bursts = Ok goal_bursts ∧
    let processes := seq 0 (dispatched burst_requests goal_bursts) in
    (results ≠ [] ∧
     results `prefix_of` deliver env BeforeFirstDrain processes []) ∨
    (deliver env BeforeFirstDrain processes [] = [] ∧
     results `prefix_of` deliver env BeforeSecondDrain processes []).
Proof. apply BurstRequestsOverTime_prefix. Qed.

(** Five requests every tenth of a second for one second. *)
Lemma BurstRequestsOverTime_one_drain_witness :
  ∃ goal_bursts,
    goal_bursts_of 1 BurstScenario.a_tenth = Ok goal_bursts ∧
    ((responses_of (outcome (BurstRequestsOverTime (BurstScenario.strict false)
                               BurstScenario.calm Scenario.model 5 1
                               BurstScenario.a_tenth)) ≠ [] ∧
      responses_of (outcome (BurstRequestsOverTime (BurstScenario.strict false)
                               BurstScenario.calm Scenario.model 5 1
                               BurstScenario.a_tenth))
        `prefix_of`
      deliver BurstScenario.calm BeforeFirstDrain
        (seq 0 (dispatched 5 goal_bursts)) []) ∨
     (deliver BurstScenario.calm BeforeFirstDrain
        (seq 0 (dispatched 5 goal_bursts)) [] = [] ∧
      responses_of (outcome (BurstRequestsOverTime (BurstScenario.strict false)
                               BurstScenario.calm Scenario.model 5 1
                               BurstScenario.a_tenth))
        `prefix_of`
      deliver BurstScenario.calm BeforeSecondDrain
        (seq 0 (dispatched 5 goal_bursts)) [])).
Proof.
  apply (BurstRequestsOverTime_one_drain (BurstScenario.strict false)
           BurstScenario.calm Scenario.model 5 1 BurstScenario.a_tenth).
  by vm_compute.
Defined.

Lemma EmptyQueue_conserves_witness :
  [Scenario.took 1 0; Scenario.took 2 0] ++ [Scenario.took 3 0] =
    MoreScenarios.three_in_queue ∧
  ([Scenario.took 1 0; Scenario.took 2 0] = [] → MoreScenarios.three_in_queue = []).
Proof.
  apply (EmptyQueue_conserves (BurstScenario.strict false)
           MoreScenarios.late_second_reading MoreScenarios.three_in_queue
           [Scenario.took 1 0; Scenario.took 2 0] [Scenario.took 3 0] []
           [Warning_ClientError QueueWaitExceeded]).
  by vm_compute.
Defined.

Lemma EmptyQueue_within_time_witness :
  EmptyQueue (BurstScenario.strict true) (fun _ => Qc_of_Z 0)
    MoreScenarios.three_in_queue [] = (Ok (MoreScenarios.three_in_queue, []), []).
Proof.
  apply (EmptyQueue_within_time (BurstScenario.strict true) (fun _ => Qc_of_Z 0)
           MoreScenarios.three_in_queue []).
  intros k _. by vm_compute.
Defined.

Lemma EmptyQueue_timeout_witness :
  EmptyQueue (BurstScenario.strict false) MoreScenarios.late_second_reading
    MoreScenarios.three_in_queue [] =
    if ai_throw_on_client_errors (BurstScenario.strict false)
    then (Raise (RunError QueueWaitExceeded), [])
    else (Ok (take 2 MoreScenarios.three_in_queue,
              drop 2 MoreScenarios.three_in_queue),
          [] ++ [Warning_ClientError QueueWaitExceeded]).
Proof.
  apply (EmptyQueue_timeout (BurstScenario.strict false)
           MoreScenarios.late_second_reading 1 MoreScenarios.three_in_queue []).
  - simpl. lia.
  - intros j Hj. assert (j = 0%nat) as -> by lia. by vm_compute.
  - by vm_compute.
Defined.

Lemma launch_keeps_launching_witness :
  launch (BurstScenario.strict false) BurstScenario.slow_launch 1 (Qc_of_Z 1)
    [0%nat; 1%nat] [] [] =
    (Ok ([] ++ seq (length (@nil nat)) (length [0%nat; 1%nat] * Z.to_nat 1)),
     [] ++ ((fun i => Warning_ClientError
                        (StartupTooSlow
                           (process_startup_duration BurstScenario.slow_launch i))) <$>
            filter (fun i => (Qc_of_Z 1 <
                              process_startup_duration BurstScenario.slow_launch i)%Qc)
              [0%nat; 1%nat])).
Proof.
  apply (launch_keeps_launching (BurstScenario.strict false)
           BurstScenario.slow_launch 1 (Qc_of_Z 1) [0%nat; 1%nat] [] []).
  reflexivity.
Defined.


Lemma join_loop_stops_at_first_late_witness :
  join_loop (BurstScenario.strict false) MoreScenarios.late_joins
    ([0%nat] ++ 1%nat :: [2%nat]) [] =
    if ai_throw_on_client_errors (BurstScenario.strict false)
    then (Raise (RunError JoinWaitExceeded), [])
    else (Ok tt, [] ++ [Warning_ClientError JoinWaitExceeded]).
Proof.
  apply (join_loop_stops_at_first_late (BurstScenario.strict false)
           MoreScenarios.late_joins [0%nat] 1%nat [2%nat] []).
  - constructor; [by vm_compute|constructor].
  - by vm_compute.
Defined.

(** * The levels attempted, exactly *)

(** Whatever the scheduler does, the levels attempted are the levels of
    [range(starting, max_requests, 3)] up to and including the first one
    whose run has a failed outcome or raises, and all of them when there is
    no such level. *)
Theorem levels_attempted_until_first_unclean (fl : Flags)
    (burst : BaseManagedAiModel → Z → Z → Qc → result (list ModelResponse))
    (ai_model : BaseManagedAiModel) :
  let levels := py_range (ai_starting_requests fl) (max_requests fl) 3 in
  let clean level := clean_run (run_at fl burst ai_model level) in
  (Forall clean levels ∧
   levels_attempted (logged (FindMaxThroughput fl burst ai_model)) = levels) ∨
  (∃ pre level post,
     levels = pre ++ level :: post ∧ Forall clean pre ∧ ¬ clean level ∧
     levels_attempted (logged (FindMaxThroughput fl burst ai_model)) =
       pre ++ [level]).
Proof. apply levels_attempted_cases. Qed.

(** * A healthy service *)

Lemma filter_none {A} (P : A → Prop) `{!∀ x, Decision (P x)} (l : list A) :
  Forall (fun x => ¬ P x) l → filter P l = [].
Proof.
  induction 1 as [|x l Hx _ IH]; [done|].
  rewrite filter_cons. by case_decide.
Qed.

Section Healthy.
Variable fl : Flags.
Variable world : Z → Env.
Variable ai_model : BaseManagedAiModel.
Variable goal_bursts : Z.

Let levels := py_range (ai_starting_requests fl) (max_requests fl) 3.
Let burst_time : float := float_of_Qc (ai_burst_time fl).
Let burst := fun model level total_duration time_between_bursts =>
  outcome (BurstRequestsOverTime fl (world level) model level
             total_duration (float_of_Qc time_between_bursts)).

Hypothesis starting_positive : 1 <= ai_starting_requests fl.
Hypothesis bursts :
  goal_bursts_of (ai_test_duration fl) burst_time = Ok goal_bursts.
Hypothesis some_burst : 0 < goal_bursts.
Hypothesis launches_on_time : ∀ level i,
  ¬ (float_value burst_time < process_startup_duration (world level) i)%Qc.
Hypothesis queue_in_time : ∀ level n,
  ¬ (_QUEUE_WAIT_TIME < queue_duration (world level) 0 n)%Qc.
Hypothesis joins_in_time : ∀ level p,
  ¬ (_FAIL_LATENCY < process_duration (world level) p)%Qc.
Hypothesis workers_answered : ∀ level p,
  arrives (worker (world level) p) = BeforeFirstDrain ∧
  target (worker (world level) p) = Returned ∧
  ¬ (_FAIL_LATENCY <
     now_after (worker (world level) p) - now_before (worker (world level) p))%Qc.

(** The scheduler does not return for a burst time of zero. *)
Lemma healthy_burst_time : ai_burst_time fl ≠ 0%Qc.
Proof.
  intros Hzero. pose proof bursts as Hgoal.
  unfold burst_time in Hgoal. rewrite Hzero in Hgoal.
  change (float_of_Qc 0%Qc) with (S754_zero false) in Hgoal.
  unfold goal_bursts_of, int_truediv_float in Hgoal.
  by destruct (float_of_int (ai_test_duration fl)).
Qed.

(** Every run at a level of the range is clean and returns one outcome for
    each request of each burst. *)
Lemma healthy_run (level : Z) :
  ai_starting_requests fl <= level →
  ∃ rs, run_at fl burst ai_model level = Ok rs ∧ filter failed rs = [] ∧
        Z.of_nat (length rs) = level * goal_bursts.
Proof.
  intros Hlevel. unfold run_at, burst. fold burst_time.
  destruct (BurstRequestsOverTime_all_collected fl (world level) ai_model level
              (ai_test_duration fl) burst_time goal_bursts)
    as (rs & Hrun & Hlen); try done; try lia.
  { intros p. destruct (workers_answered level p) as (Hwhen & Htarget & _).
    split; [done|]. intros name. by rewrite Htarget. }
  assert (outcome (BurstRequestsOverTime fl (world level) ai_model level
                     (ai_test_duration fl) burst_time) = Ok rs) as Hout
    by (unfold outcome; by rewrite Hrun).
  exists rs. split; [done|]. split; [|lia].
  apply filter_none, Forall_forall. intros r Hr.
  destruct (BurstRequestsOverTime_origin fl (world level) ai_model level
              (ai_test_duration fl) burst_time rs r Hout Hr)
    as (g & p & _ & _ & _ & Hstart & Hend & _ & Hstatus).
  destruct (workers_answered level p) as (_ & Htarget & Hduration).
  intros [Hfailed|Hslow].
  - destruct Hstatus as [[Hzero _]|[_ Hget]]; [done|congruence].
  - unfold duration in Hslow. by rewrite Hstart, Hend in Hslow.
Qed.

(** When the client keeps up and every request is answered within the fail
    latency, the search attempts every level of the range, and if there is
    one it reports the last of them: no failure statistics, a success rate
    of 100, as many responses as that level sent requests, that is the
    level times the number of bursts that the scheduler computes, and
    [max_throughput] = that level over the burst time. *)
Theorem FindMaxThroughput_in_healthy :
  levels_attempted (logged (FindMaxThroughput_in fl world ai_model)) = levels ∧
  (ai_starting_requests fl < max_requests fl →
   ∃ samples last_level,
     outcome (FindMaxThroughput_in fl world ai_model) = Ok samples ∧
     last levels = Some last_level ∧
     metrics samples =
       ["success_rate"; "num_responses"; "median_response_time";
        "mean_response_time"; "max_throughput"] ∧
     sample_value "success_rate" samples = Some (PFloat (Qc_of_Z 100)) ∧
     sample_value "num_responses" samples = Some (PInt (last_level * goal_bursts)) ∧
     sample_value "max_throughput" samples =
       Some (PFloat (Qc_of_Z last_level / ai_burst_time fl)%Qc)).
Proof.
  pose proof healthy_burst_time as Hbt.
  assert (Forall (fun level => clean_run (run_at fl burst ai_model level)) levels)
    as Hclean.
  { apply Forall_forall. intros level (k & -> & _)%elem_of_py_range.
    destruct (healthy_run (ai_starting_requests fl + 3 * Z.of_nat k))
      as (rs & Hrun & Hfailed & _); [lia|]. by exists rs. }
  unfold FindMaxThroughput_in. fold burst. split.
  - by apply levels_attempted_all_clean.
  - intros Hrange.
    destruct (list_nil_or_snoc levels) as [Hnil|(pre & last_level & Hsnoc)].
    { unfold levels in Hnil. by rewrite py_range_cons in Hnil by done. }
    assert (ai_starting_requests fl <= last_level) as Hlast.
    { assert (last_level ∈ levels) as (k & -> & _)%elem_of_py_range; [|lia].
      rewrite Hsnoc. apply elem_of_app. right. apply list_elem_of_here. }
    destruct (healthy_run last_level Hlast) as (rs & Hrun & Hfailed & Hlen).
    assert (rs ≠ []) as Hne by (intros ->; simpl in Hlen; nia).
    rewrite Hsnoc in Hclean. apply Forall_app in Hclean as [Hpre _].
    destruct (FindMaxThroughput_reached_max fl burst ai_model Hbt pre last_level rs
                Hsnoc Hpre Hrun Hfailed Hne) as (med & avg & _ & _ & Hout).
    eexists _, last_level. split; [exact Hout|].
    split; [by rewrite Hsnoc, last_snoc|]. split; [done|].
    split; [|split; [|done]].
    + replace (Qc_of_Z 100)
        with (Qc_of_Z (Z.of_nat (length rs)) /
              Qc_of_Z (Z.of_nat (length rs) + Z.of_nat 0) * Qc_of_Z 100)%Qc;
        [done|].
      apply Qc_ratio_bounds; [destruct rs; [done|simpl; lia]|lia|simpl; lia].
    + by rewrite <- Hlen.
Qed.
End Healthy.

(** Levels 5, 8 and 11 at a burst time of 0.1 for one second: ten bursts at
    each level, and 110 responses at the last. *)
Lemma FindMaxThroughput_in_healthy_witness :
  levels_attempted
    (logged (FindMaxThroughput_in BurstScenario.tenths
               (fun _ => BurstScenario.calm) Scenario.model)) = [5; 8; 11] ∧
  ∃ samples,
    outcome (FindMaxThroughput_in BurstScenario.tenths
               (fun _ => BurstScenario.calm) Scenario.model) = Ok samples ∧
    sample_value "success_rate" samples = Some (PFloat (Qc_of_Z 100)) ∧
    sample_value "num_responses" samples = Some (PInt 110) ∧
    sample_value "max_throughput" samples =
      Some (PFloat (Qc_of_Z 11 / float_value BurstScenario.a_tenth)%Qc).
Proof.
  destruct (FindMaxThroughput_in_healthy BurstScenario.tenths
              (fun _ => BurstScenario.calm) Scenario.model 10)
    as [Hlevels Hreport].
  - by vm_compute.
  - by vm_compute.
  - lia.
  - intros level i. by vm_compute.
  - intros level n. by vm_compute.
  - intros level p. by vm_compute.
  - intros level p. split; [reflexivity|]. split; [reflexivity|]. by vm_compute.
  - split; [exact Hlevels|].
    destruct Hreport as (samples & last_level & Hout & Hlast & _ & Hrate & Hn & Hmax);
      [by vm_compute|].
    assert (last_level = 11) as -> by (vm_compute in Hlast; congruence).
    exists samples. split; [exact Hout|]. split; [exact Hrate|].
    split; [exact Hn|exact Hmax].
Defined.

(** * The outcomes of a run, once more *)

(** Every outcome that a run returns was put on the queue by one of the
    processes that the run created, as many as the bursts that the run
    computed times the requests of a burst, in time for one of the two
    emptyings, after a call of the model that returned (status 0) or raised
    [GetError] (status 1). *)
Theorem BurstRequestsOverTime_outcomes (fl : Flags) (env : Env)
    (ai_model : BaseManagedAiModel) (burst_requests total_duration : Z)
    (time_between_bursts : float) (results : list ModelResponse)
    (r : ModelResponse) :
  outcome (BurstRequestsOverTime fl env ai_model burst_requests total_duration
             time_between_bursts) = Ok results →
  r ∈ results →
  ∃ (goal_bursts : Z) (p : nat),
    goal_bursts_of total_duration time_between_bursts = Ok goal_bursts ∧
    (p < dispatched burst_requests goal_bursts)%nat ∧
    arrives (worker env p) ≠ NotInTime ∧
    outcome_of_worker (worker env p) r.
Proof. apply BurstRequestsOverTime_origin. Qed.

Lemma BurstRequestsOverTime_outcomes_witness :
  ∃ (goal_bursts : Z) (p : nat),
    goal_bursts_of 1 BurstScenario.a_tenth = Ok goal_bursts ∧
    (p < dispatched 5 goal_bursts)%nat ∧
    arrives (worker BurstScenario.calm p) ≠ NotInTime ∧
    outcome_of_worker (worker BurstScenario.calm p) (Scenario.took 1 0).
Proof.
  apply (BurstRequestsOverTime_outcomes (BurstScenario.strict false)
           BurstScenario.calm Scenario.model 5 1 BurstScenario.a_tenth
           (responses_of
              (outcome (BurstRequestsOverTime (BurstScenario.strict false)
                          BurstScenario.calm Scenario.model 5 1
                          BurstScenario.a_tenth)))).
  - by vm_compute.
  - vm_compute. apply list_elem_of_here.
Defined.


